(** * TFBot game board: turn engine, swap coordinator and command serializer

    A shallow embedding of the Snakes & Ladders game pack
    ([games/packs/snakes_ladders.py]) and of the parts of the game board
    manager ([tfbot/games.py]) that queue messages behind the per-thread
    command lock, forfeit players and exchange characters.

    Conventions.
    - Python [int] is [Z]; [//] and [%] are [Z.div] and [Z.modulo] (both
      round towards minus infinity and follow the sign of the divisor).
    - Python [str] is [string], holding the UTF-8 bytes of the text.
    - A Python [dict] keyed by user id is an insertion-ordered association
      list ([PyDict]); a Python [list] is a [list].
    - A raised exception is the [Raise] case of [result]. *)

From Stdlib Require Import ZArith List String Ascii Bool Lia DecimalString
  Permutation.
Import ListNotations.
Local Open Scope Z_scope.

Set Implicit Arguments.

(** ** Exceptions *)

Inductive exn : Type :=
| ValueError
| UnboundLocalError
| RuntimeError.

Inductive result (A : Type) : Type :=
| Ok (a : A)
| Raise (e : exn).

Arguments Ok {A} a.
Arguments Raise {A} e.

Definition rbind {A B : Type} (r : result A) (k : A -> result B) : result B :=
  match r with
  | Ok a => k a
  | Raise e => Raise e
  end.

Notation "'do' x <- r ; k" := (rbind r (fun x => k))
  (at level 10, x name, r at level 100, k at level 200).

(** ** Python strings *)

Module PyStr.

Local Open Scope string_scope.
Local Open Scope Z_scope.

Definition byte_of_Z (b : Z) : ascii := ascii_of_N (Z.to_N b).

(** The UTF-8 bytes of one code point (surrogates are written with the
    generic three-byte form). *)
Definition utf8 (i : Z) : string :=
  if i <? 128 then String (byte_of_Z i) ""
  else if i <? 2048 then
    String (byte_of_Z (192 + Z.shiftr i 6))
      (String (byte_of_Z (128 + Z.land i 63)) "")
  else if i <? 65536 then
    String (byte_of_Z (224 + Z.shiftr i 12))
      (String (byte_of_Z (128 + Z.land (Z.shiftr i 6) 63))
         (String (byte_of_Z (128 + Z.land i 63)) ""))
  else
    String (byte_of_Z (240 + Z.shiftr i 18))
      (String (byte_of_Z (128 + Z.land (Z.shiftr i 12) 63))
         (String (byte_of_Z (128 + Z.land (Z.shiftr i 6) 63))
            (String (byte_of_Z (128 + Z.land i 63)) ""))).

(** [chr(i)]: raises [ValueError] outside [range(0x110000)]. *)
Definition chr (i : Z) : result string :=
  if (0 <=? i) && (i <? 1114112) then Ok (utf8 i) else Raise ValueError.

(** [ord('A')]. *)
Definition ord_A : Z := 65.

(** [str(n)] and the [{n}] field of an f-string, for an [int]. *)
Definition str_of_int (n : Z) : string := NilZero.string_of_int (Z.to_int n).

(** ["sep".join(parts)]. *)
Fixpoint join (sep : string) (parts : list string) : string :=
  match parts with
  | [] => ""
  | [p] => p
  | p :: rest => p ++ sep ++ join sep rest
  end.

Definition newline : string := String (ascii_of_nat 10) "".

(** The text made of the given code points. *)
Definition text_of (code_points : list Z) : string :=
  String.concat "" (map utf8 code_points).

(** [text.startswith(prefix)] *)
Definition startswith (text prefix : string) : bool := String.prefix prefix text.

(** The characters [str.strip()] removes ([str.isspace]), by their UTF-8
    bytes: U+0009..U+000D, U+001C..U+0020; U+0085, U+00A0; U+1680,
    U+2000..U+200A, U+2028, U+2029, U+202F, U+205F, U+3000. *)
Definition space1 (a : Z) : bool :=
  ((9 <=? a) && (a <=? 13)) || ((28 <=? a) && (a <=? 32)).

Definition space2 (a b : Z) : bool :=
  (a =? 194) && ((b =? 133) || (b =? 160)).

Definition space3 (a b c : Z) : bool :=
  ((a =? 225) && (b =? 154) && (c =? 128))
  || ((a =? 226) && (b =? 128)
      && (((128 <=? c) && (c <=? 138)) || (c =? 168) || (c =? 169) || (c =? 175)))
  || ((a =? 226) && (b =? 129) && (c =? 159))
  || ((a =? 227) && (b =? 128) && (c =? 128)).

Definition byte_value (c : ascii) : Z := Z.of_N (N_of_ascii c).

(** [text.lstrip()]; [text.strip().startswith(p)] is
    [text.lstrip().startswith(p)] for a prefix [p] that is not empty. *)
Fixpoint lstrip (text : string) : string :=
  match text with
  | EmptyString => text
  | String a rest1 =>
      if space1 (byte_value a) then lstrip rest1
      else
        match rest1 with
        | EmptyString => text
        | String b rest2 =>
            if space2 (byte_value a) (byte_value b) then lstrip rest2
            else
              match rest2 with
              | EmptyString => text
              | String c rest3 =>
                  if space3 (byte_value a) (byte_value b) (byte_value c)
                  then lstrip rest3
                  else text
              end
        end
  end.

End PyStr.

(** ** Insertion-ordered dictionaries keyed by user id *)

Module PyDict.

Definition dict (V : Type) : Type := list (Z * V).

Section Ops.
Variable V : Type.

(** [d.get(k)] *)
Fixpoint get (d : dict V) (k : Z) : option V :=
  match d with
  | [] => None
  | (k', v) :: rest => if k' =? k then Some v else get rest k
  end.

(** [k in d] *)
Definition mem (d : dict V) (k : Z) : bool :=
  match get d k with Some _ => true | None => false end.

(** [d[k] = v]: an existing key keeps its place, a new key goes last. *)
Fixpoint set (d : dict V) (k : Z) (v : V) : dict V :=
  match d with
  | [] => [(k, v)]
  | (k', v') :: rest =>
      if k' =? k then (k', v) :: rest else (k', v') :: set rest k v
  end.

(** [del d[k]] for a key that may be absent (the callers test first). *)
Fixpoint del (d : dict V) (k : Z) : dict V :=
  match d with
  | [] => []
  | (k', v') :: rest =>
      if k' =? k then rest else (k', v') :: del rest k
  end.

Definition keys (d : dict V) : list Z := map fst d.
Definition values (d : dict V) : list V := map snd d.
Definition items (d : dict V) : list (Z * V) := d.

(** Python dictionaries hold each key once. *)
Definition wf (d : dict V) : Prop := NoDup (keys d).

End Ops.

End PyDict.

(** [x in xs] for a list of user ids. *)
Definition in_list (x : Z) (xs : list Z) : bool :=
  existsb (Z.eqb x) xs.

(** [xs.remove(x)]: drops the first occurrence (the callers test
    membership first, so the [ValueError] of an absent element is never
    reached). *)
Fixpoint list_remove (x : Z) (xs : list Z) : list Z :=
  match xs with
  | [] => []
  | y :: rest => if y =? x then rest else y :: list_remove x rest
  end.

(** ** Configuration ([GameConfig], of which the pack reads [grid] and [rules]) *)

Record GridConfig : Type := mkGrid {
  rows : Z;   (* int(grid.get("rows", 10)) *)
  cols : Z    (* int(grid.get("cols", 10)) *)
}.

Record Rules : Type := mkRules {
  win_tile : Z;                   (* int(rules.get("win_tile", 100)) *)
  starting_tile : Z;              (* int(rules.get("starting_tile", 1)) *)
  starting_position : string;     (* rules.get("starting_position", "A1") *)
  snakes : PyDict.dict Z;         (* head -> tail, keys and values through int() *)
  ladders : PyDict.dict Z         (* base -> top *)
}.

Record GameConfig : Type := mkConfig {
  grid : GridConfig;
  rules : Rules
}.

(** ** Board coordinates ([snakes_ladders.py]) *)

Module Board.

Import PyStr.
Local Open Scope string_scope.
Local Open Scope Z_scope.

(** [tile_number_to_alphanumeric(tile_num, game_config)] *)
Definition tile_number_to_alphanumeric (tile_num : Z) (game_config : GameConfig)
  : result (option string) :=
  if tile_num <? 1 then Ok None
  else
    let rows := rows (grid game_config) in
    let cols := cols (grid game_config) in
    let max_tile := rows * cols in
    if tile_num >? max_tile then Ok None
    else
      let row := ((tile_num - 1) / cols) + 1 in
      let position_in_row := ((tile_num - 1) mod cols) + 1 in
      let column :=
        if row mod 2 =? 1 then position_in_row
        else cols - position_in_row + 1 in
      do col_letter <- chr (ord_A + column - 1);
      Ok (Some (col_letter ++ str_of_int row)).

(** Value of one decimal digit, [None] for any other character. *)
Definition digit_value (c : ascii) : option Z :=
  let n := Z.of_N (N_of_ascii c) in
  if (48 <=? n) && (n <=? 57) then Some (n - 48) else None.

Fixpoint parse_digits (acc : Z) (s : string) : option Z :=
  match s with
  | EmptyString => Some acc
  | String c rest =>
      match digit_value c with
      | Some d => parse_digits (10 * acc + d) rest
      | None => None
      end
  end.

(** Modelled from the spec: [parse_alphanumeric_coordinate] is imported
    from [tfbot/game_board.py], whose source is not available.  The spec
    names the coordinates [A1..J10]: one column letter followed by the row
    number in decimal.  The result is the pair (column index, row index),
    both counted from 1, or [None] for any other text. *)
Definition parse_alphanumeric_coordinate (coord : string) : option (Z * Z) :=
  match coord with
  | EmptyString => None
  | String c rest =>
      let n := Z.of_N (N_of_ascii c) in
      if (65 <=? n) && (n <=? 90) then
        match rest with
        | EmptyString => None
        | _ =>
            match parse_digits 0 rest with
            | Some r => if 1 <=? r then Some (n - 64, r) else None
            | None => None
            end
        end
      else None
  end.

(** [alphanumeric_to_tile_number(coord, game_config)] *)
Definition alphanumeric_to_tile_number (coord : string) (game_config : GameConfig)
  : option Z :=
  match parse_alphanumeric_coordinate coord with
  | None => None
  | Some (column_index_1, row_index_1) =>
      let cols := cols (grid game_config) in
      let position_in_row :=
        if row_index_1 mod 2 =? 1 then column_index_1
        else cols - column_index_1 + 1 in
      Some (((row_index_1 - 1) * cols) + position_in_row)
  end.

(** The text of the coordinate in column [col] and row [row], as the spec
    writes it ([A1], [J10]). *)
Definition coordinate (col row : Z) : string :=
  utf8 (ord_A + col - 1) ++ str_of_int row.

End Board.

Import Board.

(** ** Session data *)

(** [GamePlayer] ([tfbot/game_models.py]): the fields the commands touch. *)
Module GamePlayer.
Record t : Type := mk {
  user_id : Z;
  character_name : option string;
  grid_position : string;
  background_id : option Z;
  outfit_name : option string
}.

Definition with_character_name (p : t) (c : option string) : t :=
  mk (user_id p) c (grid_position p) (background_id p) (outfit_name p).
Definition with_grid_position (p : t) (g : string) : t :=
  mk (user_id p) (character_name p) g (background_id p) (outfit_name p).
Definition with_background_id (p : t) (b : option Z) : t :=
  mk (user_id p) (character_name p) (grid_position p) b (outfit_name p).
Definition with_outfit_name (p : t) (o : option string) : t :=
  mk (user_id p) (character_name p) (grid_position p) (background_id p) o.
End GamePlayer.

(** [TransformationState] ([tfbot/models.py]), with the fields its
    constructor is given in [command_swap] and [_revert_swap_direct]. *)
Module TransformationState.
Record t : Type := mk {
  user_id : Z;
  guild_id : Z;
  character_name : string;
  character_folder : option string;
  character_avatar_path : string;
  character_message : string;
  original_nick : option string;
  started_at : Z;
  expires_at : Z;
  duration_label : string;
  avatar_applied : bool;
  original_display_name : string;
  is_inanimate : bool;
  inanimate_responses : list string;
  form_owner_user_id : option Z;
  identity_display_name : option string;
  is_pillow : bool
}.
End TransformationState.

(** The pack's dictionary [game_state._pack_data] ([get_game_data]).  The
    keys ['game_ended'] and ['removed_player_positions'] are added by
    [on_dice_rolled] and [command_gamequit]; until then [data.get] gives
    [False] and an empty dictionary. *)
Record PackData : Type := mkPack {
  tile_numbers : PyDict.dict Z;
  transformation_counts : PyDict.dict (option Z);
  original_characters : PyDict.dict (option string);
  real_body_characters : PyDict.dict (option string);
  mind_changed : PyDict.dict (option bool);
  turn_order : list Z;
  player_numbers : PyDict.dict Z;
  current_turn_index : Z;
  players_rolled_this_turn : list Z;
  winners : list Z;
  players_reached_end_this_turn : list Z;
  goal_reached_turn : PyDict.dict Z;
  forfeited_players : list Z;
  game_ended : bool;
  removed_player_positions : PyDict.dict string
}.

Definition with_tile_numbers (d : PackData) (v : PyDict.dict Z) : PackData :=
  mkPack v (transformation_counts d) (original_characters d)
    (real_body_characters d) (mind_changed d) (turn_order d) (player_numbers d)
    (current_turn_index d) (players_rolled_this_turn d) (winners d)
    (players_reached_end_this_turn d) (goal_reached_turn d)
    (forfeited_players d) (game_ended d) (removed_player_positions d).

Definition with_transformation_counts (d : PackData) (v : PyDict.dict (option Z))
  : PackData :=
  mkPack (tile_numbers d) v (original_characters d)
    (real_body_characters d) (mind_changed d) (turn_order d) (player_numbers d)
    (current_turn_index d) (players_rolled_this_turn d) (winners d)
    (players_reached_end_this_turn d) (goal_reached_turn d)
    (forfeited_players d) (game_ended d) (removed_player_positions d).

Definition with_original_characters (d : PackData)
  (v : PyDict.dict (option string)) : PackData :=
  mkPack (tile_numbers d) (transformation_counts d) v
    (real_body_characters d) (mind_changed d) (turn_order d) (player_numbers d)
    (current_turn_index d) (players_rolled_this_turn d) (winners d)
    (players_reached_end_this_turn d) (goal_reached_turn d)
    (forfeited_players d) (game_ended d) (removed_player_positions d).

Definition with_real_body_characters (d : PackData)
  (v : PyDict.dict (option string)) : PackData :=
  mkPack (tile_numbers d) (transformation_counts d) (original_characters d)
    v (mind_changed d) (turn_order d) (player_numbers d)
    (current_turn_index d) (players_rolled_this_turn d) (winners d)
    (players_reached_end_this_turn d) (goal_reached_turn d)
    (forfeited_players d) (game_ended d) (removed_player_positions d).

Definition with_mind_changed (d : PackData) (v : PyDict.dict (option bool))
  : PackData :=
  mkPack (tile_numbers d) (transformation_counts d) (original_characters d)
    (real_body_characters d) v (turn_order d) (player_numbers d)
    (current_turn_index d) (players_rolled_this_turn d) (winners d)
    (players_reached_end_this_turn d) (goal_reached_turn d)
    (forfeited_players d) (game_ended d) (removed_player_positions d).

Definition with_players_rolled_this_turn (d : PackData) (v : list Z) : PackData :=
  mkPack (tile_numbers d) (transformation_counts d) (original_characters d)
    (real_body_characters d) (mind_changed d) (turn_order d) (player_numbers d)
    (current_turn_index d) v (winners d)
    (players_reached_end_this_turn d) (goal_reached_turn d)
    (forfeited_players d) (game_ended d) (removed_player_positions d).

Definition with_winners (d : PackData) (v : list Z) : PackData :=
  mkPack (tile_numbers d) (transformation_counts d) (original_characters d)
    (real_body_characters d) (mind_changed d) (turn_order d) (player_numbers d)
    (current_turn_index d) (players_rolled_this_turn d) v
    (players_reached_end_this_turn d) (goal_reached_turn d)
    (forfeited_players d) (game_ended d) (removed_player_positions d).

Definition with_players_reached_end_this_turn (d : PackData) (v : list Z)
  : PackData :=
  mkPack (tile_numbers d) (transformation_counts d) (original_characters d)
    (real_body_characters d) (mind_changed d) (turn_order d) (player_numbers d)
    (current_turn_index d) (players_rolled_this_turn d) (winners d)
    v (goal_reached_turn d)
    (forfeited_players d) (game_ended d) (removed_player_positions d).

Definition with_goal_reached_turn (d : PackData) (v : PyDict.dict Z) : PackData :=
  mkPack (tile_numbers d) (transformation_counts d) (original_characters d)
    (real_body_characters d) (mind_changed d) (turn_order d) (player_numbers d)
    (current_turn_index d) (players_rolled_this_turn d) (winners d)
    (players_reached_end_this_turn d) v
    (forfeited_players d) (game_ended d) (removed_player_positions d).

Definition with_forfeited_players (d : PackData) (v : list Z) : PackData :=
  mkPack (tile_numbers d) (transformation_counts d) (original_characters d)
    (real_body_characters d) (mind_changed d) (turn_order d) (player_numbers d)
    (current_turn_index d) (players_rolled_this_turn d) (winners d)
    (players_reached_end_this_turn d) (goal_reached_turn d)
    v (game_ended d) (removed_player_positions d).

Definition with_game_ended (d : PackData) (v : bool) : PackData :=
  mkPack (tile_numbers d) (transformation_counts d) (original_characters d)
    (real_body_characters d) (mind_changed d) (turn_order d) (player_numbers d)
    (current_turn_index d) (players_rolled_this_turn d) (winners d)
    (players_reached_end_this_turn d) (goal_reached_turn d)
    (forfeited_players d) v (removed_player_positions d).

Definition with_removed_player_positions (d : PackData) (v : PyDict.dict string)
  : PackData :=
  mkPack (tile_numbers d) (transformation_counts d) (original_characters d)
    (real_body_characters d) (mind_changed d) (turn_order d) (player_numbers d)
    (current_turn_index d) (players_rolled_this_turn d) (winners d)
    (players_reached_end_this_turn d) (goal_reached_turn d)
    (forfeited_players d) (game_ended d) v.

Definition with_turn_order (d : PackData) (v : list Z) : PackData :=
  mkPack (tile_numbers d) (transformation_counts d) (original_characters d)
    (real_body_characters d) (mind_changed d) v (player_numbers d)
    (current_turn_index d) (players_rolled_this_turn d) (winners d)
    (players_reached_end_this_turn d) (goal_reached_turn d)
    (forfeited_players d) (game_ended d) (removed_player_positions d).

Definition with_player_numbers (d : PackData) (v : PyDict.dict Z) : PackData :=
  mkPack (tile_numbers d) (transformation_counts d) (original_characters d)
    (real_body_characters d) (mind_changed d) (turn_order d) v
    (current_turn_index d) (players_rolled_this_turn d) (winners d)
    (players_reached_end_this_turn d) (goal_reached_turn d)
    (forfeited_players d) (game_ended d) (removed_player_positions d).

Definition with_current_turn_index (d : PackData) (v : Z) : PackData :=
  mkPack (tile_numbers d) (transformation_counts d) (original_characters d)
    (real_body_characters d) (mind_changed d) (turn_order d) (player_numbers d)
    v (players_rolled_this_turn d) (winners d)
    (players_reached_end_this_turn d) (goal_reached_turn d)
    (forfeited_players d) (game_ended d) (removed_player_positions d).

(** [GameState] ([tfbot/game_models.py]). *)
Record GameState : Type := mkGame {
  game_thread_id : Z;
  map_thread_id : option Z;
  gm_user_id : Z;
  narrator_user_id : option Z;
  bot_user_id : option Z;
  is_locked : bool;
  is_paused : bool;
  game_started : bool;
  turn_count : Z;
  players : PyDict.dict GamePlayer.t;
  player_states : PyDict.dict TransformationState.t;
  _pack_data : PackData
}.

Definition with_players (g : GameState) (v : PyDict.dict GamePlayer.t) : GameState :=
  mkGame (game_thread_id g) (map_thread_id g) (gm_user_id g) (narrator_user_id g)
    (bot_user_id g) (is_locked g) (is_paused g) (game_started g) (turn_count g)
    v (player_states g) (_pack_data g).

Definition with_player_states (g : GameState)
  (v : PyDict.dict TransformationState.t) : GameState :=
  mkGame (game_thread_id g) (map_thread_id g) (gm_user_id g) (narrator_user_id g)
    (bot_user_id g) (is_locked g) (is_paused g) (game_started g) (turn_count g)
    (players g) v (_pack_data g).

Definition with_pack_data (g : GameState) (v : PackData) : GameState :=
  mkGame (game_thread_id g) (map_thread_id g) (gm_user_id g) (narrator_user_id g)
    (bot_user_id g) (is_locked g) (is_paused g) (game_started g) (turn_count g)
    (players g) (player_states g) v.

Definition with_gm_user_id (g : GameState) (v : Z) : GameState :=
  mkGame (game_thread_id g) (map_thread_id g) v (narrator_user_id g)
    (bot_user_id g) (is_locked g) (is_paused g) (game_started g) (turn_count g)
    (players g) (player_states g) (_pack_data g).

Definition with_narrator_user_id (g : GameState) (v : option Z) : GameState :=
  mkGame (game_thread_id g) (map_thread_id g) (gm_user_id g) v
    (bot_user_id g) (is_locked g) (is_paused g) (game_started g) (turn_count g)
    (players g) (player_states g) (_pack_data g).

Definition with_is_locked (g : GameState) (v : bool) : GameState :=
  mkGame (game_thread_id g) (map_thread_id g) (gm_user_id g) (narrator_user_id g)
    (bot_user_id g) v (is_paused g) (game_started g) (turn_count g)
    (players g) (player_states g) (_pack_data g).

Definition with_is_paused (g : GameState) (v : bool) : GameState :=
  mkGame (game_thread_id g) (map_thread_id g) (gm_user_id g) (narrator_user_id g)
    (bot_user_id g) (is_locked g) v (game_started g) (turn_count g)
    (players g) (player_states g) (_pack_data g).

Definition with_game_started (g : GameState) (v : bool) : GameState :=
  mkGame (game_thread_id g) (map_thread_id g) (gm_user_id g) (narrator_user_id g)
    (bot_user_id g) (is_locked g) (is_paused g) v (turn_count g)
    (players g) (player_states g) (_pack_data g).

Definition with_turn_count (g : GameState) (v : Z) : GameState :=
  mkGame (game_thread_id g) (map_thread_id g) (gm_user_id g) (narrator_user_id g)
    (bot_user_id g) (is_locked g) (is_paused g) (game_started g) v
    (players g) (player_states g) (_pack_data g).

(** ** The Snakes & Ladders pack ([games/packs/snakes_ladders.py]) *)

(** What [check_win_condition] announces.  The wording (mentions, character
    names, the final standings) is left to [render_win_message] below. *)
Inductive WinMessage : Type :=
| GameOverWinner (winner : Z)
| GameOverTied (earliest_turn : Z) (tied : list Z)
| ReachedGoal (user : Z) (turn : Z)
| ReachedGoalTogether (users : list Z) (turn : Z).

(** Python truth value of a [str] and of an optional [str]. *)
Definition str_truthy (s : string) : bool :=
  match s with EmptyString => false | _ => true end.

Definition opt_str_truthy (o : option string) : bool :=
  match o with Some s => str_truthy s | None => false end.

Module Pack.

Import PyStr.
Local Open Scope string_scope.
Local Open Scope Z_scope.

Definition emoji_party : string := utf8 127881.   (* U+1F389 *)
Definition emoji_sad : string := utf8 128532.     (* U+1F614 *)
Definition emoji_snake : string := utf8 128013.   (* U+1F40D *)
Definition emoji_ladder : string := utf8 129692.  (* U+1FA9C *)

Section WithText.

(** [get_tile_color_info(tile_number, game_config)]: a note for the game
    master computed from the configuration alone. *)
Variable get_tile_color_info : Z -> GameConfig -> option string.

(** The text of a win announcement, built from the session as it stands
    when the announcement is made. *)
Variable render_win_message : GameState -> WinMessage -> string.

(** [on_character_assigned(game_state, player, character_name)] *)
Definition on_character_assigned (game_state : GameState) (player_id : Z)
  (name : option string) : GameState :=
  let data := _pack_data game_state in
  match PyDict.get (original_characters data) player_id with
  | Some (Some _) => game_state
  | _ =>
      with_pack_data game_state
        (with_original_characters data
           (PyDict.set (original_characters data) player_id name))
  end.

(** One turn of the loop over [data['tile_numbers'].items()] in
    [check_win_condition]; [reachers] is [new_goal_reachers_this_turn]. *)
Definition stamp_goal_reacher (win current_turn : Z)
  (acc : PackData * list Z) (item : Z * Z) : PackData * list Z :=
  let '(data, reachers) := acc in
  let '(uid, tile_num) := item in
  if tile_num >=? win then
    let '(data1, reachers1) :=
      if PyDict.mem (goal_reached_turn data) uid then (data, reachers)
      else (with_goal_reached_turn data
              (PyDict.set (goal_reached_turn data) uid current_turn),
            (reachers ++ [uid])%list) in
    if in_list uid (winners data1) then (data1, reachers1)
    else
      let data2 := with_winners data1 (winners data1 ++ [uid])%list in
      if in_list uid (players_reached_end_this_turn data2)
      then (data2, reachers1)
      else (with_players_reached_end_this_turn data2
              (players_reached_end_this_turn data2 ++ [uid])%list,
            reachers1)
  else acc.

(** [min(d.values())] of a dictionary that is not empty. *)
Definition min_value (d : PyDict.dict Z) : option Z :=
  match PyDict.values d with
  | [] => None
  | v :: rest => Some (fold_left Z.min rest v)
  end.

(** [check_win_condition(game_state, game_config)]: the session after
    the call, and the pair (message, game_ended) or the exception. *)
Definition check_win_condition (game_state : GameState) (game_config : GameConfig)
  : GameState * result (option string * bool) :=
  let data := _pack_data game_state in
  let win := win_tile (rules game_config) in
  let current_turn := turn_count game_state in
  let '(data1, new_goal_reachers_this_turn) :=
    fold_left (stamp_goal_reacher win current_turn)
      (PyDict.items (tile_numbers data)) (data, []) in
  let all_at_end :=
    forallb (fun tile_num => tile_num >=? win)
      (PyDict.values (tile_numbers data1)) in
  if all_at_end then
    if negb (game_ended data1) then
      let data2 := with_game_ended data1 true in
      match min_value (goal_reached_turn data2) with
      | Some earliest_turn =>
          let winners' :=
            map fst
              (filter (fun item => snd item =? earliest_turn)
                 (PyDict.items (goal_reached_turn data2))) in
          let gs3 := with_pack_data game_state (with_winners data2 winners') in
          match winners' with
          | [w] => (gs3, Ok (Some (render_win_message gs3 (GameOverWinner w)), true))
          | _ =>
              (gs3, Ok (Some (render_win_message gs3
                                (GameOverTied earliest_turn winners')), true))
          end
      | None =>
          (* fallback: everyone in tile_numbers wins; [earliest_turn] was
             never bound, so the tied announcement cannot be built *)
          let winners' := PyDict.keys (tile_numbers data2) in
          let gs3 := with_pack_data game_state (with_winners data2 winners') in
          match winners' with
          | [w] => (gs3, Ok (Some (render_win_message gs3 (GameOverWinner w)), true))
          | _ => (gs3, Raise UnboundLocalError)
          end
      end
    else (with_pack_data game_state data1, Ok (None, true))
  else
    let gs1 := with_pack_data game_state data1 in
    match new_goal_reachers_this_turn with
    | [] => (gs1, Ok (None, false))
    | [u] => (gs1, Ok (Some (render_win_message gs1 (ReachedGoal u current_turn)), false))
    | us => (gs1, Ok (Some (render_win_message gs1
                              (ReachedGoalTogether us current_turn)), false))
    end.

(** [advance_turn(game_state)] *)
Definition advance_turn (game_state : GameState) : GameState :=
  let data := _pack_data game_state in
  with_pack_data game_state
    (with_players_reached_end_this_turn
       (with_players_rolled_this_turn data []) []).

(** [data['tile_numbers'].get(user_id, 1)] *)
Definition tile_of (data : PackData) (uid : Z) : Z :=
  match PyDict.get (tile_numbers data) uid with
  | Some t => t
  | None => 1
  end.

(** The test of the loop over [data['turn_order']] in [on_dice_rolled]:
    the entry is a current player, has not rolled this turn, has not
    forfeited and stands below the goal tile. *)
Definition may_roll_next (game_state : GameState) (win : Z) (uid : Z) : bool :=
  let data := _pack_data game_state in
  PyDict.mem (players game_state) uid
  && negb (in_list uid (players_rolled_this_turn data))
  && negb (in_list uid (forfeited_players data))
  && (tile_of data uid <? win).

(** [next_player_id] after that loop. *)
Definition next_player_id (game_state : GameState) (win : Z) : option Z :=
  find (may_roll_next game_state win) (turn_order (_pack_data game_state)).

(** [data.get('player_numbers', {}).get(uid, "?")] inside an f-string. *)
Definition player_number_text (data : PackData) (uid : Z) : string :=
  match PyDict.get (player_numbers data) uid with
  | Some n => str_of_int n
  | None => "?"
  end.

(** [player.grid_position = new_pos] on the player object held in
    [game_state.players]. *)
Definition set_grid_position (game_state : GameState) (uid : Z) (pos : string)
  : GameState :=
  match PyDict.get (players game_state) uid with
  | Some p =>
      with_players game_state
        (PyDict.set (players game_state) uid (GamePlayer.with_grid_position p pos))
  | None => game_state
  end.

(** The three places where [on_dice_rolled] puts the token on a tile:
    [data['tile_numbers'][uid] = tile], then the coordinate of the tile,
    then [player.grid_position] when the coordinate is not [None]. *)
Definition place_token (game_state : GameState) (uid tile : Z)
  (game_config : GameConfig) : GameState * result unit :=
  let data := _pack_data game_state in
  let gs1 :=
    with_pack_data game_state
      (with_tile_numbers data (PyDict.set (tile_numbers data) uid tile)) in
  match tile_number_to_alphanumeric tile game_config with
  | Raise e => (gs1, Raise e)
  | Ok new_pos =>
      match new_pos with
      | Some pos =>
          if str_truthy pos then (set_grid_position gs1 uid pos, Ok tt)
          else (gs1, Ok tt)
      | None => (gs1, Ok tt)
      end
  end.

(** [is_turn_complete] as computed near the end of [on_dice_rolled]. *)
Definition turn_complete (game_state : GameState) (win : Z) : bool :=
  let data := _pack_data game_state in
  match turn_order data with
  | [] => false
  | _ =>
      let active_players :=
        filter (fun uid =>
                  PyDict.mem (players game_state) uid
                  && negb (in_list uid (forfeited_players data))
                  && (tile_of data uid <? win))
          (turn_order data) in
      let active_players_rolled :=
        filter (fun uid => in_list uid active_players)
          (players_rolled_this_turn data) in
      match active_players with
      | [] => true
      | _ => (List.length active_players <=? List.length active_players_rolled)%nat
      end
  end.

(** The part of [on_dice_rolled] after the snake and ladder checks. *)
Definition finish_roll (game_state : GameState) (uid : Z)
  (game_config : GameConfig) (message_parts : list string) (final_tile : Z)
  : GameState * result (string * bool * option string * bool) :=
  let win := win_tile (rules game_config) in
  let parts1 :=
    if (2 <=? final_tile) && (final_tile <=? 99) then
      match get_tile_color_info final_tile game_config with
      | Some info_msg =>
          if str_truthy info_msg then (message_parts ++ [info_msg])%list
          else message_parts
      | None => message_parts
      end
    else message_parts in
  let data := _pack_data game_state in
  let gs1 :=
    if in_list uid (players_rolled_this_turn data) then game_state
    else with_pack_data game_state
           (with_players_rolled_this_turn data
              (players_rolled_this_turn data ++ [uid])%list) in
  let is_turn_complete := turn_complete gs1 win in
  match check_win_condition gs1 game_config with
  | (gs2, Raise e) => (gs2, Raise e)
  | (gs2, Ok (win_msg, ended)) =>
      let parts2 :=
        match win_msg with
        | Some m => if str_truthy m then (parts1 ++ [m])%list else parts1
        | None => parts1
        end in
      let gs3 := with_pack_data gs2 (with_game_ended (_pack_data gs2) ended) in
      (gs3, Ok (join newline parts2, true, None, is_turn_complete))
  end.

(** The message parts that name a redirection. *)
Definition snake_text (tail_tile : Z) : string :=
  emoji_snake ++ " Snake! Slid down to tile " ++ str_of_int tail_tile.

Definition ladder_text (top_tile : Z) : string :=
  emoji_ladder ++ " Ladder! Climbed up to tile " ++ str_of_int top_tile.

(** The guards at the head of [on_dice_rolled]: the message and the
    [is_turn_complete] flag of the early return, or [None] when the roll
    goes ahead. *)
Definition roll_rejection (game_state : GameState) (player_id : Z)
  (game_config : GameConfig) : option (string * bool) :=
  let data := _pack_data game_state in
  let win := win_tile (rules game_config) in
  if in_list player_id (winners data) then
    Some (emoji_party ++ " You've already won! You cannot roll dice anymore. The game continues for other players.",
          false)
  else if in_list player_id (forfeited_players data) then
    Some (emoji_sad ++ " You've forfeited! You cannot roll dice anymore. The game continues for other players.",
          false)
  else if tile_of data player_id >=? win then
    Some (emoji_party ++ " You've reached the goal (tile " ++ str_of_int win
            ++ ")! You cannot roll dice anymore. The game continues for other players.",
          false)
  else if in_list player_id (players_rolled_this_turn data) then
    Some ("You've already rolled this turn! Wait for the turn summary.", false)
  else
    match turn_order data with
    | [] => None
    | _ =>
        match next_player_id game_state win with
        | None =>
            Some ("All players have rolled! Turn summary should be shown.", true)
        | Some next =>
            if negb (player_id =? next) then
              let next_player_num := player_number_text data next in
              let next_player_name :=
                match PyDict.get (players game_state) next with
                | Some np =>
                    if opt_str_truthy (GamePlayer.character_name np)
                    then match GamePlayer.character_name np with
                         | Some n => n
                         | None => ""
                         end
                    else "Player " ++ next_player_num
                | None => "Player " ++ next_player_num
                end in
              Some ("It's not your turn yet! Waiting for Player "
                      ++ next_player_num ++ " (" ++ next_player_name
                      ++ ") to roll.", false)
            else None
        end
    end.

(** The movement of [on_dice_rolled], from "Get current tile" on. *)
Definition resolve_move (game_state : GameState) (player_id : Z)
  (dice_result : Z) (game_config : GameConfig)
  : GameState * result (string * bool * option string * bool) :=
  let data := _pack_data game_state in
  let win := win_tile (rules game_config) in
  let current_tile := tile_of data player_id in
  let tentative := current_tile + dice_result in
  let new_tile := if tentative >=? win then win else tentative in
  match place_token game_state player_id new_tile game_config with
  | (gs1, Raise e) => (gs1, Raise e)
  | (gs1, Ok _) =>
      let message_parts := ["Moved to tile " ++ str_of_int new_tile] in
      match PyDict.get (snakes (rules game_config)) new_tile with
      | Some tail_tile =>
          match place_token gs1 player_id tail_tile game_config with
          | (gs2, Raise e) => (gs2, Raise e)
          | (gs2, Ok _) =>
              finish_roll gs2 player_id game_config
                (message_parts ++ [snake_text tail_tile])%list tail_tile
          end
      | None =>
          match PyDict.get (ladders (rules game_config)) new_tile with
          | Some top_tile =>
              match place_token gs1 player_id top_tile game_config with
              | (gs2, Raise e) => (gs2, Raise e)
              | (gs2, Ok _) =>
                  finish_roll gs2 player_id game_config
                    (message_parts ++ [ladder_text top_tile])%list top_tile
              end
          | None =>
              finish_roll gs1 player_id game_config message_parts new_tile
          end
      end
  end.

(** [on_dice_rolled(game_state, player, dice_result, game_config)], where
    [player] is the object stored in [game_state.players] under
    [player_id] (as [command_dice] passes it).  The result is
    (message, should_auto_move, transformation_character_name,
    is_turn_complete). *)
Definition on_dice_rolled (game_state : GameState) (player_id : Z)
  (dice_result : Z) (game_config : GameConfig)
  : GameState * result (string * bool * option string * bool) :=
  match roll_rejection game_state player_id game_config with
  | Some (msg, complete) => (game_state, Ok (msg, false, None, complete))
  | None => resolve_move game_state player_id dice_result game_config
  end.

End WithText.

(** *** Sorting

    [xs.sort(key=key)].  The sort of Python lists is stable: elements
    whose keys are equal keep the order they had, so the result is the one
    of inserting the elements, last to first, each before the first
    element whose key is not smaller. *)

Section Sorting.

Variable A : Type.
Variable key : A -> Z.

Fixpoint insert_by_key (x : A) (sorted : list A) : list A :=
  match sorted with
  | [] => [x]
  | y :: rest =>
      if key x <=? key y then x :: sorted else y :: insert_by_key x rest
  end.

Definition sort_by_key (xs : list A) : list A :=
  fold_right insert_by_key [] xs.

End Sorting.

(** *** Players joining *)

(** [player_numbers.get(uid, 999)] *)
Definition number_or_999 (data : PackData) (uid : Z) : Z :=
  match PyDict.get (player_numbers data) uid with
  | Some n => n
  | None => 999
  end.

(** [_sort_turn_order_by_player_number(data)] *)
Definition _sort_turn_order_by_player_number (data : PackData) : PackData :=
  match turn_order data, player_numbers data with
  | [], _ => data
  | _, [] => data
  | _, _ =>
      with_turn_order data (sort_by_key (number_or_999 data) (turn_order data))
  end.

(** [on_player_added(game_state, player, game_config)], where [player] is
    the object stored in [game_state.players] under [player_id] (as
    [command_addplayer] passes it). *)
Definition on_player_added (game_state : GameState) (player_id : Z)
  (game_config : GameConfig) : GameState :=
  let data := _pack_data game_state in
  let starting_tile := starting_tile (rules game_config) in
  let starting_position := starting_position (rules game_config) in
  let gs1 :=
    if negb (PyDict.mem (tile_numbers data) player_id) then
      set_grid_position
        (with_pack_data game_state
           (with_tile_numbers data
              (PyDict.set (tile_numbers data) player_id starting_tile)))
        player_id starting_position
    else game_state in
  let data1 := _pack_data gs1 in
  let data2 :=
    with_transformation_counts data1
      (PyDict.set (transformation_counts data1) player_id (Some 0)) in
  let data3 :=
    with_original_characters data2
      (PyDict.set (original_characters data2) player_id None) in
  let data4 :=
    with_real_body_characters data3
      (PyDict.set (real_body_characters data3) player_id None) in
  let data5 :=
    with_mind_changed data4
      (PyDict.set (mind_changed data4) player_id (Some false)) in
  let is_new_player := negb (in_list player_id (turn_order data5)) in
  let data6 :=
    if is_new_player then
      let data_a :=
        with_turn_order data5 (turn_order data5 ++ [player_id])%list in
      let data_b :=
        if PyDict.mem (player_numbers data_a) player_id then data_a
        else
          with_player_numbers data_a
            (PyDict.set (player_numbers data_a) player_id
               (Z.of_nat (List.length (turn_order data_a)))) in
      let data_c :=
        if (List.length (turn_order data_b) =? 1)%nat
        then with_current_turn_index data_b 0
        else data_b in
      _sort_turn_order_by_player_number data_c
    else data5 in
  with_pack_data gs1 data6.

(** *** What the manager asks the pack *)

(** [get_player_tile_number(game_state, user_id)] *)
Definition get_player_tile_number (game_state : GameState) (user_id : Z) : Z :=
  tile_of (_pack_data game_state) user_id.

(** [get_transformation_count(game_state, user_id)]: a stored value comes
    back as it is, [None] included. *)
Definition get_transformation_count (game_state : GameState) (user_id : Z)
  : option Z :=
  match PyDict.get (transformation_counts (_pack_data game_state)) user_id with
  | Some count => count
  | None => Some 0
  end.

(** [get_player_number(game_state, user_id)] *)
Definition get_player_number (game_state : GameState) (user_id : Z) : option Z :=
  PyDict.get (player_numbers (_pack_data game_state)) user_id.

(** [should_update_board(game_state, event)] *)
Definition should_update_board (game_state : GameState) (event : string) : bool :=
  existsb (String.eqb event)
    ["character_assigned"; "dice_rolled"; "turn_complete"; "move"; "win";
     "game_end"].

(** *** Moves by the game master

    [parse_alphanumeric_coordinate] is imported from [tfbot/game_board.py],
    which is not among these sources: here it is a parameter. *)

Section WithParser.

Variable parse_alphanumeric_coordinate : string -> option (Z * Z).

(** [alphanumeric_to_tile_number(coord, game_config)], for any parser of
    coordinates. *)
Definition alphanumeric_to_tile_number (coord : string) (game_config : GameConfig)
  : option Z :=
  match parse_alphanumeric_coordinate coord with
  | None => None
  | Some (column_index_1, row_index_1) =>
      let cols := cols (grid game_config) in
      let position_in_row :=
        if row_index_1 mod 2 =? 1 then column_index_1
        else cols - column_index_1 + 1 in
      Some (((row_index_1 - 1) * cols) + position_in_row)
  end.

(** [validate_move(game_state, player, new_position, game_config)] *)
Definition validate_move (game_state : GameState) (player_id : Z)
  (new_position : string) (game_config : GameConfig) : bool * option string :=
  match alphanumeric_to_tile_number new_position game_config with
  | None => (false, Some ("Invalid coordinate: " ++ new_position))
  | Some tile_num =>
      let win_tile := win_tile (rules game_config) in
      if (tile_num <? 1) || (tile_num >? win_tile) then
        (false,
         Some ("Position " ++ new_position ++ " (tile " ++ str_of_int tile_num
                 ++ ") is out of bounds (1-" ++ str_of_int win_tile ++ ")"))
      else (true, None)
  end.

End WithParser.

(** *** The turn summary *)

(** [text or fallback] for an optional [str]. *)
Definition text_or (text : option string) (fallback : string) : string :=
  match text with
  | Some v => if str_truthy v then v else fallback
  | None => fallback
  end.

(** The keycap sequence after a digit, and the other signs of the
    leaderboard, by the code points the source file holds. *)
Definition keycap : string := text_of [212; 8719; 232; 8218; 201; 163].
Definition gold_medal : string := text_of [63743; 252; 8226; 225].
Definition silver_medal : string := text_of [63743; 252; 8226; 224].
Definition bronze_medal : string := text_of [63743; 252; 8226; 226].
Definition trophy : string := text_of [63743; 252; 232; 220].

(** [number_emojis[d]] for a digit [d] *)
Definition number_emoji (d : Z) : string := utf8 (48 + d) ++ keycap.

(** [fun_emojis[i]] for [i] in [range(3)] *)
Definition fun_emoji (i : Z) : string :=
  if i =? 0 then text_of [63743; 252; 232; 197]
  else if i =? 1 then text_of [8218; 246; 180]
  else text_of [63743; 252; 233; 216].

(** ["".join(number_emojis[int(digit)] for digit in position_str)], each
    digit followed by the keycap sequence. *)
Fixpoint digit_emojis (position_str : string) : string :=
  match position_str with
  | EmptyString => ""
  | String digit rest => String digit keycap ++ digit_emojis rest
  end.

(** The sign in front of the line of rank [position]. *)
Definition place_emoji (position : Z) (is_last : bool) : string :=
  let emoji :=
    if position =? 1 then "1" ++ keycap ++ gold_medal
    else if position =? 2 then "2" ++ keycap ++ silver_medal
    else if position =? 3 then "3" ++ keycap ++ bronze_medal
    else if position <=? 9 then number_emoji position
    else
      let combined := digit_emojis (str_of_int position) in
      if is_last then combined ++ fun_emoji (position mod 3) else combined in
  if is_last && (position >? 3) && (position <=? 9)
  then emoji ++ fun_emoji (position mod 3)
  else emoji.

Section WithGuild.

(** [guild.get_member(user_id).display_name]: [None] when there is no
    guild or the guild does not know the user. *)
Variable display_name : Z -> option string.

(** [player_positions] after [sort(key=lambda x: x[1], reverse=True)]:
    highest tile first, equal tiles in the order of [tile_numbers]. *)
Definition player_positions (game_state : GameState)
  : list (Z * Z * GamePlayer.t) :=
  let data := _pack_data game_state in
  sort_by_key (fun entry => - snd (fst entry))
    (flat_map
       (fun item =>
          match PyDict.get (players game_state) (fst item) with
          | Some player => [(fst item, snd item, player)]
          | None => []
          end)
       (PyDict.items (tile_numbers data))).

(** One line of the leaderboard. *)
Definition summary_line (game_state : GameState) (count : nat) (idx : nat)
  (entry : Z * Z * GamePlayer.t) : string :=
  let data := _pack_data game_state in
  let '(user_id, tile_num, player) := entry in
  let player_name :=
    text_or (GamePlayer.character_name player)
      ("Player " ++ str_of_int user_id) in
  let player_num := player_number_text data user_id in
  let username :=
    match display_name user_id with
    | Some name => name
    | None => "User " ++ str_of_int user_id
    end in
  let position := Z.of_nat idx + 1 in
  let is_last := Z.of_nat idx =? Z.of_nat count - 1 in
  let emoji := place_emoji position is_last in
  let winner_text :=
    if in_list user_id (winners data) then " " ++ trophy ++ " WINNER" else "" in
  let forfeit_text :=
    if in_list user_id (forfeited_players data) then " FORFEIT/QUIT" else "" in
  emoji ++ " Player " ++ player_num ++ " / " ++ player_name ++ " / " ++ username
    ++ ": Tile " ++ str_of_int tile_num ++ winner_text ++ forfeit_text.

(** [get_turn_summary(game_state, game_config, guild)] *)
Definition get_turn_summary (game_state : GameState) (game_config : GameConfig)
  : string :=
  match player_positions game_state with
  | [] => "No players in game."
  | positions =>
      join newline
        (["**Turn Complete!**"; ""; "**Leaderboard (All Players):**"]
           ++ map (fun numbered =>
                     summary_line game_state (List.length positions)
                       (fst numbered) (snd numbered))
                (combine (seq 0 (List.length positions)) positions))%list
  end.

End WithGuild.

End Pack.

(** ** The game board manager ([tfbot/games.py]): forfeits and exchanges

    Replies, board rendering and auto-saves act on the chat and on disk;
    of the session they only touch its board message reference, which is
    not among the fields kept here.  The commands are given after their
    arguments have been resolved to user ids. *)

Module Manager.

Import PyStr.
Local Open Scope string_scope.
Local Open Scope Z_scope.

(** The pack callbacks do not depend on the announcement texts here. *)
Definition on_character_assigned := Pack.on_character_assigned.

(** [x or y] for an optional user id and a user id. *)
Definition id_or (x : option Z) (y : Z) : Z :=
  match x with
  | Some v => if v =? 0 then y else v
  | None => y
  end.

(** [x or y] for an optional [str] and a [str]. *)
Definition str_or (x : option string) (y : string) : string :=
  match x with
  | Some v => if str_truthy v then v else y
  | None => y
  end.

(** [mapping.get(uid)] where the stored value may itself be [None]. *)
Definition get_flat {V : Type} (m : PyDict.dict (option V)) (uid : Z) : option V :=
  match PyDict.get m uid with
  | Some v => v
  | None => None
  end.

(** [_swap_dict_entry(mapping)] inside [_swap_pack_player_metadata]. *)
Definition _swap_dict_entry {V : Type} (mapping : PyDict.dict (option V))
  (user_id1 user_id2 : Z) : PyDict.dict (option V) :=
  let val1 := get_flat mapping user_id1 in
  let val2 := get_flat mapping user_id2 in
  match val1, val2 with
  | None, None => mapping
  | _, _ => PyDict.set (PyDict.set mapping user_id1 val2) user_id2 val1
  end.

(** [_swap_pack_player_metadata(game_state, user_id1, user_id2)]: the
    character-bound dictionaries only; [player_numbers], [turn_order],
    the per-turn lists and [goal_reached_turn] are left alone. *)
Definition _swap_pack_player_metadata (game_state : GameState)
  (user_id1 user_id2 : Z) : GameState :=
  let data := _pack_data game_state in
  let data1 :=
    with_original_characters data
      (_swap_dict_entry (original_characters data) user_id1 user_id2) in
  let data2 :=
    with_real_body_characters data1
      (_swap_dict_entry (real_body_characters data1) user_id1 user_id2) in
  let data3 :=
    with_transformation_counts data2
      (_swap_dict_entry (transformation_counts data2) user_id1 user_id2) in
  let data4 :=
    with_mind_changed data3
      (_swap_dict_entry (mind_changed data3) user_id1 user_id2) in
  with_pack_data game_state data4.

(** The [TransformationState] built for [owner] from its own state
    [mine] and the character data of [theirs]. *)
Definition exchanged_state (owner : Z) (mine theirs : TransformationState.t)
  (form_owner : Z) : TransformationState.t :=
  TransformationState.mk
    owner
    (TransformationState.guild_id mine)
    (TransformationState.character_name theirs)
    (TransformationState.character_folder theirs)
    (TransformationState.character_avatar_path theirs)
    (TransformationState.character_message theirs)
    (TransformationState.original_nick mine)
    (TransformationState.started_at mine)
    (TransformationState.expires_at mine)
    (TransformationState.duration_label mine)
    (TransformationState.avatar_applied mine)
    (TransformationState.original_display_name mine)
    (TransformationState.is_inanimate theirs)
    (TransformationState.inanimate_responses theirs)
    (Some form_owner)
    (Some (str_or (TransformationState.identity_display_name mine)
             (TransformationState.character_name mine)))
    (TransformationState.is_pillow mine).

(** The two player objects after their character, grid position and
    background have been exchanged (and their outfit too when
    [with_outfit]); both are written back under their keys, the second
    last, as the assignments to the two objects go. *)
Definition exchange_players (game_state : GameState) (id1 id2 : Z)
  (player1 player2 : GamePlayer.t) (with_outfit : bool) : GameState :=
  let p1 :=
    GamePlayer.mk (GamePlayer.user_id player1)
      (GamePlayer.character_name player2)
      (GamePlayer.grid_position player2)
      (GamePlayer.background_id player2)
      (if with_outfit then GamePlayer.outfit_name player2
       else GamePlayer.outfit_name player1) in
  let p2 :=
    GamePlayer.mk (GamePlayer.user_id player2)
      (GamePlayer.character_name player1)
      (GamePlayer.grid_position player1)
      (GamePlayer.background_id player1)
      (if with_outfit then GamePlayer.outfit_name player1
       else GamePlayer.outfit_name player2) in
  with_players game_state
    (PyDict.set (PyDict.set (players game_state) id1 p1) id2 p2).

(** [command_swap], from the point where both members are resolved. *)
Definition command_swap (game_state : GameState) (id1 id2 : Z) : GameState :=
  match PyDict.get (players game_state) id1, PyDict.get (players game_state) id2 with
  | Some player1, Some player2 =>
      let char1 := GamePlayer.character_name player1 in
      let char2 := GamePlayer.character_name player2 in
      (* characters, grid positions, backgrounds and outfits *)
      let gs1 := exchange_players game_state id1 id2 player1 player2 true in
      (* TransformationState objects *)
      let gs2 :=
        match PyDict.get (player_states gs1) id1, PyDict.get (player_states gs1) id2 with
        | Some state1, Some state2 =>
            let new_state1 :=
              exchanged_state id1 state1 state2
                (id_or (TransformationState.form_owner_user_id state2) id2) in
            let new_state2 :=
              exchanged_state id2 state2 state1
                (id_or (TransformationState.form_owner_user_id state1) id1) in
            with_player_states gs1
              (PyDict.set (PyDict.set (player_states gs1) id1 new_state1)
                 id2 new_state2)
        | _, _ => gs1
        end in
      (* tile numbers travel with the characters *)
      let data := _pack_data gs2 in
      let gs3 :=
        match PyDict.get (tile_numbers data) id1, PyDict.get (tile_numbers data) id2 with
        | Some tile1, Some tile2 =>
            with_pack_data gs2
              (with_tile_numbers data
                 (PyDict.set (PyDict.set (tile_numbers data) id1 tile2) id2 tile1))
        | _, _ => gs2
        end in
      let gs4 := _swap_pack_player_metadata gs3 id1 id2 in
      (* on_character_assigned for both players *)
      match PyDict.get (players gs4) id1, PyDict.get (players gs4) id2 with
      | Some p1, Some p2 =>
          let gs5 := on_character_assigned gs4 (GamePlayer.user_id p1) char2 in
          on_character_assigned gs5 (GamePlayer.user_id p2) char1
      | _, _ => gs4
      end
  | _, _ => game_state   (* "Both players must be in the game." *)
  end.

(** [(a, b) in chain] *)
Definition pair_in (a b : Z) (chain : list (Z * Z)) : bool :=
  existsb (fun p => (fst p =? a) && (snd p =? b)) chain.

(** The [while] loop of [_build_swap_chain].  Every turn that goes on
    adds to [visited] a key of [player_states] that was not there, so
    the loop ends within [S (length player_states)] turns; [fuel]
    counts them. *)
Fixpoint build_swap_chain_loop (fuel : nat) (game_state : GameState)
  (chain : list (Z * Z)) (visited : list Z) (current_id : Z) : list (Z * Z) :=
  match fuel with
  | O => chain
  | S fuel' =>
      if (current_id =? 0) || in_list current_id visited then chain
      else
        let visited' := current_id :: visited in
        match PyDict.get (player_states game_state) current_id with
        | None => chain
        | Some state =>
            match TransformationState.form_owner_user_id state with
            | None => chain
            | Some other_id =>
                if other_id =? 0 then chain
                else if other_id =? current_id then chain
                else
                  let chain' :=
                    if pair_in current_id other_id chain
                       || pair_in other_id current_id chain
                    then chain
                    else (chain ++ [(current_id, other_id)])%list in
                  build_swap_chain_loop fuel' game_state chain' visited' other_id
            end
        end
  end.

(** [_build_swap_chain(game_state, start_user_id)] *)
Definition _build_swap_chain (game_state : GameState) (start_user_id : Z)
  : list (Z * Z) :=
  build_swap_chain_loop (S (List.length (player_states game_state)))
    game_state [] [] start_user_id.

(** [_revert_swap_direct(game_state, user_id1, user_id2, ctx)] *)
Definition _revert_swap_direct (game_state : GameState) (user_id1 user_id2 : Z)
  : GameState :=
  match PyDict.get (players game_state) user_id1,
        PyDict.get (players game_state) user_id2,
        PyDict.get (player_states game_state) user_id1,
        PyDict.get (player_states game_state) user_id2 with
  | Some player1, Some player2, Some state1, Some state2 =>
      let char1 := GamePlayer.character_name player1 in
      let char2 := GamePlayer.character_name player2 in
      (* characters, grid positions and backgrounds *)
      let gs1 := exchange_players game_state user_id1 user_id2 player1 player2 false in
      (* new states, each owning its form again *)
      let new_state1 := exchanged_state user_id1 state1 state2 user_id1 in
      let new_state2 := exchanged_state user_id2 state2 state1 user_id2 in
      let gs2 :=
        with_player_states gs1
          (PyDict.set (PyDict.set (player_states gs1) user_id1 new_state1)
             user_id2 new_state2) in
      let data := _pack_data gs2 in
      let gs3 :=
        match PyDict.get (tile_numbers data) user_id1,
              PyDict.get (tile_numbers data) user_id2 with
        | Some tile1, Some tile2 =>
            with_pack_data gs2
              (with_tile_numbers data
                 (PyDict.set (PyDict.set (tile_numbers data) user_id1 tile2)
                    user_id2 tile1))
        | _, _ => gs2
        end in
      let gs4 := _swap_pack_player_metadata gs3 user_id1 user_id2 in
      let gs5 := on_character_assigned gs4 (GamePlayer.user_id player1) char2 in
      on_character_assigned gs5 (GamePlayer.user_id player2) char1
  | _, _, _, _ => game_state   (* "Cannot revert swap: missing player or state" *)
  end.

(** [_revert_swap_chain(ctx, game_state, swap_chain)]: the pairs are
    reverted last to first. *)
Definition _revert_swap_chain (game_state : GameState) (swap_chain : list (Z * Z))
  : GameState :=
  fold_left (fun gs pair => _revert_swap_direct gs (fst pair) (snd pair))
    (rev swap_chain) game_state.

(** [del metadata_dict[uid]] when [uid in metadata_dict]. *)
Definition drop_key {V : Type} (d : PyDict.dict V) (uid : Z) : PyDict.dict V :=
  if PyDict.mem d uid then PyDict.del d uid else d.

(** [seq.remove(uid)] when [uid in seq]. *)
Definition drop_member (xs : list Z) (uid : Z) : list Z :=
  if in_list uid xs then list_remove uid xs else xs.

(** [command_gamequit] for the author [author_id] of the command. *)
Definition command_gamequit (game_state : GameState) (author_id : Z) : GameState :=
  if is_locked game_state then game_state          (* "Game is locked." *)
  else
    match PyDict.get (players game_state) author_id with
    | None => game_state                           (* "You're not in this game." *)
    | Some player =>
        let data := _pack_data game_state in
        let data1 :=
          with_removed_player_positions data
            (PyDict.set (removed_player_positions data) author_id
               (GamePlayer.grid_position player)) in
        let data2 :=
          if in_list author_id (forfeited_players data1) then data1
          else with_forfeited_players data1
                 (forfeited_players data1 ++ [author_id])%list in
        let data3 := with_winners data2 (drop_member (winners data2) author_id) in
        let data4 :=
          with_players_rolled_this_turn data3
            (drop_member (players_rolled_this_turn data3) author_id) in
        let data5 :=
          with_original_characters data4
            (drop_key (original_characters data4) author_id) in
        let data6 :=
          with_real_body_characters data5
            (drop_key (real_body_characters data5) author_id) in
        let data7 :=
          with_transformation_counts data6
            (drop_key (transformation_counts data6) author_id) in
        let data8 :=
          with_mind_changed data7 (drop_key (mind_changed data7) author_id) in
        let data9 :=
          with_goal_reached_turn data8
            (drop_key (goal_reached_turn data8) author_id) in
        let data10 :=
          with_players_reached_end_this_turn data9
            (drop_member (players_reached_end_this_turn data9) author_id) in
        with_pack_data game_state data10
    end.

End Manager.

(** ** The command serializer ([tfbot/games.py])

    The event loop runs one coroutine at a time and switches only at an
    [await]; the functions below are given as what one such stretch does
    to the manager.  The chat platform is seen through what it hands back:
    what reading an attachment gives, what fetching a sticker gives. *)

Module Serializer.

Import PyStr.
Local Open Scope string_scope.
Local Open Scope Z_scope.

Definition bytes : Type := list Byte.byte.

Definition bytes_truthy (b : bytes) : bool :=
  match b with [] => false | _ => true end.

Module Author.
Record t : Type := mk {
  id : Z;
  bot : bool;
  is_member : bool;    (* isinstance(author, discord.Member) *)
  is_admin : bool      (* tfbot.utils.is_admin(author) *)
}.
End Author.

Module Channel.
Record t : Type := mk {
  id : Z;
  is_thread : bool;          (* isinstance(channel, discord.Thread) *)
  is_text_channel : bool;    (* isinstance(channel, discord.TextChannel) *)
  parent_id : option Z       (* channel.parent.id, when there is a parent *)
}.
End Channel.

(** [discord.Attachment]; [read] is what [await attachment.read()] gives. *)
Module Attachment.
Record t : Type := mk {
  filename : string;
  content_type : option string;
  read : result bytes
}.
End Attachment.

(** A sticker; [fetch] is what the GET of its URL gives: the HTTP status
    and the body, or an exception. *)
Module Sticker.
Record t : Type := mk {
  id : Z;
  name : string;
  url : option string;
  fetch : result (Z * bytes)
}.
End Sticker.

(** An embed: the URL picked among image, video and thumbnail, the file
    name cut out of it, and what the GET gives (status, body and
    [Content-Type] header). *)
Module Embed.
Record t : Type := mk {
  image_url : option string;
  filename : string;
  fetch : result (Z * bytes * string)
}.
End Embed.

(** The entries of ['attachments'], ['stickers'] and ['embeds'] in the
    queued dictionary. *)
Module AttachmentData.
Record t : Type := mk {
  filename : string;
  bytes_ : bytes;
  content_type : option string
}.
End AttachmentData.

Module StickerData.
Record t : Type := mk {
  name : string;
  bytes_ : bytes;
  filename : string
}.
End StickerData.

Module EmbedData.
Record t : Type := mk {
  filename : string;
  bytes_ : bytes;
  content_type : string
}.
End EmbedData.

(** The dictionary [message_data] put on the queue.  The key ['embeds']
    is only written by [handle_message]. *)
Module MessageData.
Record t : Type := mk {
  content : string;
  author : Author.t;
  channel : Channel.t;
  guild : bool;
  reference : option Z;
  attachments : list AttachmentData.t;
  stickers : list StickerData.t;
  embeds : option (list EmbedData.t);
  id : Z
}.
End MessageData.

(** What [handle_message] is given: a [discord.Message], or the
    [QueuedMessage] rebuilt from the queue, which also carries
    [_attachment_data], [sticker_files] and [embed_files]. *)
Module Message.
Record t : Type := mk {
  id : Z;
  content : string;
  author : Author.t;
  channel : Channel.t;
  guild : bool;
  reference : option Z;
  attachments : list Attachment.t;
  stickers : list Sticker.t;
  embeds : list Embed.t;
  _attachment_data : list AttachmentData.t;
  sticker_files : list (string * bytes);
  embed_files : list (string * bytes)
}.
End Message.

(** The calls of [logger.warning], [logger.error] and
    [logger.exception] on the paths below, by format string and
    subject. *)
Inductive Level : Type := WARNING | ERROR.

Record LogRecord : Type := mkLog {
  level : Level;
  format : string;
  subject : string
}.

(** The manager, with what it did to the outside: log records, messages
    deleted, drop warnings sent to a channel, and the calls of
    [handle_message] in the order they were made. *)
Record State : Type := mkState {
  _has_packs : bool;
  forum_channel_id : Z;
  bot_user : option Z;                               (* self.bot.user.id *)
  _active_games : PyDict.dict GameState;
  _command_locks : PyDict.dict bool;                 (* thread id -> lock.locked() *)
  _message_queues : PyDict.dict (list MessageData.t);
  log : list LogRecord;
  deleted : list Z;
  drop_warnings : list (Z * string);
  handle_message_calls : list (Message.t * bool)     (* (message, is_queued) *)
}.

Definition with_active_games (s : State) (v : PyDict.dict GameState) : State :=
  mkState (_has_packs s) (forum_channel_id s) (bot_user s) v (_command_locks s)
    (_message_queues s) (log s) (deleted s) (drop_warnings s)
    (handle_message_calls s).

Definition with_command_locks (s : State) (v : PyDict.dict bool) : State :=
  mkState (_has_packs s) (forum_channel_id s) (bot_user s) (_active_games s) v
    (_message_queues s) (log s) (deleted s) (drop_warnings s)
    (handle_message_calls s).

Definition with_message_queues (s : State)
  (v : PyDict.dict (list MessageData.t)) : State :=
  mkState (_has_packs s) (forum_channel_id s) (bot_user s) (_active_games s)
    (_command_locks s) v (log s) (deleted s) (drop_warnings s)
    (handle_message_calls s).

Definition add_log (s : State) (records : list LogRecord) : State :=
  mkState (_has_packs s) (forum_channel_id s) (bot_user s) (_active_games s)
    (_command_locks s) (_message_queues s) (log s ++ records)%list (deleted s)
    (drop_warnings s) (handle_message_calls s).

(** [await message.delete()] ([discord.HTTPException] is swallowed). *)
Definition delete_message (s : State) (message_id : Z) : State :=
  mkState (_has_packs s) (forum_channel_id s) (bot_user s) (_active_games s)
    (_command_locks s) (_message_queues s) (log s) (deleted s ++ [message_id])%list
    (drop_warnings s) (handle_message_calls s).

Definition add_drop_warning (s : State) (w : Z * string) : State :=
  mkState (_has_packs s) (forum_channel_id s) (bot_user s) (_active_games s)
    (_command_locks s) (_message_queues s) (log s) (deleted s)
    (drop_warnings s ++ [w])%list (handle_message_calls s).

Definition record_call (s : State) (c : Message.t * bool) : State :=
  mkState (_has_packs s) (forum_channel_id s) (bot_user s) (_active_games s)
    (_command_locks s) (_message_queues s) (log s) (deleted s)
    (drop_warnings s) (handle_message_calls s ++ [c])%list.

(** [_get_command_lock(thread_id).locked()]; a lock that did not exist
    is created free. *)
Definition _get_command_lock (s : State) (thread_id : Z) : State * bool :=
  match PyDict.get (_command_locks s) thread_id with
  | Some held => (s, held)
  | None =>
      (with_command_locks s (PyDict.set (_command_locks s) thread_id false), false)
  end.

(** [self._message_queues[queue_id].append(message_data)], the list
    being created when the key is new. *)
Definition enqueue (s : State) (queue_id : Z) (message_data : MessageData.t) : State :=
  let queue :=
    match PyDict.get (_message_queues s) queue_id with
    | Some q => q
    | None => []
    end in
  with_message_queues s
    (PyDict.set (_message_queues s) queue_id (queue ++ [message_data])%list).

(** [_warn_queue_drop(channel, reason, message_id=..., author_id=...)] *)
Definition _warn_queue_drop (s : State) (channel : Channel.t) (reason : string)
  : State :=
  let s1 := add_log s [mkLog WARNING "Queued message dropped: %s" reason] in
  if Channel.is_thread channel || Channel.is_text_channel channel
  then add_drop_warning s1 (Channel.id channel, reason)
  else s1.

(** *** Capturing a message *)

(** The attachment loop of [handle_message] ([QUEUE-STEP-3]): an
    attachment whose bytes are empty, or whose download fails, is logged
    and left out. *)
Fixpoint queue_attachments (attachments : list Attachment.t)
  : list AttachmentData.t * list LogRecord :=
  match attachments with
  | [] => ([], [])
  | a :: rest =>
      let '(data, records) := queue_attachments rest in
      match Attachment.read a with
      | Ok attachment_bytes =>
          if bytes_truthy attachment_bytes then
            (AttachmentData.mk (Attachment.filename a) attachment_bytes
               (Attachment.content_type a) :: data, records)
          else
            (data,
             mkLog ERROR
               "[QUEUE-STEP-3] ERROR: Attachment %s has empty bytes (0 bytes) - cannot queue! (message_id=%s)"
               (Attachment.filename a) :: records)
      | Raise _ =>
          (data,
           mkLog ERROR
             "[QUEUE-STEP-3] ERROR: Failed to download attachment %s for queuing"
             (Attachment.filename a) :: records)
      end
  end.

(** [f"sticker_{sticker_id}.png"] *)
Definition sticker_filename (sticker_id : Z) : string :=
  "sticker_" ++ str_of_int sticker_id ++ ".png".

(** The sticker loop of [handle_message] ([QUEUE-STEP-4]). *)
Fixpoint queue_stickers (stickers : list Sticker.t)
  : list StickerData.t * list LogRecord :=
  match stickers with
  | [] => ([], [])
  | k :: rest =>
      let '(data, records) := queue_stickers rest in
      if opt_str_truthy (Sticker.url k) then
        match Sticker.fetch k with
        | Ok (status, sticker_bytes) =>
            if status =? 200 then
              if bytes_truthy sticker_bytes then
                (StickerData.mk (Sticker.name k) sticker_bytes
                   (sticker_filename (Sticker.id k)) :: data, records)
              else
                (data,
                 mkLog ERROR
                   "[QUEUE-STEP-4] ERROR: Sticker %s has empty bytes (0 bytes) - cannot queue!"
                   (Sticker.name k) :: records)
            else
              (data,
               mkLog ERROR "[QUEUE-STEP-4] ERROR: Failed to fetch sticker - HTTP status %d"
                 (Sticker.name k) :: records)
        | Raise _ =>
            (data,
             mkLog ERROR "[QUEUE-STEP-4] ERROR: Failed to download sticker %s for queuing"
               (Sticker.name k) :: records)
        end
      else
        (data,
         mkLog ERROR "[QUEUE-STEP-4] ERROR: Sticker has no URL" (Sticker.name k)
           :: records)
  end.

(** The embed loop of [handle_message] ([QUEUE-STEP-4.5]). *)
Fixpoint queue_embeds (embeds : list Embed.t)
  : list EmbedData.t * list LogRecord :=
  match embeds with
  | [] => ([], [])
  | e :: rest =>
      let '(data, records) := queue_embeds rest in
      if opt_str_truthy (Embed.image_url e) then
        match Embed.fetch e with
        | Ok (status, embed_bytes, content_type) =>
            if status =? 200 then
              if bytes_truthy embed_bytes then
                (EmbedData.mk (Embed.filename e) embed_bytes content_type :: data,
                 records)
              else
                (data,
                 mkLog ERROR
                   "[QUEUE-STEP-4.5] ERROR: Embed image has empty bytes (0 bytes) - cannot queue!"
                   (Embed.filename e) :: records)
            else
              (data,
               mkLog ERROR
                 "[QUEUE-STEP-4.5] ERROR: Failed to fetch embed image - HTTP status %d"
                 (Embed.filename e) :: records)
        | Raise _ =>
            (data,
             mkLog ERROR
               "[QUEUE-STEP-4.5] ERROR: Failed to download embed image for queuing"
               (Embed.filename e) :: records)
        end
      else (data, records)
  end.

(** The loop over [link_urls] of [handle_message], run when the message
    has no embed: anything but a non-empty image or video is skipped
    without a record. *)
Fixpoint queue_links (links : list Embed.t) : list EmbedData.t :=
  match links with
  | [] => []
  | l :: rest =>
      let data := queue_links rest in
      match Embed.fetch l with
      | Ok (status, link_bytes, content_type) =>
          if negb (status =? 200) then data
          else if str_truthy content_type
                  && negb (String.prefix "image/" content_type
                           || String.prefix "video/" content_type)
          then data
          else if negb (bytes_truthy link_bytes) then data
          else
            EmbedData.mk (Embed.filename l) link_bytes
              (if str_truthy content_type then content_type else "image/gif")
              :: data
      | Raise _ => data
      end
  end.

(** The attachment loop of [_cache_and_delete_message]: the bytes are
    stored as they were read. *)
Fixpoint cache_attachments (attachments : list Attachment.t)
  : list AttachmentData.t * list LogRecord :=
  match attachments with
  | [] => ([], [])
  | a :: rest =>
      let '(data, records) := cache_attachments rest in
      match Attachment.read a with
      | Ok attachment_bytes =>
          (AttachmentData.mk (Attachment.filename a) attachment_bytes
             (Attachment.content_type a) :: data, records)
      | Raise _ =>
          (data,
           mkLog WARNING "Failed to download attachment %s for queuing: %s"
             (Attachment.filename a) :: records)
      end
  end.

(** The sticker loop of [_cache_and_delete_message]. *)
Fixpoint cache_stickers (stickers : list Sticker.t)
  : list StickerData.t * list LogRecord :=
  match stickers with
  | [] => ([], [])
  | k :: rest =>
      let '(data, records) := cache_stickers rest in
      if opt_str_truthy (Sticker.url k) then
        match Sticker.fetch k with
        | Ok (status, sticker_bytes) =>
            if status =? 200 then
              (StickerData.mk (Sticker.name k) sticker_bytes
                 (sticker_filename (Sticker.id k)) :: data, records)
            else (data, records)
        | Raise _ =>
            (data,
             mkLog WARNING "Failed to download sticker %s for queuing: %s"
               (Sticker.name k) :: records)
        end
      else (data, records)
  end.

(** *** Rebuilding a queued message ([QueuedMessage.__init__]) *)

(** The [AttachmentProxy] objects: an entry without bytes is logged and
    gets no proxy. *)
Fixpoint proxy_attachments (data : list AttachmentData.t)
  : list Attachment.t * list LogRecord :=
  match data with
  | [] => ([], [])
  | d :: rest =>
      let '(proxies, records) := proxy_attachments rest in
      if bytes_truthy (AttachmentData.bytes_ d) then
        (Attachment.mk (AttachmentData.filename d) (AttachmentData.content_type d)
           (Ok (AttachmentData.bytes_ d)) :: proxies, records)
      else
        (proxies,
         mkLog ERROR
           "[RECONSTRUCT-STEP-4] ERROR: AttachmentProxy creation failed - bytes are empty for %s (message_id=%s)"
           (AttachmentData.filename d) :: records)
  end.

Fixpoint rebuild_sticker_files (data : list StickerData.t)
  : list (string * bytes) * list LogRecord :=
  match data with
  | [] => ([], [])
  | d :: rest =>
      let '(files, records) := rebuild_sticker_files rest in
      if bytes_truthy (StickerData.bytes_ d) then
        ((StickerData.filename d, StickerData.bytes_ d) :: files, records)
      else
        (files,
         mkLog ERROR "[RECONSTRUCT-STEP-5] ERROR: Sticker bytes are empty for %s"
           (StickerData.filename d) :: records)
  end.

Fixpoint rebuild_embed_files (data : list EmbedData.t)
  : list (string * bytes) * list LogRecord :=
  match data with
  | [] => ([], [])
  | d :: rest =>
      let '(files, records) := rebuild_embed_files rest in
      if bytes_truthy (EmbedData.bytes_ d) then
        ((EmbedData.filename d, EmbedData.bytes_ d) :: files, records)
      else
        (files,
         mkLog ERROR "[RECONSTRUCT-STEP-5.5] ERROR: Embed bytes are empty for %s"
           (EmbedData.filename d) :: records)
  end.

(** [QueuedMessage(message_data)], with the records its constructor logs. *)
Definition QueuedMessage (data : MessageData.t) : Message.t * list LogRecord :=
  let '(proxies, records1) := proxy_attachments (MessageData.attachments data) in
  let '(sticker_files, records2) := rebuild_sticker_files (MessageData.stickers data) in
  let '(embed_files, records3) :=
    rebuild_embed_files
      (match MessageData.embeds data with Some e => e | None => [] end) in
  (Message.mk (MessageData.id data) (MessageData.content data)
     (MessageData.author data) (MessageData.channel data)
     (MessageData.guild data) (MessageData.reference data)
     proxies [] [] (MessageData.attachments data) sticker_files embed_files,
   (records1 ++ records2 ++ records3)%list).

Section WithEnvironment.

(** [content and content.strip().startswith('!')] *)
Variable starts_with_bang : string -> bool.

(** [content.strip().lower().split()[0]], or [''] when there is no word. *)
Variable first_word_lower : string -> string.

(** [URL_RE.findall(message.content)] ([tfbot/panels.py]), each URL
    with what fetching it gives. *)
Variable link_urls : string -> list Embed.t.

(** What [_detect_and_load_game_thread] finds on disk for a thread
    that has no session in memory. *)
Variable _detect_and_load_game_thread : Channel.t -> option GameState.

(** [_handle_narrator_message(message, game_state)] *)
Variable _handle_narrator_message :
  GameState -> Message.t -> GameState * result unit.

(** The rest of [handle_message], from "Player has character - proceed
    with normal VN panel rendering" on: it works on the session and
    the chat, and never on the command locks or the message queues.
    The last argument is [is_queued]. *)
Variable render_panel : GameState -> Message.t -> bool -> GameState * result bool.

(** [_is_invalid_command(message)] *)
Definition _is_invalid_command (message : Message.t) : bool :=
  if negb (starts_with_bang (Message.content message)) then false
  else
    negb (existsb (String.eqb (first_word_lower (Message.content message)))
            ["!dice"; "!gamequit"; "!players"; "!help"; "!rules"]).

(** [_cache_and_delete_message(message, thread_id, reason, queue_thread_id)] *)
Definition _cache_and_delete_message (s : State) (message : Message.t)
  (thread_id : Z) (queue_thread_id : option Z) : State :=
  if _is_invalid_command message then delete_message s (Message.id message)
  else
    let queue_id := Manager.id_or queue_thread_id thread_id in
    let '(s1, held) := _get_command_lock s queue_id in
    if held then
      let '(attachment_data, records1) :=
        cache_attachments (Message.attachments message) in
      let '(sticker_data, records2) := cache_stickers (Message.stickers message) in
      let message_data :=
        MessageData.mk (Message.content message) (Message.author message)
          (Message.channel message) (Message.guild message)
          (Message.reference message) attachment_data sticker_data None
          (Message.id message) in
      let s2 := add_log s1 (records1 ++ records2)%list in
      let s3 := delete_message s2 (Message.id message) in
      enqueue s3 queue_id message_data
    else delete_message s1 (Message.id message).

(** The dictionary [handle_message] queues for a message, with the
    records logged while its payload is downloaded. *)
Definition capture (message : Message.t) : MessageData.t * list LogRecord :=
  let '(attachment_data, records1) :=
    queue_attachments (Message.attachments message) in
  let '(sticker_data, records2) := queue_stickers (Message.stickers message) in
  let '(embed_data, records3) := queue_embeds (Message.embeds message) in
  let embed_data' :=
    match Message.embeds message with
    | [] => (embed_data ++ queue_links (link_urls (Message.content message)))%list
    | _ => embed_data
    end in
  (MessageData.mk (Message.content message) (Message.author message)
     (Message.channel message) (Message.guild message)
     (Message.reference message) attachment_data sticker_data
     (Some embed_data') (Message.id message),
   (records1 ++ records2 ++ records3)%list).

(** The session [handle_message] works on: the one of the thread, or
    the one whose map thread it is, or the one found on disk; with the
    key under which [_active_games] holds it. *)
Definition find_session (s : State) (channel : Channel.t)
  : State * option (Z * GameState) :=
  let thread_id := Channel.id channel in
  match PyDict.get (_active_games s) thread_id with
  | Some g => (s, Some (thread_id, g))
  | None =>
      match find (fun kv => match map_thread_id (snd kv) with
                            | Some m => m =? thread_id
                            | None => false
                            end)
              (PyDict.items (_active_games s)) with
      | Some (k, g) => (s, Some (k, g))
      | None =>
          match _detect_and_load_game_thread channel with
          | Some g =>
              (with_active_games s (PyDict.set (_active_games s) thread_id g),
               Some (thread_id, g))
          | None => (s, None)
          end
      end
  end.

(** The checks of [handle_message] and of [_execute_gameboard_command]
    that a thread belongs to the forum this bot is configured for. *)
Definition foreign_forum (s : State) (channel : Channel.t) : bool :=
  (forum_channel_id s >? 0)
  && match Channel.parent_id channel with
     | Some p => negb (p =? forum_channel_id s)
     | None => false
     end.

(** [game_state.bot_user_id is not None and game_state.bot_user_id != bot_user_id] *)
Definition other_bot_owns (s : State) (g : GameState) : bool :=
  match bot_user_id g with
  | None => false
  | Some owner =>
      match bot_user s with
      | Some me => negb (owner =? me)
      | None => true
      end
  end.

(** [player and player.character_name] *)
Definition has_character (g : GameState) (uid : Z) : bool :=
  match PyDict.get (players g) uid with
  | Some p => opt_str_truthy (GamePlayer.character_name p)
  | None => false
  end.

(** [handle_message(message, command_invoked=..., is_queued=...)] *)
Definition handle_message (s0 : State) (message : Message.t)
  (command_invoked is_queued : bool) : State * result bool :=
  let s := record_call s0 (message, is_queued) in
  let author := Message.author message in
  let channel := Message.channel message in
  if negb (_has_packs s) then (s, Ok false)
  else if Author.bot author || command_invoked then (s, Ok false)
  else if negb (Channel.is_thread channel) then (s, Ok false)
  else if foreign_forum s channel then (s, Ok false)
  else if negb (Message.guild message) then (s, Ok false)
  else
    let thread_id := Channel.id channel in
    match find_session s channel with
    | (s1, None) => (s1, Ok false)
    | (s1, Some (key, game_state)) =>
        if other_bot_owns s1 game_state then (s1, Ok false)
        else if negb (PyDict.mem (players game_state) (Author.id author))
                && negb ((Author.id author =? gm_user_id game_state)
                         || match narrator_user_id game_state with
                            | Some n => Author.id author =? n
                            | None => false
                            end)
        then (delete_message s1 (Message.id message), Ok true)
        else if in_list (Author.id author)
                  (forfeited_players (_pack_data game_state))
        then (_cache_and_delete_message s1 message thread_id None, Ok true)
        else if match map_thread_id game_state with
                | Some m => negb (m =? 0) && (thread_id =? m)
                | None => false
                end
        then
          if negb (Author.is_admin author)
             || negb (starts_with_bang (Message.content message))
          then (_cache_and_delete_message s1 message thread_id
                  (Some (game_thread_id game_state)), Ok true)
          else (s1, Ok false)
        else if is_locked game_state then (s1, Ok false)
        else
          let '(s2, held) :=
            if is_queued then (s1, false) else _get_command_lock s1 thread_id in
          if held then
            (* a command is processing: queue the message *)
            let '(message_data, records) := capture message in
            let s3 := add_log s2 records in
            let s4 := delete_message s3 (Message.id message) in
            (enqueue s4 thread_id message_data, Ok true)
          else
            let is_gm :=
              Author.is_member author
              && (gm_user_id game_state =? Author.id author) in
            let with_character := has_character game_state (Author.id author) in
            if is_gm && negb with_character then
              if starts_with_bang (Message.content message) then (s2, Ok false)
              else
                match _handle_narrator_message game_state message with
                | (g', Ok _) =>
                    (with_active_games s2 (PyDict.set (_active_games s2) key g'),
                     Ok true)
                | (g', Raise e) =>
                    (with_active_games s2 (PyDict.set (_active_games s2) key g'),
                     Raise e)
                end
            else if negb is_gm && negb with_character then
              (* admin without character, or unassigned player *)
              (_cache_and_delete_message s2 message thread_id None, Ok true)
            else
              match render_panel game_state message is_queued with
              | (g', r) =>
                  (with_active_games s2 (PyDict.set (_active_games s2) key g'), r)
              end
    end.

(** One turn of the loop of [_process_queued_messages]. *)
Definition replay_queued_message (thread_id : Z) (s : State)
  (message_data : MessageData.t) : State :=
  let '(queued_message, records) := QueuedMessage message_data in
  let s1 := add_log s records in
  let '(s2, held) := _get_command_lock s1 thread_id in
  if held then
    add_log s2
      [mkLog WARNING
         "Command lock still held when processing queued messages - skipping to prevent recursion"
         ""]
  else
    match handle_message s2 queued_message false true with
    | (s3, Ok handled) =>
        if handled then s3
        else _warn_queue_drop s3 (Message.channel queued_message)
               "queued message was not handled"
    | (s3, Raise _) =>
        _warn_queue_drop
          (add_log s3 [mkLog ERROR "Error processing queued message from %s: %s" ""])
          (MessageData.channel message_data)
          "exception during queued message replay"
    end.

(** [_process_queued_messages(game_state)] *)
Definition _process_queued_messages (s : State) (game_state : GameState) : State :=
  let thread_id := game_thread_id game_state in
  match PyDict.get (_message_queues s) thread_id with
  | None => s
  | Some [] => s
  | Some messages_to_process =>
      let s1 :=
        with_message_queues s (PyDict.set (_message_queues s) thread_id []) in
      fold_left (replay_queued_message thread_id) messages_to_process s1
  end.

(** [_get_game_state_for_context(ctx)] for a context in [channel]. *)
Definition _get_game_state_for_context (s : State) (channel : Channel.t)
  : State * option GameState :=
  if Channel.is_thread channel then
    match PyDict.get (_active_games s) (Channel.id channel) with
    | Some g => if other_bot_owns s g then (s, None) else (s, Some g)
    | None =>
        match _detect_and_load_game_thread channel with
        | Some g =>
            let s1 :=
              with_active_games s
                (PyDict.set (_active_games s) (Channel.id channel) g) in
            if other_bot_owns s1 g then (s1, None) else (s1, Some g)
        | None => (s, None)
        end
    end
  else (s, None).

(** How a call of [_execute_gameboard_command] stands when control
    comes back: it ran to its end (or to an exception), or it is still
    parked on a lock that someone else holds. *)
Inductive Completion : Type :=
| Finished (r : result unit)
| WaitingForLock.

(** [_execute_gameboard_command(ctx, coro)].  [coro] is everything that
    happens between taking the lock and giving it back: the command
    itself and whatever else the event loop runs at its [await]s. *)
Definition _execute_gameboard_command (s : State) (channel : Channel.t)
  (coro : State -> State * result unit) : State * Completion :=
  if negb (Channel.is_thread channel) then
    let '(s1, r) := coro s in (s1, Finished r)
  else if foreign_forum s channel then (s, Finished (Ok tt))
  else
    let thread_id := Channel.id channel in
    let '(s1, held) := _get_command_lock s thread_id in
    if held then (s1, WaitingForLock)
    else
      (* async with command_lock: await coro() *)
      let s2 := with_command_locks s1 (PyDict.set (_command_locks s1) thread_id true) in
      let '(s3, r) := coro s2 in
      let s4 := with_command_locks s3 (PyDict.set (_command_locks s3) thread_id false) in
      match r with
      | Raise e => (s4, Finished (Raise e))
      | Ok _ =>
          match _get_game_state_for_context s4 channel with
          | (s5, Some game_state) =>
              (_process_queued_messages s5 game_state, Finished (Ok tt))
          | (s5, None) => (s5, Finished (Ok tt))
          end
      end.

(** Why [command_addplayer] answers without adding anyone. *)
Inductive Refusal : Type :=
| NotInServer        (* "This command can only be used inside a server." *)
| NoActiveGame       (* "No active game in this thread." *)
| NotGameMaster      (* "Only the GM can add players." *)
| Usage              (* "Usage: `!addplayer @user [character_name]`" *)
| AlreadyPlaying.    (* "... is already ... in this game." *)

Inductive AddPlayerStart : Type :=
| Refused (why : Refusal)
| Adding (is_re_adding : bool).

(** [command_addplayer(ctx, member)], called without a character name, up
    to its first message to the chat ("Adding player..."): the checks,
    and for a player who had forfeited the removal from
    [forfeited_players].  The session is the object held in
    [_active_games] under the id of the thread. *)
Definition command_addplayer_start (s : State) (channel : Channel.t)
  (author : Author.t) (member : option Z) : State * AddPlayerStart :=
  if negb (Author.is_member author) then (s, Refused NotInServer)
  else
    match _get_game_state_for_context s channel with
    | (s1, None) => (s1, Refused NoActiveGame)
    | (s1, Some game_state) =>
        if negb (Author.is_member author
                 && (gm_user_id game_state =? Author.id author))
        then (s1, Refused NotGameMaster)
        else
          match member with
          | None => (s1, Refused Usage)
          | Some member_id =>
              if PyDict.mem (players game_state) member_id then
                let data := _pack_data game_state in
                if in_list member_id (forfeited_players data) then
                  let game_state' :=
                    with_pack_data game_state
                      (with_forfeited_players data
                         (list_remove member_id (forfeited_players data))) in
                  (with_active_games s1
                     (PyDict.set (_active_games s1) (Channel.id channel) game_state'),
                   Adding true)
                else (s1, Refused AlreadyPlaying)
              else (s1, Adding false)
          end
    end.

End WithEnvironment.

End Serializer.

(** ** The commands of the game master and of the players ([tfbot/games.py])

    Each command is given as what its [_impl] does to the session that
    [_get_game_state_for_context] found for the thread, and the answer it
    sends.  The session plays the Snakes & Ladders pack; the chat takes
    every message the bot sends; rendering the board, the action log and
    the save files do not touch the fields kept here. *)

Module Commands.

Import PyStr.
Local Open Scope string_scope.
Local Open Scope Z_scope.

Module Author := Serializer.Author.

(** [_is_gm(member, game_state)] *)
Definition _is_gm (member : Author.t) (game_state : GameState) : bool :=
  if negb (Author.is_member member) then false
  else if Author.is_admin member then true
  else gm_user_id game_state =? Author.id member.

(** [_is_actual_gm(member, game_state)] *)
Definition _is_actual_gm (member : Author.t) (game_state : GameState) : bool :=
  if negb (Author.is_member member) then false
  else gm_user_id game_state =? Author.id member.

(** The answers of the commands below. *)
Inductive Answer : Type :=
| OnlyInServer      (* "This command can only be used inside a server." *)
| OnlyTheGM         (* "Only the GM can ..." / "Only the GM or an admin can ..." *)
| GameIsLocked      (* "Game is locked and cannot be ..." *)
| NotStartedYet     (* "Game hasn't started yet. Use `!start` to begin the game." *)
| AlreadyPaused     (* "Game is already paused." *)
| NowPaused         (* "Game paused. Dice rolls are blocked until resumed." *)
| NotPaused         (* "Game is not paused." *)
| NowResumed        (* "Game resumed. ..." *)
| AlreadyStarted    (* "Game has already started! Use `!endgame` to end it first." *)
| NoCharactersYet   (* "No players have been assigned characters yet. ..." *)
| NowStarted (player_count : nat)   (* "Game Started! Players ready (n): ..." *)
| NowEnded          (* "Game ended. Thread locked." *)
| UsageHint         (* "Usage: ..." *)
| AlreadyTheGM      (* "That user is already the GM." *)
| GMTransferred     (* "GM role transferred to ..." *)
| NotInTheGame      (* "... is not in the game." *)
| PlayerRemoved     (* "Removed ... from active play. ..." *)
| AlreadyInGame     (* "... is already ... in this game." *)
| PlayerAdded (re_added : bool) (player_number : option Z).
                    (* "Re-added ... to the game ..." / "Added ... to the game ..." *)

(** *** Starting, pausing and ending *)

(** [command_start] *)
Definition command_start (game_state : GameState) (author : Author.t)
  : GameState * Answer :=
  if negb (Author.is_member author) then (game_state, OnlyInServer)
  else if negb (_is_actual_gm author game_state) then (game_state, OnlyTheGM)
  else if is_locked game_state then (game_state, GameIsLocked)
  else if is_paused game_state then (with_is_paused game_state false, NowResumed)
  else if game_started game_state then (game_state, AlreadyStarted)
  else
    let players_with_characters :=
      filter (fun p => opt_str_truthy (GamePlayer.character_name p))
        (PyDict.values (players game_state)) in
    match players_with_characters with
    | [] => (game_state, NoCharactersYet)
    | _ =>
        (with_is_paused (with_game_started game_state true) false,
         NowStarted (List.length players_with_characters))
    end.

(** [command_pause] *)
Definition command_pause (game_state : GameState) (author : Author.t)
  : GameState * Answer :=
  if negb (Author.is_member author) then (game_state, OnlyInServer)
  else if negb (_is_actual_gm author game_state) then (game_state, OnlyTheGM)
  else if is_locked game_state then (game_state, GameIsLocked)
  else if negb (game_started game_state) then (game_state, NotStartedYet)
  else if is_paused game_state then (game_state, AlreadyPaused)
  else (with_is_paused game_state true, NowPaused).

(** [command_resume] *)
Definition command_resume (game_state : GameState) (author : Author.t)
  : GameState * Answer :=
  if negb (Author.is_member author) then (game_state, OnlyInServer)
  else if negb (_is_actual_gm author game_state) then (game_state, OnlyTheGM)
  else if is_locked game_state then (game_state, GameIsLocked)
  else if negb (is_paused game_state) then (game_state, NotPaused)
  else (with_is_paused game_state false, NowResumed).

(** [command_endgame] *)
Definition command_endgame (game_state : GameState) (author : Author.t)
  : GameState * Answer :=
  if negb (Author.is_member author) then (game_state, OnlyInServer)
  else if negb (_is_actual_gm author game_state || Author.is_admin author)
  then (game_state, OnlyTheGM)
  else (with_is_locked game_state true, NowEnded).

(** [command_transfergm(ctx, member)] *)
Definition command_transfergm (game_state : GameState) (author : Author.t)
  (member : option Z) : GameState * Answer :=
  if negb (Author.is_member author) then (game_state, OnlyInServer)
  else if negb (_is_actual_gm author game_state || Author.is_admin author)
  then (game_state, OnlyTheGM)
  else
    match member with
    | None => (game_state, UsageHint)
    | Some member_id =>
        if member_id =? gm_user_id game_state then (game_state, AlreadyTheGM)
        else
          let old_gm_id := gm_user_id game_state in
          let gs1 := with_gm_user_id game_state member_id in
          let gs2 :=
            match narrator_user_id gs1 with
            | Some n => if n =? old_gm_id then with_narrator_user_id gs1 None else gs1
            | None => gs1
            end in
          let gs3 :=
            if negb (Serializer.has_character gs2 member_id)
            then with_narrator_user_id gs2 (Some member_id)
            else
              match narrator_user_id gs2 with
              | Some n =>
                  if n =? member_id then with_narrator_user_id gs2 None else gs2
              | None => gs2
              end in
          (gs3, GMTransferred)
    end.

(** *** Removing and adding players *)

(** [command_removeplayer], [resolved_member] being the member given or
    the one [_resolve_target_member] found for the token. *)
Definition command_removeplayer (game_state : GameState) (author : Author.t)
  (resolved_member : option Z) : GameState * Answer :=
  if negb (Author.is_member author) then (game_state, OnlyInServer)
  else if negb (_is_actual_gm author game_state) then (game_state, OnlyTheGM)
  else
    match resolved_member with
    | None => (game_state, UsageHint)
    | Some member_id =>
        match PyDict.get (players game_state) member_id with
        | None => (game_state, NotInTheGame)
        | Some player =>
            let data := _pack_data game_state in
            let data1 :=
              with_removed_player_positions data
                (PyDict.set (removed_player_positions data) member_id
                   (GamePlayer.grid_position player)) in
            let data2 :=
              with_winners data1 (Manager.drop_member (winners data1) member_id) in
            let data3 :=
              with_players_rolled_this_turn data2
                (Manager.drop_member (players_rolled_this_turn data2) member_id) in
            let data4 :=
              if in_list member_id (forfeited_players data3) then data3
              else with_forfeited_players data3
                     (forfeited_players data3 ++ [member_id])%list in
            let data5 :=
              with_original_characters data4
                (Manager.drop_key (original_characters data4) member_id) in
            let data6 :=
              with_real_body_characters data5
                (Manager.drop_key (real_body_characters data5) member_id) in
            let data7 :=
              with_transformation_counts data6
                (Manager.drop_key (transformation_counts data6) member_id) in
            let data8 :=
              with_mind_changed data7
                (Manager.drop_key (mind_changed data7) member_id) in
            let data9 :=
              with_goal_reached_turn data8
                (Manager.drop_key (goal_reached_turn data8) member_id) in
            let data10 :=
              with_players_reached_end_this_turn data9
                (Manager.drop_member (players_reached_end_this_turn data9)
                   member_id) in
            (with_pack_data game_state data10, PlayerRemoved)
        end
    end.

Section WithPlayerDefaults.

(** The defaults of the [GamePlayer] dataclass ([tfbot/game_models.py],
    not among these sources) for the fields [command_addplayer] does not
    give. *)
Variable default_character_name : option string.
Variable default_outfit_name : option string.

(** [player.grid_position = position] on the object in [game_state.players]. *)
Definition put_at (game_state : GameState) (member_id : Z) (position : string)
  : GameState :=
  Pack.set_grid_position game_state member_id position.

(** [command_addplayer(ctx, member)] called without a character name;
    [game_config] is [self.get_game_config(game_state.game_type)]. *)
Definition command_addplayer (game_state : GameState) (author : Author.t)
  (member : option Z) (game_config : option GameConfig) : GameState * Answer :=
  if negb (Author.is_member author) then (game_state, OnlyInServer)
  else if negb (_is_actual_gm author game_state) then (game_state, OnlyTheGM)
  else
    match member with
    | None => (game_state, UsageHint)
    | Some member_id =>
        let data0 := _pack_data game_state in
        let is_player := PyDict.mem (players game_state) member_id in
        let is_re_adding := is_player && in_list member_id (forfeited_players data0) in
        if is_player && negb is_re_adding then (game_state, AlreadyInGame)
        else
          (* forfeited_players.remove(member.id) *)
          let gs0 :=
            if is_re_adding then
              with_pack_data game_state
                (with_forfeited_players data0
                   (list_remove member_id (forfeited_players data0)))
            else game_state in
          let data := _pack_data gs0 in
          let previous_player_number := PyDict.get (player_numbers data) member_id in
          let preserved_tile := PyDict.get (tile_numbers data) member_id in
          let preserved_grid_position :=
            PyDict.get (removed_player_positions data) member_id in
          let initial_position :=
            match preserved_grid_position with
            | Some position => if str_truthy position then position else "A1"
            | None => "A1"
            end in
          let gs1 :=
            if is_re_adding then put_at gs0 member_id initial_position
            else
              with_players gs0
                (PyDict.set (players gs0) member_id
                   (GamePlayer.mk member_id default_character_name initial_position
                      (Some 415) default_outfit_name)) in
          let gs5 :=
            match game_config with
            | None => gs1
            | Some config =>
                let gs2 := Pack.on_player_added gs1 member_id config in
                let gs3 :=
                  match preserved_tile with
                  | Some tile =>
                      with_pack_data gs2
                        (with_tile_numbers (_pack_data gs2)
                           (PyDict.set (tile_numbers (_pack_data gs2)) member_id tile))
                  | None => gs2
                  end in
                let gs4 :=
                  if opt_str_truthy preserved_grid_position
                  then put_at gs3 member_id initial_position
                  else gs3 in
                match previous_player_number with
                | Some previous =>
                    match PyDict.get (player_numbers (_pack_data gs4)) member_id with
                    | Some current =>
                        if current =? previous then gs4
                        else
                          with_pack_data gs4
                            (with_player_numbers (_pack_data gs4)
                               (PyDict.set (player_numbers (_pack_data gs4))
                                  member_id previous))
                    | None =>
                        with_pack_data gs4
                          (with_player_numbers (_pack_data gs4)
                             (PyDict.set (player_numbers (_pack_data gs4))
                                member_id previous))
                    end
                | None => gs4
                end
            end in
          (gs5,
           PlayerAdded is_re_adding
             (PyDict.get (player_numbers (_pack_data gs5)) member_id))
    end.

End WithPlayerDefaults.

(** *** Rolling the dice *)

(** What [command_dice] answers. *)
Inductive DiceAnswer : Type :=
| DiceLocked          (* "Game is locked." *)
| DiceSilenced        (* paused: the command message is deleted, nothing is said *)
| DiceNotStarted      (* "Game hasn't started yet! ..." *)
| DiceTargetNotInGame (* "... is not in this game." *)
| DiceGMNotPlayer     (* "You're not a player in this game. Use `!dice @player` ..." *)
| DiceNotInGame       (* "You're not in this game." *)
| DiceNoConfig        (* "Game configuration not found." *)
| DiceError           (* "Error processing dice roll: ..." *)
| DiceNotice (pack_msg : string)                    (* the pack's message alone *)
| DiceRolled (pack_msg : string) (turn_complete : bool).   (* the roll embed *)

(** The three messages of the pack that [command_dice] passes on without
    a roll embed.  The source tests [pack_msg.strip().startswith(...)];
    none of the three prefixes ends in white space, so what is stripped
    at the end of the message does not change the answer. *)
Definition is_special_notice (pack_msg : string) : bool :=
  let special_notice := lstrip pack_msg in
  startswith special_notice
    "You've already rolled this turn! Wait for the turn summary."
  || startswith special_notice "It's not your turn yet!"
  || startswith special_notice
       "All players have rolled! Turn summary should be shown.".

(** The first part of [command_dice]: whose token the roll is for, or
    the answer that ends the command. *)
Definition dice_player (game_state : GameState) (author : Author.t)
  (target_player : option Z) : DiceAnswer + Z :=
  let is_gm := _is_actual_gm author game_state in
  match target_player, is_gm with
  | Some target, true =>
      if negb (game_started game_state) then inl DiceNotStarted
      else if negb (PyDict.mem (players game_state) target)
      then inl DiceTargetNotInGame
      else inr target
  | None, true =>
      if PyDict.mem (players game_state) (Author.id author) then
        if negb (game_started game_state) then inl DiceNotStarted
        else inr (Author.id author)
      else inl DiceGMNotPlayer
  | _, false =>
      if negb (game_started game_state) then inl DiceNotStarted
      else if negb (PyDict.mem (players game_state) (Author.id author))
      then inl DiceNotInGame
      else inr (Author.id author)
  end.

Section WithTexts.

Variable get_tile_color_info : Z -> GameConfig -> option string.
Variable render_win_message : GameState -> WinMessage -> string.

(** [guild.get_member(user_id).display_name]: [None] when there is no
    guild or the guild does not know the user. *)
Variable display_name : Z -> option string.

(** The loop over [turn_order] in [_get_next_player_info]. *)
Fixpoint next_player_scan (game_state : GameState) (win_tile : Z)
  (turn_order : list Z) : option (Z * string * Z * string) :=
  let data := _pack_data game_state in
  match turn_order with
  | [] => None
  | user_id :: rest =>
      if in_list user_id (forfeited_players data)
      then next_player_scan game_state win_tile rest
      else if Pack.tile_of data user_id >=? win_tile
      then next_player_scan game_state win_tile rest
      else if match players_rolled_this_turn data with
              | [] => false
              | rolled => in_list user_id rolled
              end
      then next_player_scan game_state win_tile rest
      else
        match PyDict.get (players game_state) user_id with
        | None => next_player_scan game_state win_tile rest
        | Some player =>
            match PyDict.get (player_numbers data) user_id with
            | None => next_player_scan game_state win_tile rest
            | Some player_num =>
                let character_name :=
                  Pack.text_or (GamePlayer.character_name player)
                    ("Player " ++ str_of_int player_num) in
                let username :=
                  match display_name user_id with
                  | Some name => name
                  | None => "User " ++ str_of_int user_id
                  end in
                Some (player_num, character_name, user_id, username)
            end
        end
  end.

(** [_get_next_player_info(game_state, pack, guild)]: (player number,
    character name, user id, user name) of the player whose turn is
    announced. *)
Definition _get_next_player_info (game_state : GameState)
  (game_config : option GameConfig) : option (Z * string * Z * string) :=
  let win_tile :=
    match game_config with
    | Some config => win_tile (rules config)
    | None => 100
    end in
  next_player_scan game_state win_tile (turn_order (_pack_data game_state)).

(** [command_dice(ctx, target_player)]; [total] is the sum of the dice
    thrown.  [on_dice_rolled] of this pack never asks for a
    transformation. *)
Definition command_dice (game_state : GameState) (author : Author.t)
  (target_player : option Z) (game_config : option GameConfig) (total : Z)
  : GameState * DiceAnswer :=
  if is_locked game_state then (game_state, DiceLocked)
  else if is_paused game_state then (game_state, DiceSilenced)
  else
    match dice_player game_state author target_player with
    | inl answer => (game_state, answer)
    | inr player_id =>
        match game_config with
        | None => (game_state, DiceNoConfig)
        | Some config =>
            match Pack.on_dice_rolled get_tile_color_info render_win_message
                    game_state player_id total config with
            | (gs1, Raise _) => (gs1, DiceError)
            | (gs1, Ok (pack_msg, should_auto_move, transformation_char,
                        is_turn_complete)) =>
                if str_truthy pack_msg
                   && negb (opt_str_truthy transformation_char)
                   && is_special_notice pack_msg
                then (gs1, DiceNotice pack_msg)
                else if is_turn_complete then
                  (* advance_turn, then game_state.turn_count += 1 *)
                  (with_turn_count (Pack.advance_turn gs1) (turn_count gs1 + 1),
                   DiceRolled pack_msg true)
                else (gs1, DiceRolled pack_msg false)
            end
        end
    end.

End WithTexts.

(** *** Save files

    The choice of the next number, from the point where the numbers of
    the save files found on disk have been collected. *)

(** [_get_next_autosave_number]: [existing] is what was added to the set
    [existing_numbers], in the order of the files. *)
Definition _get_next_autosave_number (existing : list Z) : Z :=
  let existing_numbers := nodup Z.eq_dec existing in
  if (List.length existing_numbers =? 3)%nat then 1
  else
    match existing_numbers with
    | [] => 1
    | _ =>
        match find (fun num => negb (in_list num existing_numbers)) [1; 2; 3] with
        | Some num => num
        | None => 1
        end
    end.

(** [_get_next_manualsave_number] *)
Definition _get_next_manualsave_number (existing_numbers : list Z) : Z :=
  match existing_numbers with
  | [] => 1
  | n :: rest => fold_left Z.max rest n + 1
  end.

End Commands.

(** * Properties *)

Unset Implicit Arguments.

(** ** Definitions used in the statements *)

Import Board.

(** The tile numbers [1..n]. *)
Definition tiles_upto (n : nat) : list Z := map Z.of_nat (seq 1 n).

(** Tile to coordinate and back gives the tile. *)
Definition tile_roundtrip_ok (cfg : GameConfig) (t : Z) : bool :=
  match tile_number_to_alphanumeric t cfg with
  | Ok (Some s) =>
      match alphanumeric_to_tile_number s cfg with
      | Some t' => t' =? t
      | None => false
      end
  | _ => false
  end.

(** Coordinate to tile and back gives the coordinate, and the tile lies
    on the board of [n] tiles. *)
Definition coordinate_roundtrip_ok (cfg : GameConfig) (n : Z) (col row : Z) : bool :=
  match alphanumeric_to_tile_number (coordinate col row) cfg with
  | Some t =>
      (1 <=? t) && (t <=? n)
      && match tile_number_to_alphanumeric t cfg with
         | Ok (Some s) => String.eqb s (coordinate col row)
         | _ => false
         end
  | None => false
  end.

(** The classic board: 10 by 10, goal tile 100. *)
Definition classic_config (snakes ladders : PyDict.dict Z) : GameConfig :=
  mkConfig (mkGrid 10 10) (mkRules 100 1 "A1" snakes ladders).

(** A board of one row and 1114048 columns. *)
Definition wide_config : GameConfig :=
  mkConfig (mkGrid 1 1114048) (mkRules 1114048 1 "A1" [] []).

(** The guards of [on_dice_rolled] let the roll of [p] go ahead: [p] has
    not won, has not forfeited, stands below the goal tile, has not rolled
    this turn and, when there is a turn order, is the next player in it. *)
Definition may_roll (game_state : GameState) (game_config : GameConfig) (p : Z)
  : bool :=
  let data := _pack_data game_state in
  let win := win_tile (rules game_config) in
  negb (in_list p (winners data))
  && negb (in_list p (forfeited_players data))
  && (Pack.tile_of data p <? win)
  && negb (in_list p (players_rolled_this_turn data))
  && match turn_order data with
     | [] => true
     | _ =>
         match Pack.next_player_id game_state win with
         | Some next => next =? p
         | None => false
         end
     end.

(** The first entry of the turn list that is not forfeited, has not acted
    this cycle and has not reached the goal tile. *)
Definition first_eligible (game_state : GameState) (win : Z) : option Z :=
  let data := _pack_data game_state in
  find (fun u =>
          negb (in_list u (forfeited_players data))
          && negb (in_list u (players_rolled_this_turn data))
          && (Pack.tile_of data u <? win))
    (turn_order data).


(** [part in text] *)
Definition mentions (text part : string) : Prop :=
  exists before after : string, text = (before ++ part ++ after)%string.

(** ** Sessions used as examples *)

Definition no_tile_info : Z -> GameConfig -> option string := fun _ _ => None.

Definition plain_win_text : GameState -> WinMessage -> string := fun _ _ => "win"%string.

Definition example_player (uid : Z) (name pos : string) (bg : Z) (outfit : string)
  : GamePlayer.t :=
  GamePlayer.mk uid (Some name) pos (Some bg) (Some outfit).

Definition three_players : PyDict.dict GamePlayer.t :=
  [(1, example_player 1 "Alice" "J1" 1 "casual");
   (2, example_player 2 "Bob" "D1" 2 "formal");
   (3, example_player 3 "Carol" "H1" 3 "sporty")].

Definition example_pack (tiles : PyDict.dict Z) (rolled winners_ : list Z)
  (goal_turns : PyDict.dict Z) (forfeited : list Z) : PackData :=
  mkPack tiles
    [(1, Some 0); (2, Some 0); (3, Some 0)]
    [(1, Some "Alice"%string); (2, Some "Bob"%string); (3, Some "Carol"%string)]
    [(1, None); (2, None); (3, None)]
    [(1, Some false); (2, Some false); (3, Some false)]
    [1; 2; 3]
    [(1, 1); (2, 2); (3, 3)]
    0 rolled winners_ [] goal_turns forfeited false [].

Definition example_session (turn : Z)
  (states : PyDict.dict TransformationState.t) (data : PackData) : GameState :=
  mkGame 700 None 99 None None false false true turn three_players states data.

(** Everyone stands on tile 100; players 1 and 2 got there on turn 5,
    player 3 only now, on turn 7. *)
Definition finished_session : GameState :=
  example_session 7 []
    (example_pack [(1, 100); (2, 100); (3, 100)] [] [1; 2] [(1, 5); (2, 5)] []).

(** Turn 3 of a game on the classic board with the snake 16 -> 6:
    player 1 stands on tile 10 and nobody has rolled yet. *)
Definition snake_config : GameConfig := classic_config [(16, 6)] [].

Definition midgame_session : GameState :=
  example_session 3 [] (example_pack [(1, 10); (2, 4); (3, 8)] [] [] [] []).

(** The forfeit as the specification has it: between [before] and [after] nothing
    but the forfeited list and the winners list differs. *)
Definition forfeit_flips_only (before after : GameState) : Prop :=
  after
  = with_pack_data before
      (with_winners
         (with_forfeited_players (_pack_data before)
            (forfeited_players (_pack_data after)))
         (winners (_pack_data after))).

(** Turn 3: players 1 and 2 have rolled, player 3 has not. *)
Definition two_rolled_session : GameState :=
  example_session 3 [] (example_pack [(1, 10); (2, 4); (3, 8)] [1; 2] [] [] []).

(** Turn 6: player 1 has been on tile 100 since turn 5 and is a winner;
    players 2 and 3 are still on their way. *)
Definition one_finished_session : GameState :=
  example_session 6 []
    (example_pack [(1, 100); (2, 4); (3, 8)] [] [1] [(1, 5)] []).

Definition example_state (uid : Z) (name : string) : TransformationState.t :=
  TransformationState.mk uid 1 name (Some name) name ""%string None 0 0 ""%string
    false name false [] (Some uid) (Some name) false.

(** Players 1 (Alice, casual outfit) and 2 (Bob, formal outfit), each in
    their own form. *)
Definition unswapped_session : GameState :=
  example_session 3
    [(1, example_state 1 "Alice"); (2, example_state 2 "Bob")]
    (example_pack [(1, 10); (2, 4); (3, 8)] [] [] [] []).

(** ** The serializer: what the statements speak of *)

(** The queue of a thread (empty when the thread has none yet). *)
Definition queue_of (s : Serializer.State) (thread_id : Z)
  : list Serializer.MessageData.t :=
  match PyDict.get (Serializer._message_queues s) thread_id with
  | Some q => q
  | None => []
  end.



(** The two managers are set up alike: same switch, forum, bot user,
    sessions and locks. *)
Definition same_setup (s s' : Serializer.State) : Prop :=
  Serializer._has_packs s' = Serializer._has_packs s
  /\ Serializer.forum_channel_id s' = Serializer.forum_channel_id s
  /\ Serializer.bot_user s' = Serializer.bot_user s
  /\ Serializer._active_games s' = Serializer._active_games s
  /\ Serializer._command_locks s' = Serializer._command_locks s.

(** The message gets as far as the lock check of [handle_message]: the
    board is enabled, the author is no bot, the channel is a thread of this
    bot's forum inside a guild, the thread has a session in memory that
    this bot owns and that is not locked, the thread is not the session's
    map thread, and the author is a player who has not forfeited, or the
    game master or narrator. *)
Definition reaches_lock_check (s : Serializer.State) (e : Serializer.Message.t)
  : bool :=
  let author := Serializer.Message.author e in
  let channel := Serializer.Message.channel e in
  match PyDict.get (Serializer._active_games s) (Serializer.Channel.id channel) with
  | None => false
  | Some g =>
      Serializer._has_packs s
      && negb (Serializer.Author.bot author)
      && Serializer.Channel.is_thread channel
      && negb (Serializer.foreign_forum s channel)
      && Serializer.Message.guild e
      && negb (Serializer.other_bot_owns s g)
      && (PyDict.mem (players g) (Serializer.Author.id author)
          || (Serializer.Author.id author =? gm_user_id g)
          || match narrator_user_id g with
             | Some n => Serializer.Author.id author =? n
             | None => false
             end)
      && negb (in_list (Serializer.Author.id author) (forfeited_players (_pack_data g)))
      && negb match map_thread_id g with
              | Some m => negb (m =? 0) && (Serializer.Channel.id channel =? m)
              | None => false
              end
      && negb (is_locked g)
  end.

(** The calls of [handle_message] made for replayed messages. *)
Definition replayed (s : Serializer.State) : list Serializer.Message.t :=
  map fst (filter snd (Serializer.handle_message_calls s)).

(** The attachments whose download gave bytes, as the rebuilt message
    carries them. *)
Definition delivered_attachments (attachments : list Serializer.Attachment.t)
  : list Serializer.Attachment.t :=
  flat_map (fun a =>
              match Serializer.Attachment.read a with
              | Ok b =>
                  if Serializer.bytes_truthy b
                  then [Serializer.Attachment.mk (Serializer.Attachment.filename a)
                          (Serializer.Attachment.content_type a) (Ok b)]
                  else []
              | Raise _ => []
              end)
    attachments.

(** ** Messages that come in while a command runs

    [handle_message] does not queue a message in one stretch.  Up to the
    lock check it runs without an [await] (the session being in memory);
    once it has found the lock held it awaits the downloads of the
    payload and the deletion of the message, and only after the last of
    these does it append the message to the queue.  At each of those
    [await]s the event loop runs what else is ready: the handlers of
    other messages and the command that holds the lock. *)

(** One stretch of the event loop while a command holds the lock. *)
Inductive Stretch : Type :=
| Arrives (e : Serializer.Message.t)
    (* [handle_message(e, command_invoked=False)] is called and runs up to
       its first [await] behind the lock check *)
| CaptureEnds (message_id : Z)
    (* the last [await] of the capture of that message is over: the
       message is appended to the queue *)
| CommandWorks (work : PyDict.dict GameState -> PyDict.dict GameState).
    (* a stretch of the command itself, which works on the sessions; the
       commands never write to the queues and find the lock held *)

(** [lock.locked()] for the lock of a thread, when there is one. *)
Definition lock_is_held (s : Serializer.State) (thread_id : Z) : bool :=
  match PyDict.get (Serializer._command_locks s) thread_id with
  | Some held => held
  | None => false
  end.

(** The handler of the message with this id among those under way, and
    the others. *)
Fixpoint take_message (message_id : Z) (under_way : list Serializer.Message.t)
  : option (Serializer.Message.t * list Serializer.Message.t) :=
  match under_way with
  | [] => None
  | e :: rest =>
      if Serializer.Message.id e =? message_id then Some (e, rest)
      else
        match take_message message_id rest with
        | Some (found, others) => Some (found, e :: others)
        | None => None
        end
  end.

Section Stretches.

Variable link_urls : string -> list Serializer.Embed.t.

(** What a stretch does to the manager and to the handlers under way
    (those that have passed the lock check and not yet appended their
    message).  [None]: the stretch is not one of this account, which
    follows the messages that get as far as the lock check and find the
    lock held.  What a capture logged, and the deletion of the message,
    are put down with its last stretch. *)
Definition run_stretch (loop : Serializer.State * list Serializer.Message.t)
  (x : Stretch) : option (Serializer.State * list Serializer.Message.t) :=
  let '(s, under_way) := loop in
  match x with
  | Arrives e =>
      if reaches_lock_check s e
         && lock_is_held s (Serializer.Channel.id (Serializer.Message.channel e))
      then Some (Serializer.record_call s (e, false), (under_way ++ [e])%list)
      else None
  | CaptureEnds message_id =>
      match take_message message_id under_way with
      | Some (e, others) =>
          let '(message_data, records) := Serializer.capture link_urls e in
          Some (Serializer.enqueue
                  (Serializer.delete_message (Serializer.add_log s records)
                     (Serializer.Message.id e))
                  (Serializer.Channel.id (Serializer.Message.channel e))
                  message_data,
                others)
      | None => None
      end
  | CommandWorks work =>
      Some (Serializer.with_active_games s (work (Serializer._active_games s)),
            under_way)
  end.

Fixpoint run_stretches (loop : Serializer.State * list Serializer.Message.t)
  (schedule : list Stretch)
  : option (Serializer.State * list Serializer.Message.t) :=
  match schedule with
  | [] => Some loop
  | x :: rest =>
      match run_stretch loop x with
      | Some loop' => run_stretches loop' rest
      | None => None
      end
  end.

(** The command as [_execute_gameboard_command] sees it: everything
    that runs between taking the lock and giving it back, and how the
    command ends. *)
Definition command_with (schedule : list Stretch) (outcome : result unit)
  : Serializer.State -> Serializer.State * result unit :=
  fun s =>
    (match run_stretches (s, []) schedule with
     | Some (s', _) => s'
     | None => s
     end,
     outcome).

End Stretches.

(** The messages of a schedule in the order in which they came in ... *)
Definition arrived (schedule : list Stretch) : list Serializer.Message.t :=
  flat_map (fun x => match x with Arrives e => [e] | _ => [] end) schedule.






(** An environment for the examples: no links, nothing on disk, and a
    renderer that handles every message. *)
Definition bang_prefix : string -> bool := String.prefix "!".
Definition whole_text : string -> string := fun text => text.
Definition no_links : string -> list Serializer.Embed.t := fun _ => [].
Definition nothing_on_disk : Serializer.Channel.t -> option GameState := fun _ => None.
Definition silent_narrator
  : GameState -> Serializer.Message.t -> GameState * result unit :=
  fun g _ => (g, Ok tt).
Definition accepting_renderer
  : GameState -> Serializer.Message.t -> bool -> GameState * result bool :=
  fun g _ _ => (g, Ok true).

Definition game_thread : Serializer.Channel.t :=
  Serializer.Channel.mk 700 true false None.

(** A manager with the session of thread 700 in memory and no lock taken. *)
Definition example_manager : Serializer.State :=
  Serializer.mkState true 0 (Some 1000) [(700, midgame_session)] [] [] [] [] [] [].

(** The same manager while a command holds the lock of thread 700. *)
Definition locked_manager : Serializer.State :=
  Serializer.mkState true 0 (Some 1000) [(700, midgame_session)] [(700, true)]
    [] [] [] [] [].

(** Player 2 has forfeited, and a command holds the lock of thread 700. *)
Definition forfeited_session : GameState :=
  example_session 3 [] (example_pack [(1, 10); (2, 4); (3, 8)] [] [] [] [2]).

Definition busy_manager : Serializer.State :=
  Serializer.mkState true 0 (Some 1000) [(700, forfeited_session)] [(700, true)]
    [] [] [] [] [].

(** The game master of the example sessions. *)
Definition game_master : Serializer.Author.t := Serializer.Author.mk 99 false true false.

Definition text_message (message_id author_id : Z) (text : string)
  (attachments : list Serializer.Attachment.t) : Serializer.Message.t :=
  Serializer.Message.mk message_id text
    (Serializer.Author.mk author_id false true false) game_thread true None
    attachments [] [] [] [] [].

(** Two messages of players 2 and 3; the first carries a picture and an
    attachment that reads as zero bytes. *)
Definition picture : Serializer.Attachment.t :=
  Serializer.Attachment.mk "map.png" (Some "image/png"%string)
    (Ok [Byte.x89; Byte.x50; Byte.x4e; Byte.x47]).

Definition empty_file : Serializer.Attachment.t :=
  Serializer.Attachment.mk "empty.bin" None (Ok []).

Definition first_message : Serializer.Message.t :=
  text_message 9001 2 "look at this" [picture; empty_file].

Definition second_message : Serializer.Message.t :=
  text_message 9002 3 "nice" [].


(** ** Joining and numbering: what the statements speak of *)

(** The numbers [first, first + 1, ...], one for each element of [xs]. *)
Definition numbers_from (first : nat) {A : Type} (xs : list A) : list Z :=
  map Z.of_nat (seq first (List.length xs)).

(** The players of the turn order carry the numbers 1, 2, 3, ... in that
    order, nobody is listed twice, and nobody else has a number. *)
Definition numbered (data : PackData) : Prop :=
  NoDup (turn_order data)
  /\ (forall u, In u (PyDict.keys (player_numbers data)) -> In u (turn_order data))
  /\ map (PyDict.get (player_numbers data)) (turn_order data)
     = map Some (numbers_from 1 (turn_order data)).

(** The players join one after the other. *)
Definition join_all (game_state : GameState) (newcomers : list Z)
  (game_config : GameConfig) : GameState :=
  fold_left (fun g p => Pack.on_player_added g p game_config) newcomers game_state.

(** A session of the classic board in which nobody has joined yet. *)
Definition empty_pack : PackData :=
  mkPack [] [] [] [] [] [] [] 0 [] [] [] [] [] false [].

Definition fresh_session : GameState :=
  mkGame 700 None 99 None None false false false 0 [] [] empty_pack.

(** ** Turns: what the statements speak of *)

(** [u] still has turns to play: a current player who has not forfeited
    and stands below the goal tile. *)
Definition active (g : GameState) (win : Z) (u : Z) : bool :=
  PyDict.mem (players g) u
  && negb (in_list u (forfeited_players (_pack_data g)))
  && (Pack.tile_of (_pack_data g) u <? win).

(** The two sessions seat the same players: the same turn counter and
    switches, the same game master, the same users in [players], the same
    turn order, numbers and forfeits. *)
Definition same_seats (g g' : GameState) : Prop :=
  turn_count g' = turn_count g
  /\ is_locked g' = is_locked g
  /\ is_paused g' = is_paused g
  /\ game_started g' = game_started g
  /\ gm_user_id g' = gm_user_id g
  /\ (forall u, PyDict.mem (players g') u = PyDict.mem (players g) u)
  /\ turn_order (_pack_data g') = turn_order (_pack_data g)
  /\ player_numbers (_pack_data g') = player_numbers (_pack_data g)
  /\ forfeited_players (_pack_data g') = forfeited_players (_pack_data g).

(** An environment for the examples: nobody has a display name. *)
Definition no_display_name : Z -> option string := fun _ => None.

(** A player of the example sessions who is not the game master. *)
Definition player_one : Serializer.Author.t := Serializer.Author.mk 1 false true false.
Definition player_two : Serializer.Author.t := Serializer.Author.mk 2 false true false.
Definition player_three : Serializer.Author.t := Serializer.Author.mk 3 false true false.

(** The turn check as the specification has it: the first eligible
    entry of the turn list gets past the guards of [on_dice_rolled]. *)
Definition first_eligible_is_let_through (game_state : GameState)
  (game_config : GameConfig) : Prop :=
  forall p,
    first_eligible game_state (win_tile (rules game_config)) = Some p ->
    Pack.roll_rejection game_state p game_config = None.

(** Player 1 has won on tile 100; then the game master swaps players 1
    and 2. *)
Definition swapped_winner_session : GameState :=
  Manager.command_swap one_finished_session 1 2.

(** ** Locks: what the statements speak of *)



(** ** The leaderboard: what the statements speak of *)

(** No entry of the list stands on a higher tile than an entry before it. *)
Fixpoint highest_tile_first {A : Type} (board : list (Z * Z * A)) : Prop :=
  match board with
  | [] => True
  | entry :: rest =>
      (forall later, In later rest -> snd (fst later) <= snd (fst entry))
      /\ highest_tile_first rest
  end.
(** ** Lists and dictionaries *)

Lemma in_list_true_iff (x : Z) (xs : list Z) :
  in_list x xs = true <-> In x xs.
Proof.
  unfold in_list. rewrite existsb_exists. split.
  - intros [y [Hy Heq]]. apply Z.eqb_eq in Heq. now subst.
  - intros H. exists x. split; [assumption | apply Z.eqb_refl].
Qed.

Lemma in_list_false_iff (x : Z) (xs : list Z) :
  in_list x xs = false <-> ~ In x xs.
Proof.
  rewrite <- in_list_true_iff. destruct (in_list x xs).
  - split; [discriminate | intros H; exfalso; now apply H].
  - split; [intros _ Hc; discriminate | reflexivity].
Qed.

Lemma in_list_app (x : Z) (xs ys : list Z) :
  in_list x (xs ++ ys) = in_list x xs || in_list x ys.
Proof. unfold in_list. apply existsb_app. Qed.

Lemma list_remove_In_other (x y : Z) (xs : list Z) :
  y <> x -> (In y (list_remove x xs) <-> In y xs).
Proof.
  intros Hne. induction xs as [|z rest IH]; simpl; [tauto|].
  destruct (Z.eqb_spec z x) as [->|Hzx]; simpl.
  - split; [intros H; now right | intros [H|H]; [congruence | assumption]].
  - rewrite IH. tauto.
Qed.

Lemma list_remove_NoDup_gone (x : Z) (xs : list Z) :
  NoDup xs -> ~ In x (list_remove x xs).
Proof.
  induction 1 as [|z rest Hz Hnd IH]; simpl; [tauto|].
  destruct (Z.eqb_spec z x) as [->|Hzx]; simpl; [assumption|].
  intros [H|H]; [congruence | now apply IH].
Qed.

Module PyDictFacts.

Import PyDict.

Section Facts.
Variable V : Type.
Implicit Types (d : dict V) (k : Z) (v : V).

Lemma get_set_same d k v : get (set d k v) k = Some v.
Proof.
  induction d as [|[k' v'] rest IH]; simpl.
  - now rewrite Z.eqb_refl.
  - destruct (Z.eqb_spec k' k) as [->|Hne]; simpl.
    + now rewrite Z.eqb_refl.
    + destruct (Z.eqb_spec k' k); [congruence | exact IH].
Qed.

Lemma get_set_other d k k' v : k <> k' -> get (set d k v) k' = get d k'.
Proof.
  intros Hne. induction d as [|[k0 v0] rest IH]; simpl.
  - destruct (Z.eqb_spec k k'); [congruence | reflexivity].
  - destruct (Z.eqb_spec k0 k) as [->|Hk0]; simpl.
    + destruct (Z.eqb_spec k k'); [congruence | reflexivity].
    + destruct (Z.eqb_spec k0 k'); [reflexivity | exact IH].
Qed.

Lemma get_Some_In d k v : get d k = Some v -> In (k, v) d.
Proof.
  induction d as [|[k' v'] rest IH]; simpl; [discriminate|].
  destruct (Z.eqb_spec k' k) as [->|Hne].
  - intros [= ->]. now left.
  - intros H. right. now apply IH.
Qed.

Lemma get_None_iff d k : get d k = None <-> ~ In k (keys d).
Proof.
  induction d as [|[k' v'] rest IH]; simpl; [tauto|].
  destruct (Z.eqb_spec k' k) as [->|Hne].
  - split; [discriminate | intros H; exfalso; apply H; now left].
  - rewrite IH. unfold keys. tauto.
Qed.

Lemma mem_true_iff d k : mem d k = true <-> In k (keys d).
Proof.
  unfold mem. destruct (get d k) eqn:E.
  - split; [intros _ | reflexivity].
    apply get_Some_In in E. unfold keys.
    change k with (fst (k, v)). now apply in_map.
  - apply get_None_iff in E. split; [discriminate | tauto].
Qed.

Lemma In_get d k v : wf d -> In (k, v) d -> get d k = Some v.
Proof.
  unfold wf, keys. induction d as [|[k' v'] rest IH]; simpl; [tauto|].
  intros Hnd [H|H].
  - injection H as -> ->. now rewrite Z.eqb_refl.
  - inversion Hnd as [|? ? Hnotin Hnd']; subst.
    destruct (Z.eqb_spec k' k) as [->|Hne].
    + exfalso. apply Hnotin. change k with (fst (k, v)). now apply in_map.
    + now apply IH.
Qed.

Lemma keys_set d k v :
  keys (set d k v) = if mem d k then keys d else (keys d ++ [k])%list.
Proof.
  unfold mem, keys. induction d as [|[k' v'] rest IH]; simpl; [reflexivity|].
  destruct (Z.eqb_spec k' k) as [->|Hne]; simpl; [reflexivity|].
  rewrite IH. now destruct (get rest k).
Qed.

Lemma wf_set d k v : wf d -> wf (set d k v).
Proof.
  unfold wf. rewrite keys_set. destruct (mem d k) eqn:E; [tauto|].
  intros Hnd. apply NoDup_app; [assumption | repeat constructor; simpl; tauto |].
  intros x Hx [<-|[]]. apply mem_true_iff in Hx. congruence.
Qed.

Lemma get_del_other d k k' : k <> k' -> get (del d k) k' = get d k'.
Proof.
  intros Hne. induction d as [|[k0 v0] rest IH]; simpl; [reflexivity|].
  destruct (Z.eqb_spec k0 k) as [->|Hk0]; simpl.
  - destruct (Z.eqb_spec k k'); [congruence | reflexivity].
  - destruct (Z.eqb_spec k0 k'); [reflexivity | exact IH].
Qed.

Lemma set_length d k v :
  (List.length d <= List.length (set d k v))%nat.
Proof.
  induction d as [|[k' v'] rest IH]; simpl; [lia|].
  destruct (k' =? k); simpl; lia.
Qed.

End Facts.

End PyDictFacts.

(** ** Board coordinates *)

Section BoardFacts.

Import PyStr.

Lemma chr_in_range (i : Z) :
  0 <= i < 1114112 -> chr i = Ok (utf8 i).
Proof.
  intros [Hlo Hhi]. unfold chr.
  destruct (Z.leb_spec 0 i); [|lia].
  destruct (Z.ltb_spec i 1114112); [reflexivity | lia].
Qed.

Lemma chr_out_of_range (i : Z) :
  i < 0 \/ 1114112 <= i -> chr i = Raise ValueError.
Proof.
  intros H. unfold chr.
  destruct (Z.leb_spec 0 i); destruct (Z.ltb_spec i 1114112);
    simpl; try reflexivity; lia.
Qed.

(** The column computed for a tile lies between the ends of a row. *)
Lemma column_bounds (t c : Z) :
  c <> 0 ->
  let row := (t - 1) / c + 1 in
  let position_in_row := (t - 1) mod c + 1 in
  let column := if row mod 2 =? 1 then position_in_row else c - position_in_row + 1 in
  (0 < c -> 1 <= column <= c) /\ (c < 0 -> c <= column <= 1).
Proof.
  intros Hc row position_in_row column. subst column position_in_row.
  split; intros Hs.
  - pose proof (Z.mod_pos_bound (t - 1) c Hs) as Hb.
    destruct (row mod 2 =? 1); lia.
  - pose proof (Z.mod_neg_bound (t - 1) c Hs) as Hb.
    destruct (row mod 2 =? 1); lia.
Qed.

(** On a board whose column letters stay inside the range of [chr], the
    conversion never raises: it gives [None] off the board and a
    coordinate on it. *)
Lemma tile_number_to_alphanumeric_cases (t : Z) (cfg : GameConfig) :
  -64 <= cols (grid cfg) <= 1114047 ->
  (t < 1 \/ t > rows (grid cfg) * cols (grid cfg) ->
   tile_number_to_alphanumeric t cfg = Ok None)
  /\ (1 <= t <= rows (grid cfg) * cols (grid cfg) ->
      exists s, tile_number_to_alphanumeric t cfg = Ok (Some s)).
Proof.
  intros Hcols. unfold tile_number_to_alphanumeric. split.
  - intros Hout. destruct (Z.ltb_spec t 1); [reflexivity|].
    destruct (Z.gtb_spec t (rows (grid cfg) * cols (grid cfg))); [reflexivity | lia].
  - intros Hin. destruct (Z.ltb_spec t 1); [lia|].
    destruct (Z.gtb_spec t (rows (grid cfg) * cols (grid cfg))); [lia|].
    assert (Hc : cols (grid cfg) <> 0) by (intros E; rewrite E in *; lia).
    destruct (column_bounds t (cols (grid cfg)) Hc) as [Hpos Hneg].
    cbv zeta in Hpos, Hneg.
    set (column := if _ =? 1 then _ else _) in *.
    rewrite chr_in_range.
    + simpl. eexists. reflexivity.
    + unfold ord_A. destruct (Z.lt_total 0 (cols (grid cfg))) as [Hsg|[Hsg|Hsg]]; lia.
Qed.

Lemma tile_number_to_alphanumeric_never_raises (t : Z) (cfg : GameConfig) :
  -64 <= cols (grid cfg) <= 1114047 ->
  exists o, tile_number_to_alphanumeric t cfg = Ok o.
Proof.
  intros Hcols.
  destruct (tile_number_to_alphanumeric_cases t cfg Hcols) as [Hout Hin].
  destruct (Z.lt_ge_cases t 1) as [H1|H1].
  - eexists. apply Hout. now left.
  - destruct (Z.lt_ge_cases (rows (grid cfg) * cols (grid cfg)) t) as [H2|H2].
    + eexists. apply Hout. right. lia.
    + destruct Hin as [s Hs]; [lia|]. eexists. exact Hs.
Qed.

Lemma in_tiles_upto (n : nat) (t : Z) :
  1 <= t <= Z.of_nat n -> In t (tiles_upto n).
Proof.
  intros H. unfold tiles_upto. apply in_map_iff.
  exists (Z.to_nat t). split; [lia|]. apply in_seq. lia.
Qed.

End BoardFacts.

(** C10 (as amended).  [tile_number_to_alphanumeric] gives [None] for
    every tile number below 1 or above rows * cols, whatever the grid; and
    when the number of columns lies between -64 and 1114047, so that every
    column letter is a code point [chr] accepts, it gives a coordinate
    string for every tile number from 1 to rows * cols. *)
Theorem tile_number_to_alphanumeric_total (t : Z) (cfg : GameConfig) :
  (t < 1 \/ t > rows (grid cfg) * cols (grid cfg) ->
   tile_number_to_alphanumeric t cfg = Ok None)
  /\ (-64 <= cols (grid cfg) <= 1114047 ->
      1 <= t <= rows (grid cfg) * cols (grid cfg) ->
      exists s, tile_number_to_alphanumeric t cfg = Ok (Some s)).
Proof.
  split.
  - intros Hout. unfold tile_number_to_alphanumeric.
    destruct (Z.ltb_spec t 1); [reflexivity|].
    destruct (Z.gtb_spec t (rows (grid cfg) * cols (grid cfg))); [reflexivity | lia].
  - intros Hcols Hin. now apply tile_number_to_alphanumeric_cases.
Qed.

Lemma tile_number_to_alphanumeric_total_witness :
  (-64 <= cols (grid (classic_config [] [])) <= 1114047)
  /\ (1 <= 16 <= rows (grid (classic_config [] [])) * cols (grid (classic_config [] [])))
  /\ exists s, tile_number_to_alphanumeric 16 (classic_config [] []) = Ok (Some s).
Proof.
  split; [simpl; lia|]. split; [simpl; lia|].
  apply (proj2 (tile_number_to_alphanumeric_total 16 (classic_config [] []))); simpl; lia.
Defined.

(** C10 (as stated) fails: on a board of one row and 1114048 columns the
    last tile is on the board, yet the conversion raises [ValueError]
    instead of returning a coordinate. *)
Lemma tile_number_to_alphanumeric_raises_on_wide_grid :
  ~ (forall (t : Z) (cfg : GameConfig),
        1 <= t <= rows (grid cfg) * cols (grid cfg) ->
        exists s, tile_number_to_alphanumeric t cfg = Ok (Some s)).
Proof.
  intros H.
  destruct (H 1114048 wide_config) as [s Hs]; [simpl; lia|].
  assert (E : tile_number_to_alphanumeric 1114048 wide_config = Raise ValueError)
    by (vm_compute; reflexivity).
  rewrite E in Hs. discriminate.
Qed.

(** C7.  On the 10 by 10 board every tile from 1 to 100 converts to a
    coordinate that converts back to the tile, and every coordinate from
    A1 to J10 converts to a tile of the board that converts back to the
    coordinate. *)
Theorem tile_coordinate_roundtrip_10x10 (cfg : GameConfig) :
  rows (grid cfg) = 10 -> cols (grid cfg) = 10 ->
  (forall t, 1 <= t <= 100 ->
     exists s, tile_number_to_alphanumeric t cfg = Ok (Some s)
               /\ alphanumeric_to_tile_number s cfg = Some t)
  /\ (forall col row, 1 <= col <= 10 -> 1 <= row <= 10 ->
        exists t, alphanumeric_to_tile_number (coordinate col row) cfg = Some t
                  /\ 1 <= t <= 100
                  /\ tile_number_to_alphanumeric t cfg = Ok (Some (coordinate col row))).
Proof.
  destruct cfg as [[r c] ru]. simpl. intros -> ->. split.
  - assert (Hall : forallb (tile_roundtrip_ok (mkConfig (mkGrid 10 10) ru))
                     (tiles_upto 100) = true) by (vm_compute; reflexivity).
    intros t Ht. rewrite forallb_forall in Hall.
    specialize (Hall t (in_tiles_upto 100 t Ht)).
    unfold tile_roundtrip_ok in Hall.
    destruct (tile_number_to_alphanumeric t _) as [[s|]|]; try discriminate.
    exists s. split; [reflexivity|].
    destruct (alphanumeric_to_tile_number s _) as [t'|]; try discriminate.
    apply Z.eqb_eq in Hall. now subst.
  - assert (Hall : forallb (fun col =>
                       forallb (coordinate_roundtrip_ok (mkConfig (mkGrid 10 10) ru) 100 col)
                         (tiles_upto 10))
                     (tiles_upto 10) = true) by (vm_compute; reflexivity).
    intros col row Hcol Hrow. rewrite forallb_forall in Hall.
    specialize (Hall col (in_tiles_upto 10 col Hcol)).
    rewrite forallb_forall in Hall.
    specialize (Hall row (in_tiles_upto 10 row Hrow)).
    unfold coordinate_roundtrip_ok in Hall.
    destruct (alphanumeric_to_tile_number (coordinate col row) _) as [t|];
      try discriminate.
    apply andb_true_iff in Hall. destruct Hall as [Hb Hs].
    apply andb_true_iff in Hb. destruct Hb as [Hb1 Hb2].
    exists t. split; [reflexivity|]. split; [lia|].
    destruct (tile_number_to_alphanumeric t _) as [[s|]|]; try discriminate.
    apply String.eqb_eq in Hs. now subst.
Qed.

Lemma tile_coordinate_roundtrip_10x10_witness :
  (forall t, 1 <= t <= 100 ->
     exists s, tile_number_to_alphanumeric t (classic_config [] []) = Ok (Some s)
               /\ alphanumeric_to_tile_number s (classic_config [] []) = Some t)
  /\ (forall col row, 1 <= col <= 10 -> 1 <= row <= 10 ->
        exists t, alphanumeric_to_tile_number (coordinate col row) (classic_config [] []) = Some t
                  /\ 1 <= t <= 100
                  /\ tile_number_to_alphanumeric t (classic_config [] [])
                     = Ok (Some (coordinate col row))).
Proof.
  apply (tile_coordinate_roundtrip_10x10 (classic_config [] [])); reflexivity.
Defined.

(** ** Win detection *)

Section WinFacts.

Import PyDict PyDictFacts.

Variable render_win_message : GameState -> WinMessage -> string.

Lemma stamp_step_frame win c acc item :
  let acc' := Pack.stamp_goal_reacher win c acc item in
  tile_numbers (fst acc') = tile_numbers (fst acc)
  /\ game_ended (fst acc') = game_ended (fst acc)
  /\ turn_order (fst acc') = turn_order (fst acc)
  /\ player_numbers (fst acc') = player_numbers (fst acc)
  /\ forfeited_players (fst acc') = forfeited_players (fst acc)
  /\ players_rolled_this_turn (fst acc') = players_rolled_this_turn (fst acc).
Proof.
  destruct acc as [data reachers], item as [uid tile_num].
  unfold Pack.stamp_goal_reacher.
  destruct (tile_num >=? win); [|simpl; tauto].
  destruct (mem (goal_reached_turn data) uid); simpl.
  - destruct (in_list uid (winners data)); simpl; [tauto|].
    destruct (in_list uid (players_reached_end_this_turn data)); simpl; tauto.
  - destruct (in_list uid (winners data)); simpl; [tauto|].
    destruct (in_list uid (players_reached_end_this_turn data)); simpl; tauto.
Qed.

Lemma stamp_fold_frame win c its acc :
  let acc' := fold_left (Pack.stamp_goal_reacher win c) its acc in
  tile_numbers (fst acc') = tile_numbers (fst acc)
  /\ game_ended (fst acc') = game_ended (fst acc)
  /\ turn_order (fst acc') = turn_order (fst acc)
  /\ player_numbers (fst acc') = player_numbers (fst acc)
  /\ forfeited_players (fst acc') = forfeited_players (fst acc)
  /\ players_rolled_this_turn (fst acc') = players_rolled_this_turn (fst acc).
Proof.
  revert acc. induction its as [|it rest IH]; intros acc; simpl; [tauto|].
  specialize (IH (Pack.stamp_goal_reacher win c acc it)). cbv zeta in IH.
  pose proof (stamp_step_frame win c acc it) as Hs. cbv zeta in Hs.
  destruct IH as (I1 & I2 & I3 & I4 & I5 & I6).
  destruct Hs as (S1 & S2 & S3 & S4 & S5 & S6).
  repeat split; congruence.
Qed.

(** What one turn of the loop records: a turn number already there stays,
    and a player on or past the goal without one gets the current turn. *)
Lemma stamp_step_goal_turn win c acc uid tile_num u :
  get (goal_reached_turn (fst (Pack.stamp_goal_reacher win c acc (uid, tile_num)))) u
  = match get (goal_reached_turn (fst acc)) u with
    | Some t => Some t
    | None => if (uid =? u) && (tile_num >=? win) then Some c else None
    end.
Proof.
  destruct acc as [data reachers]. unfold Pack.stamp_goal_reacher.
  destruct (tile_num >=? win) eqn:Ege.
  - unfold mem. destruct (get (goal_reached_turn data) uid) eqn:Eg.
    + assert (Hsame :
        get (goal_reached_turn (fst
          (if in_list uid (winners data) then (data, reachers)
           else
             let data2 := with_winners data (winners data ++ [uid]) in
             if in_list uid (players_reached_end_this_turn data2)
             then (data2, reachers)
             else (with_players_reached_end_this_turn data2
                     (players_reached_end_this_turn data2 ++ [uid]), reachers)))) u
        = get (goal_reached_turn data) u).
      { destruct (in_list uid (winners data)); simpl; [reflexivity|].
        destruct (in_list uid (players_reached_end_this_turn data)); reflexivity. }
      simpl in *. rewrite Hsame.
      destruct (get (goal_reached_turn data) u) eqn:Eu; [reflexivity|].
      destruct (Z.eqb_spec uid u); [congruence | reflexivity].
    + assert (Hset :
        get (goal_reached_turn (fst
          (let '(data1, reachers1) :=
             (with_goal_reached_turn data (set (goal_reached_turn data) uid c),
              (reachers ++ [uid])%list) in
           if in_list uid (winners data1) then (data1, reachers1)
           else
             let data2 := with_winners data1 (winners data1 ++ [uid]) in
             if in_list uid (players_reached_end_this_turn data2)
             then (data2, reachers1)
             else (with_players_reached_end_this_turn data2
                     (players_reached_end_this_turn data2 ++ [uid]), reachers1)))) u
        = get (set (goal_reached_turn data) uid c) u).
      { simpl. destruct (in_list uid (winners data)); simpl; [reflexivity|].
        destruct (in_list uid (players_reached_end_this_turn data)); reflexivity. }
      simpl in *. rewrite Hset.
      destruct (Z.eqb_spec uid u) as [->|Hne].
      * rewrite get_set_same, Eg. reflexivity.
      * rewrite get_set_other by assumption.
        destruct (get (goal_reached_turn data) u); reflexivity.
  - simpl. rewrite andb_false_r.
    destruct (get (goal_reached_turn data) u); reflexivity.
Qed.

Lemma stamp_step_wf win c acc item :
  wf (goal_reached_turn (fst acc)) ->
  wf (goal_reached_turn (fst (Pack.stamp_goal_reacher win c acc item))).
Proof.
  destruct acc as [data reachers], item as [uid tile_num].
  unfold Pack.stamp_goal_reacher. intros Hwf.
  destruct (tile_num >=? win); [|exact Hwf].
  destruct (mem (goal_reached_turn data) uid); simpl.
  - destruct (in_list uid (winners data)); simpl; [exact Hwf|].
    destruct (in_list uid (players_reached_end_this_turn data)); exact Hwf.
  - destruct (in_list uid (winners data)); simpl.
    + now apply wf_set.
    + destruct (in_list uid (players_reached_end_this_turn data)); simpl;
        now apply wf_set.
Qed.

Lemma stamp_fold_wf win c its acc :
  wf (goal_reached_turn (fst acc)) ->
  wf (goal_reached_turn (fst (fold_left (Pack.stamp_goal_reacher win c) its acc))).
Proof.
  revert acc. induction its as [|it rest IH]; intros acc H; simpl; [exact H|].
  apply IH. now apply stamp_step_wf.
Qed.

Lemma stamp_fold_goal_turn win c its acc u :
  get (goal_reached_turn (fst (fold_left (Pack.stamp_goal_reacher win c) its acc))) u
  = match get (goal_reached_turn (fst acc)) u with
    | Some t => Some t
    | None =>
        if existsb (fun it => (fst it =? u) && (snd it >=? win)) its
        then Some c else None
    end.
Proof.
  revert acc. induction its as [|[uid tile_num] rest IH]; intros acc; simpl.
  - destruct (get (goal_reached_turn (fst acc)) u); reflexivity.
  - rewrite IH, stamp_step_goal_turn.
    destruct (get (goal_reached_turn (fst acc)) u); [reflexivity|].
    destruct ((uid =? u) && (tile_num >=? win)); simpl; [reflexivity|].
    reflexivity.
Qed.

Lemma fold_min_le (l : list Z) (v : Z) :
  fold_left Z.min l v <= v /\ (forall t, In t l -> fold_left Z.min l v <= t).
Proof.
  revert v. induction l as [|x rest IH]; intros v; simpl.
  - split; [lia | tauto].
  - destruct (IH (Z.min v x)) as [H1 H2]. split; [lia|].
    intros t [<-|Ht]; [lia | now apply H2].
Qed.

Lemma fold_min_In (l : list Z) (v : Z) :
  fold_left Z.min l v = v \/ In (fold_left Z.min l v) l.
Proof.
  revert v. induction l as [|x rest IH]; intros v; simpl; [now left|].
  destruct (IH (Z.min v x)) as [H|H].
  - rewrite H. destruct (Z.min_spec v x) as [[_ E]|[_ E]]; rewrite E; auto.
  - right. now right.
Qed.

(** [min_value] is the least of the recorded values. *)
Lemma min_value_spec (d : dict Z) (m : Z) :
  Pack.min_value d = Some m ->
  In m (values d) /\ (forall t, In t (values d) -> m <= t).
Proof.
  unfold Pack.min_value. destruct (values d) as [|v rest] eqn:E; [discriminate|].
  intros [= <-]. split.
  - destruct (fold_min_In rest v) as [H|H]; [rewrite H; now left | now right].
  - destruct (fold_min_le rest v) as [H1 H2].
    intros t [<-|Ht]; [exact H1 | now apply H2].
Qed.

Lemma min_value_nonempty (d : dict Z) :
  d <> [] -> exists m, Pack.min_value d = Some m.
Proof.
  unfold Pack.min_value, values. destruct d as [|[k v] rest]; [congruence|].
  intros _. simpl. eexists. reflexivity.
Qed.

Lemma get_Some_value (d : dict Z) (k v : Z) :
  get d k = Some v -> In v (values d).
Proof.
  intros H. apply get_Some_In in H. unfold values.
  change v with (snd (k, v)). now apply in_map.
Qed.

(** C2.  When the game has not ended yet and every tile in [tile_numbers]
    is on or past the goal tile, [check_win_condition] ends the game: it
    returns [game_ended = True] and sets the flag; every participant has a
    recorded goal turn (the one recorded before, or the current turn when
    none was); and the winners are exactly the participants whose recorded
    turn is the least recorded turn.  So two participants recorded on
    that least turn both win, and one recorded on a later turn does not. *)
Theorem all_at_goal_ends_game_with_earliest_winners
  (game_state : GameState) (game_config : GameConfig) :
  let data := _pack_data game_state in
  let win := win_tile (rules game_config) in
  game_ended data = false ->
  tile_numbers data <> [] ->
  wf (goal_reached_turn data) ->
  (forall u t, In (u, t) (items (tile_numbers data)) -> win <= t) ->
  exists game_state' msg earliest,
    Pack.check_win_condition render_win_message game_state game_config
    = (game_state', Ok (Some msg, true))
    /\ let data' := _pack_data game_state' in
       game_ended data' = true
       /\ tile_numbers data' = tile_numbers data
       /\ (forall u, In u (keys (tile_numbers data)) ->
            exists t, get (goal_reached_turn data') u = Some t)
       /\ (forall u, get (goal_reached_turn data') u
                     = match get (goal_reached_turn data) u with
                       | Some t => Some t
                       | None =>
                           if mem (tile_numbers data) u
                           then Some (turn_count game_state) else None
                       end)
       /\ In earliest (values (goal_reached_turn data'))
       /\ (forall t, In t (values (goal_reached_turn data')) -> earliest <= t)
       /\ (forall u, In u (winners data')
                     <-> get (goal_reached_turn data') u = Some earliest)
       /\ (forall u v, get (goal_reached_turn data') u = Some earliest ->
                       get (goal_reached_turn data') v = Some earliest ->
                       In u (winners data') /\ In v (winners data'))
       /\ (forall u t, get (goal_reached_turn data') u = Some t ->
                       earliest < t -> ~ In u (winners data')).
Proof.
  intros data win Hnot_ended Hnonempty Hwf Hall.
  unfold Pack.check_win_condition. fold data. fold win.
  destruct (fold_left (Pack.stamp_goal_reacher win (turn_count game_state))
              (items (tile_numbers data)) (data, []))
    as [data1 reachers] eqn:Efold.
  pose proof (stamp_fold_frame win (turn_count game_state)
                (items (tile_numbers data)) (data, [])) as Hframe.
  cbv zeta in Hframe. rewrite Efold in Hframe. simpl in Hframe.
  destruct Hframe as (Htiles & Hended & _).
  pose proof (stamp_fold_wf win (turn_count game_state)
                (items (tile_numbers data)) (data, []) Hwf) as Hwf1.
  rewrite Efold in Hwf1. simpl in Hwf1.
  assert (Hturn : forall u,
             get (goal_reached_turn data1) u
             = match get (goal_reached_turn data) u with
               | Some t => Some t
               | None =>
                   if mem (tile_numbers data) u
                   then Some (turn_count game_state) else None
               end).
  { intros u.
    pose proof (stamp_fold_goal_turn win (turn_count game_state)
                  (items (tile_numbers data)) (data, []) u) as H.
    rewrite Efold in H. simpl in H. rewrite H.
    destruct (get (goal_reached_turn data) u); [reflexivity|].
    assert (Hex : existsb (fun it => (fst it =? u) && (snd it >=? win))
                    (items (tile_numbers data)) = mem (tile_numbers data) u).
    { destruct (mem (tile_numbers data) u) eqn:Em.
      - unfold mem in Em. destruct (get (tile_numbers data) u) as [t|] eqn:Eg;
          [|discriminate].
        apply existsb_exists. exists (u, t). split.
        + now apply get_Some_In.
        + simpl. rewrite Z.eqb_refl. simpl. apply Z.geb_le.
          apply (Hall u t). now apply get_Some_In.
      - apply not_true_iff_false. intros Hex. apply existsb_exists in Hex.
        destruct Hex as [[k t] [Hin Hk]]. simpl in Hk.
        apply andb_true_iff in Hk. destruct Hk as [Hk _].
        apply Z.eqb_eq in Hk. subst k.
        assert (Hm : mem (tile_numbers data) u = true).
        { apply mem_true_iff. unfold keys. change u with (fst (u, t)).
          now apply in_map. }
        congruence. }
    rewrite Hex. reflexivity. }
  assert (Hall_end : forallb (fun tile_num => tile_num >=? win)
                       (values (tile_numbers data1)) = true).
  { rewrite Htiles. apply forallb_forall. intros t Ht.
    unfold values in Ht. apply in_map_iff in Ht. destruct Ht as [[u t'] [E Hin]].
    simpl in E. subst t'. apply Z.geb_le. now apply (Hall u t). }
  rewrite Hall_end. rewrite Hended, Hnot_ended. simpl negb. cbv iota.
  assert (Hkeys : forall u, In u (keys (tile_numbers data)) ->
                    exists t, get (goal_reached_turn data1) u = Some t).
  { intros u Hu. rewrite Hturn. apply mem_true_iff in Hu. rewrite Hu.
    destruct (get (goal_reached_turn data) u); eexists; reflexivity. }
  assert (Hne : goal_reached_turn data1 <> []).
  { destruct (tile_numbers data) as [|[u t] rest] eqn:Et; [congruence|].
    destruct (Hkeys u) as [t' Ht']; [simpl; now left|].
    intros E. rewrite E in Ht'. discriminate. }
  destruct (min_value_nonempty (goal_reached_turn data1) Hne) as [earliest Hmin].
  change (goal_reached_turn (with_game_ended data1 true))
    with (goal_reached_turn data1).
  rewrite Hmin.
  destruct (min_value_spec _ _ Hmin) as [Hin_min Hle_min].
  set (winners' := map fst (filter (fun item => snd item =? earliest)
                              (items (goal_reached_turn data1)))).
  set (gs3 := with_pack_data game_state
                (with_winners (with_game_ended data1 true) winners')).
  assert (Hwin : forall u, In u winners'
                   <-> get (goal_reached_turn data1) u = Some earliest).
  { intros u. unfold winners'. rewrite in_map_iff. split.
    - intros [[k t] [E Hin]]. simpl in E. subst k.
      apply filter_In in Hin. destruct Hin as [Hin Ht]. simpl in Ht.
      apply Z.eqb_eq in Ht. subst t. now apply In_get.
    - intros Hg. exists (u, earliest). split; [reflexivity|].
      apply filter_In. split; [now apply get_Some_In | simpl; apply Z.eqb_refl]. }
  assert (Hgoal : exists msg,
             match winners' with
             | [w] => (gs3, Ok (Some (render_win_message gs3 (GameOverWinner w)), true))
             | _ => (gs3, Ok (Some (render_win_message gs3
                                      (GameOverTied earliest winners')), true))
             end = (gs3, Ok (Some msg, true))).
  { destruct winners' as [|w [|w' rest]]; eexists; reflexivity. }
  destruct Hgoal as [msg Hmsg].
  exists gs3, msg, earliest. split; [exact Hmsg|].
  simpl. split; [reflexivity|]. split; [exact Htiles|]. split; [exact Hkeys|].
  split; [exact Hturn|]. split; [exact Hin_min|]. split; [exact Hle_min|].
  split; [exact Hwin|]. split.
  - intros u v Hu Hv. split; now apply Hwin.
  - intros u t Hg Hlt Hu. apply Hwin in Hu. rewrite Hu in Hg.
    injection Hg as <-. lia.
Qed.

End WinFacts.

Lemma all_at_goal_ends_game_with_earliest_winners_witness :
  let data := _pack_data finished_session in
  game_ended data = false
  /\ tile_numbers data <> []
  /\ PyDict.wf (goal_reached_turn data)
  /\ (forall u t, In (u, t) (PyDict.items (tile_numbers data)) ->
        win_tile (rules (classic_config [] [])) <= t)
  /\ exists game_state' msg earliest,
       Pack.check_win_condition plain_win_text finished_session (classic_config [] [])
       = (game_state', Ok (Some msg, true))
       /\ (forall u, In u (winners (_pack_data game_state'))
                     <-> PyDict.get (goal_reached_turn (_pack_data game_state')) u
                         = Some earliest).
Proof.
  assert (H1 : game_ended (_pack_data finished_session) = false) by reflexivity.
  assert (H2 : tile_numbers (_pack_data finished_session) <> []) by discriminate.
  assert (H3 : PyDict.wf (goal_reached_turn (_pack_data finished_session))).
  { unfold PyDict.wf. simpl. repeat constructor; simpl; intuition discriminate. }
  assert (H4 : forall u t,
             In (u, t) (PyDict.items (tile_numbers (_pack_data finished_session))) ->
             win_tile (rules (classic_config [] [])) <= t).
  { simpl. intros u t [H|[H|[H|[]]]]; injection H as <- <-; lia. }
  cbv zeta. repeat (split; [assumption|]).
  destruct (all_at_goal_ends_game_with_earliest_winners plain_win_text
              finished_session (classic_config [] []) H1 H2 H3 H4)
    as (gs' & msg & earliest & Hrun & _ & _ & _ & _ & _ & _ & Hwin & _).
  exists gs', msg, earliest. split; [exact Hrun | exact Hwin].
Defined.

(** The run behind C2 on [finished_session]: players 1 and 2, recorded on
    turn 5, are the winners; player 3, recorded on turn 7, is not. *)
Example finished_session_winners :
  winners (_pack_data (fst (Pack.check_win_condition plain_win_text
                              finished_session (classic_config [] []))))
  = [1; 2].
Proof. reflexivity. Qed.

(** ** Rolling the dice *)

Section TurnFacts.

Import PyStr PyDict PyDictFacts.

Variable get_tile_color_info : Z -> GameConfig -> option string.
Variable render_win_message : GameState -> WinMessage -> string.



Lemma find_ext_in {A : Type} (f g : A -> bool) (l : list A) :
  (forall x, In x l -> f x = g x) -> find f l = find g l.
Proof.
  induction l as [|x rest IH]; intros H; simpl; [reflexivity|].
  rewrite (H x) by now left. destruct (g x); [reflexivity|].
  apply IH. intros y Hy. apply H. now right.
Qed.

(** Every early return of [on_dice_rolled] carries a text. *)
Lemma roll_rejection_nonempty game_state p game_config msg complete :
  Pack.roll_rejection game_state p game_config = Some (msg, complete) ->
  msg <> ""%string.
Proof.
  unfold Pack.roll_rejection.
  destruct (in_list p (winners (_pack_data game_state))).
  { intros [= <- <-]. discriminate. }
  destruct (in_list p (forfeited_players (_pack_data game_state))).
  { intros [= <- <-]. discriminate. }
  destruct (Pack.tile_of (_pack_data game_state) p >=? win_tile (rules game_config)).
  { intros [= <- <-]. discriminate. }
  destruct (in_list p (players_rolled_this_turn (_pack_data game_state))).
  { intros [= <- <-]. discriminate. }
  destruct (turn_order (_pack_data game_state)); [discriminate|].
  destruct (Pack.next_player_id game_state (win_tile (rules game_config))) as [next|].
  - destruct (negb (p =? next)); [|discriminate].
    intros [= <- <-]. simpl. discriminate.
  - intros [= <- <-]. discriminate.
Qed.

(** With a turn order in place, whoever is not the next player is turned
    down by the guards. *)
Lemma roll_rejection_out_of_turn game_state p game_config :
  turn_order (_pack_data game_state) <> [] ->
  Pack.next_player_id game_state (win_tile (rules game_config)) <> Some p ->
  exists msg complete,
    Pack.roll_rejection game_state p game_config = Some (msg, complete).
Proof.
  intros Horder Hnext. unfold Pack.roll_rejection.
  destruct (in_list p (winners (_pack_data game_state))); [eauto|].
  destruct (in_list p (forfeited_players (_pack_data game_state))); [eauto|].
  destruct (Pack.tile_of (_pack_data game_state) p >=? win_tile (rules game_config));
    [eauto|].
  destruct (in_list p (players_rolled_this_turn (_pack_data game_state))); [eauto|].
  destruct (turn_order (_pack_data game_state)); [congruence|].
  destruct (Pack.next_player_id game_state (win_tile (rules game_config))) as [next|];
    [|eauto].
  destruct (Z.eqb_spec p next) as [->|Hne]; [congruence|]. simpl. eauto.
Qed.

End TurnFacts.

Section MoveFacts.

Import PyStr PyDict PyDictFacts.

Variable get_tile_color_info : Z -> GameConfig -> option string.
Variable render_win_message : GameState -> WinMessage -> string.

Lemma may_roll_no_rejection game_state game_config p :
  may_roll game_state game_config p = true ->
  Pack.roll_rejection game_state p game_config = None.
Proof.
  unfold may_roll, Pack.roll_rejection. intros H.
  repeat (apply andb_true_iff in H; destruct H as [H ?]).
  repeat match goal with
         | Hn : negb _ = true |- _ => apply negb_true_iff in Hn; rewrite Hn
         end.
  assert (Hge : (Pack.tile_of (_pack_data game_state) p >=? win_tile (rules game_config))
                = false).
  { apply Z.ltb_lt in H2. rewrite Z.geb_leb. apply Z.leb_gt. exact H2. }
  rewrite Hge.
  destruct (turn_order (_pack_data game_state)); [reflexivity|].
  destruct (Pack.next_player_id game_state (win_tile (rules game_config)));
    [|discriminate].
  apply Z.eqb_eq in H0. subst. now rewrite Z.eqb_refl.
Qed.

Lemma place_token_ok game_state uid tile game_config :
  -64 <= cols (grid game_config) <= 1114047 ->
  exists gs1,
    Pack.place_token game_state uid tile game_config = (gs1, Ok tt)
    /\ _pack_data gs1
       = with_tile_numbers (_pack_data game_state)
           (set (tile_numbers (_pack_data game_state)) uid tile).
Proof.
  intros Hgrid. unfold Pack.place_token.
  destruct (tile_number_to_alphanumeric_never_raises tile game_config Hgrid)
    as [o Ho].
  rewrite Ho. destruct o as [pos|].
  - destruct (str_truthy pos).
    + eexists. split; [reflexivity|]. unfold Pack.set_grid_position. simpl.
      destruct (get (players game_state) uid); reflexivity.
    + eexists. split; reflexivity.
  - eexists. split; reflexivity.
Qed.

(** As soon as someone has a tile, [check_win_condition] returns, and it
    leaves the tiles and the list of those who rolled as they were. *)
Lemma check_win_condition_ok game_state game_config :
  tile_numbers (_pack_data game_state) <> [] ->
  exists game_state' win_msg ended,
    Pack.check_win_condition render_win_message game_state game_config
    = (game_state', Ok (win_msg, ended))
    /\ tile_numbers (_pack_data game_state') = tile_numbers (_pack_data game_state)
    /\ players_rolled_this_turn (_pack_data game_state')
       = players_rolled_this_turn (_pack_data game_state).
Proof.
  intros Hne. unfold Pack.check_win_condition.
  set (data := _pack_data game_state) in *.
  set (win := win_tile (rules game_config)).
  destruct (fold_left (Pack.stamp_goal_reacher win (turn_count game_state))
              (items (tile_numbers data)) (data, []))
    as [data1 reachers] eqn:Efold.
  pose proof (stamp_fold_frame win (turn_count game_state)
                (items (tile_numbers data)) (data, [])) as Hframe.
  cbv zeta in Hframe. rewrite Efold in Hframe. simpl in Hframe.
  destruct Hframe as (Htiles & _ & _ & _ & _ & Hrolled).
  destruct (forallb (fun tile_num => tile_num >=? win) (values (tile_numbers data1)))
    eqn:Eall.
  - destruct (negb (game_ended data1)).
    + assert (Hrec : goal_reached_turn data1 <> []).
      { rewrite Htiles in Eall.
        assert (Hstamp := fun u => stamp_fold_goal_turn win (turn_count game_state)
                                     (items (tile_numbers data)) (data, []) u).
        rewrite Efold in Hstamp. simpl in Hstamp.
        destruct (tile_numbers data) as [|[u t] rest]; [congruence|].
        simpl in Eall. apply andb_true_iff in Eall. destruct Eall as [Hu _].
        specialize (Hstamp u). simpl in Hstamp.
        rewrite Z.eqb_refl, Hu in Hstamp. simpl in Hstamp.
        intros E. rewrite E in Hstamp. simpl in Hstamp.
        destruct (get (goal_reached_turn data) u); discriminate. }
      destruct (min_value_nonempty (goal_reached_turn data1) Hrec) as [earliest Hmin].
      change (goal_reached_turn (with_game_ended data1 true))
        with (goal_reached_turn data1).
      rewrite Hmin.
      destruct (map fst (filter (fun item => snd item =? earliest)
                           (items (goal_reached_turn data1)))) as [|w [|w' rest]];
        do 3 eexists; (split; [reflexivity|]); simpl; split; assumption.
    + do 3 eexists. split; [reflexivity|]. simpl. split; assumption.
  - destruct reachers as [|u [|u' rest]];
      do 3 eexists; (split; [reflexivity|]); simpl; split; assumption.
Qed.

(** The end of a roll: the message is made of the parts so far and what
    is appended after them, the tiles stay, and the player is recorded as
    having rolled. *)
Lemma finish_roll_ok game_state uid game_config parts final_tile :
  tile_numbers (_pack_data game_state) <> [] ->
  exists game_state' extra complete,
    Pack.finish_roll get_tile_color_info render_win_message
      game_state uid game_config parts final_tile
    = (game_state', Ok (join newline (parts ++ extra), true, None, complete))
    /\ tile_numbers (_pack_data game_state') = tile_numbers (_pack_data game_state)
    /\ in_list uid (players_rolled_this_turn (_pack_data game_state')) = true.
Proof.
  intros Hne. unfold Pack.finish_roll.
  set (parts1 := if (2 <=? final_tile) && (final_tile <=? 99) then _ else parts).
  assert (Hp1 : exists e1, parts1 = (parts ++ e1)%list).
  { subst parts1. destruct ((2 <=? final_tile) && (final_tile <=? 99)).
    - destruct (get_tile_color_info final_tile game_config) as [m|].
      + destruct (str_truthy m); [now exists [m] | exists []; now rewrite app_nil_r].
      + exists []. now rewrite app_nil_r.
    - exists []. now rewrite app_nil_r. }
  destruct Hp1 as [e1 He1].
  set (gs1 := if in_list uid (players_rolled_this_turn (_pack_data game_state))
              then game_state else _).
  assert (Hgs1 : tile_numbers (_pack_data gs1) = tile_numbers (_pack_data game_state)
                 /\ in_list uid (players_rolled_this_turn (_pack_data gs1)) = true).
  { subst gs1.
    destruct (in_list uid (players_rolled_this_turn (_pack_data game_state))) eqn:E.
    - split; [reflexivity | exact E].
    - simpl. split; [reflexivity|]. rewrite in_list_app. simpl.
      rewrite Z.eqb_refl. now rewrite orb_true_r. }
  destruct Hgs1 as [Ht1 Hr1].
  assert (Hne1 : tile_numbers (_pack_data gs1) <> []) by (rewrite Ht1; exact Hne).
  destruct (check_win_condition_ok gs1 game_config Hne1)
    as (gs2 & win_msg & ended & Hcheck & Ht2 & Hr2).
  rewrite Hcheck.
  assert (Hp2 : exists e2,
             match win_msg with
             | Some m => if str_truthy m then (parts1 ++ [m])%list else parts1
             | None => parts1
             end = (parts ++ e2)%list).
  { rewrite He1. destruct win_msg as [m|].
    - destruct (str_truthy m).
      + exists (e1 ++ [m])%list. now rewrite app_assoc.
      + now exists e1.
    - now exists e1. }
  destruct Hp2 as [e2 He2]. rewrite He2.
  do 3 eexists. split; [reflexivity|]. simpl. split.
  - now rewrite Ht2, Ht1.
  - now rewrite Hr2.
Qed.



Lemma set_nonempty {V : Type} (d : dict V) (k : Z) (v : V) : set d k v <> [].
Proof.
  intros E. pose proof (get_set_same V d k v) as H. rewrite E in H. discriminate.
Qed.



End MoveFacts.


(** The example of the spec: on the classic board with the snake 16 -> 6,
    the player on tile 10 rolls a 6, lands on 16 and is put on 6; the
    message names the slide. *)
Example tile_10_rolls_6_onto_snake :
  snd (Pack.on_dice_rolled no_tile_info plain_win_text midgame_session 1 6 snake_config)
  = Ok (("Moved to tile 16" ++ PyStr.newline
           ++ Pack.emoji_snake ++ " Snake! Slid down to tile 6")%string,
        true, None, false).
Proof. reflexivity. Qed.

(** A redirection does not chain: with the snakes 16 -> 6 and 6 -> 2, the
    token that lands on 16 stops on 6. *)
Example redirection_does_not_chain :
  PyDict.get
    (tile_numbers (_pack_data (fst
       (Pack.on_dice_rolled no_tile_info plain_win_text midgame_session 1 6
          (classic_config [(16, 6); (6, 2)] []))))) 1
  = Some 6.
Proof. reflexivity. Qed.

(** ** Forfeits *)

Section ForfeitFacts.

Import PyDict PyDictFacts.

Lemma in_list_ext (x : Z) (xs ys : list Z) :
  (In x xs <-> In x ys) -> in_list x xs = in_list x ys.
Proof.
  intros H. destruct (in_list x ys) eqn:E.
  - apply in_list_true_iff, H, in_list_true_iff, E.
  - apply in_list_false_iff. intros Hx. apply H in Hx.
    apply in_list_true_iff in Hx. congruence.
Qed.

Lemma drop_member_other (xs : list Z) (p q : Z) :
  q <> p -> in_list q (Manager.drop_member xs p) = in_list q xs.
Proof.
  intros Hne. unfold Manager.drop_member.
  destruct (in_list p xs); [|reflexivity].
  apply in_list_ext. now apply list_remove_In_other.
Qed.

Lemma drop_member_gone (xs : list Z) (p : Z) :
  NoDup xs -> in_list p (Manager.drop_member xs p) = false.
Proof.
  intros Hnd. unfold Manager.drop_member.
  destruct (in_list p xs) eqn:E; [|exact E].
  apply in_list_false_iff. now apply list_remove_NoDup_gone.
Qed.

Lemma drop_key_other {V : Type} (d : dict V) (p q : Z) :
  q <> p -> get (Manager.drop_key d p) q = get d q.
Proof.
  intros Hne. unfold Manager.drop_key.
  destruct (mem d p); [|reflexivity].
  apply get_del_other. congruence.
Qed.

(** Whoever is on the forfeited list is turned down by the guards of
    [on_dice_rolled], and the session stays as it is. *)
Lemma forfeited_roll_is_rejected (game_state : GameState) (p : Z) :
  in_list p (forfeited_players (_pack_data game_state)) = true ->
  forall info render dice_result game_config,
  exists msg,
    Pack.on_dice_rolled info render game_state p dice_result game_config
    = (game_state, Ok (msg, false, None, false)).
Proof.
  intros Hf info render dice_result game_config.
  unfold Pack.on_dice_rolled, Pack.roll_rejection.
  destruct (in_list p (winners (_pack_data game_state))); [eexists; reflexivity|].
  rewrite Hf. eexists; reflexivity.
Qed.

Lemma get_del_same {V : Type} (d : dict V) (k : Z) :
  wf d -> get (del d k) k = None.
Proof.
  unfold wf. induction d as [|[k' v'] rest IH]; intros Hwf; [reflexivity|].
  simpl in Hwf. inversion Hwf as [|? ? Hnot Hrest]; subst. simpl.
  destruct (Z.eqb_spec k' k) as [->|Hne].
  - apply get_None_iff. exact Hnot.
  - simpl. destruct (Z.eqb_spec k' k); [contradiction|]. now apply IH.
Qed.

Lemma drop_key_gone {V : Type} (d : dict V) (p : Z) :
  wf d -> get (Manager.drop_key d p) p = None.
Proof.
  intros Hwf. unfold Manager.drop_key, mem.
  destruct (get d p) eqn:E; [now apply get_del_same | exact E].
Qed.

(** C5 (as amended).  A forfeit keeps the player on the board and in the
    turn list: the players, their states, the turn counter, the turn
    order, the player numbers and every tile number stay as they are.  The
    one who forfeits is put on the forfeited list; is taken off the
    winners, off those who rolled this turn and off those who reached the
    end this turn (lists that held them once at most); loses their own
    entries of [original_characters], [real_body_characters],
    [transformation_counts], [mind_changed] and [goal_reached_turn]; has
    their grid position recorded in [removed_player_positions]; and from
    then on a roll of theirs is turned down without changing the session,
    as is the roll of anyone on the forfeited list of any session.
    For every other participant nothing changes: not their forfeited,
    winner, rolled-this-turn or reached-the-end membership, nor their
    recorded goal turn, character data or recorded position. *)
Theorem forfeit_keeps_board_turn_list_and_others (game_state : GameState) (p : Z) :
  let game_state' := Manager.command_gamequit game_state p in
  let data := _pack_data game_state in
  let data' := _pack_data game_state' in
  (players game_state' = players game_state
   /\ player_states game_state' = player_states game_state
   /\ turn_count game_state' = turn_count game_state
   /\ turn_order data' = turn_order data
   /\ player_numbers data' = player_numbers data
   /\ tile_numbers data' = tile_numbers data)
  /\ (is_locked game_state = false ->
      forall player, get (players game_state) p = Some player ->
      in_list p (forfeited_players data') = true
      /\ (NoDup (winners data) -> in_list p (winners data') = false)
      /\ (NoDup (players_rolled_this_turn data) ->
          in_list p (players_rolled_this_turn data') = false)
      /\ (NoDup (players_reached_end_this_turn data) ->
          in_list p (players_reached_end_this_turn data') = false)
      /\ (wf (original_characters data) -> get (original_characters data') p = None)
      /\ (wf (real_body_characters data) -> get (real_body_characters data') p = None)
      /\ (wf (transformation_counts data) -> get (transformation_counts data') p = None)
      /\ (wf (mind_changed data) -> get (mind_changed data') p = None)
      /\ (wf (goal_reached_turn data) -> get (goal_reached_turn data') p = None)
      /\ get (removed_player_positions data') p = Some (GamePlayer.grid_position player)
      /\ forall info render dice_result game_config,
           exists msg,
             Pack.on_dice_rolled info render game_state' p dice_result game_config
             = (game_state', Ok (msg, false, None, false)))
  /\ (forall q, q <> p ->
        in_list q (forfeited_players data') = in_list q (forfeited_players data)
        /\ in_list q (winners data') = in_list q (winners data)
        /\ in_list q (players_rolled_this_turn data')
           = in_list q (players_rolled_this_turn data)
        /\ in_list q (players_reached_end_this_turn data')
           = in_list q (players_reached_end_this_turn data)
        /\ get (goal_reached_turn data') q = get (goal_reached_turn data) q
        /\ get (original_characters data') q = get (original_characters data) q
        /\ get (real_body_characters data') q = get (real_body_characters data) q
        /\ get (transformation_counts data') q = get (transformation_counts data) q
        /\ get (mind_changed data') q = get (mind_changed data) q
        /\ get (removed_player_positions data') q
           = get (removed_player_positions data) q)
  /\ (forall later : GameState,
        in_list p (forfeited_players (_pack_data later)) = true ->
        forall info render dice_result game_config,
        exists msg,
          Pack.on_dice_rolled info render later p dice_result game_config
          = (later, Ok (msg, false, None, false))).
Proof.
  intros game_state' data data'. subst game_state' data'.
  assert (Hlater : forall later : GameState,
             in_list p (forfeited_players (_pack_data later)) = true ->
             forall info render dice_result game_config,
             exists msg,
               Pack.on_dice_rolled info render later p dice_result game_config
               = (later, Ok (msg, false, None, false)))
    by (intros later; apply forfeited_roll_is_rejected).
  unfold Manager.command_gamequit. fold data.
  destruct (is_locked game_state) eqn:Elock.
  { split; [repeat split|]. split; [discriminate|].
    split; [intros q _; repeat split | exact Hlater]. }
  destruct (get (players game_state) p) as [player|] eqn:Eplayer.
  2:{ split; [repeat split|]. split; [discriminate|].
    split; [intros q _; repeat split | exact Hlater]. }
  cbv zeta. simpl forfeited_players.
  destruct (in_list p (forfeited_players data)) eqn:Ef.
  - split; [repeat split|]. split.
    + intros _ player' [= <-]. simpl.
      split; [exact Ef|].
      repeat (split; [intros Hnd; first [now apply drop_member_gone
                                         | now apply drop_key_gone]|]).
      split; [apply get_set_same|].
      intros info render dice_result game_config.
      apply forfeited_roll_is_rejected. exact Ef.
    + split; [|exact Hlater]. intros q Hq. simpl.
      rewrite !drop_member_other, !drop_key_other by assumption.
      rewrite get_set_other by congruence.
      repeat split.
  - assert (Hnow : in_list p (forfeited_players data ++ [p]) = true).
    { rewrite in_list_app. simpl. rewrite Z.eqb_refl. now rewrite orb_true_r. }
    split; [repeat split|]. split.
    + intros _ player' [= <-]. simpl.
      split; [exact Hnow|].
      repeat (split; [intros Hnd; first [now apply drop_member_gone
                                         | now apply drop_key_gone]|]).
      split; [apply get_set_same|].
      intros info render dice_result game_config.
      apply forfeited_roll_is_rejected. exact Hnow.
    + split; [|exact Hlater]. intros q Hq. simpl.
      rewrite !drop_member_other, !drop_key_other by assumption.
      rewrite get_set_other by congruence.
      repeat split. rewrite in_list_app. simpl.
      destruct (Z.eqb_spec q p); [congruence|]. now rewrite orb_false_r.
Qed.

End ForfeitFacts.

Lemma forfeit_keeps_board_turn_list_and_others_witness :
  let quit := Manager.command_gamequit two_rolled_session 2 in
  is_locked two_rolled_session = false
  /\ PyDict.get (players two_rolled_session) 2
     = Some (example_player 2 "Bob" "D1" 2 "formal")
  /\ NoDup (winners (_pack_data two_rolled_session))
  /\ NoDup (players_rolled_this_turn (_pack_data two_rolled_session))
  /\ PyDict.wf (transformation_counts (_pack_data two_rolled_session))
  /\ 1 <> 2
  /\ in_list 2 (forfeited_players (_pack_data quit)) = true
  /\ in_list 2 (winners (_pack_data quit)) = false
  /\ in_list 2 (players_rolled_this_turn (_pack_data two_rolled_session)) = true
  /\ in_list 2 (players_rolled_this_turn (_pack_data quit)) = false
  /\ PyDict.get (transformation_counts (_pack_data two_rolled_session)) 2 = Some (Some 0)
  /\ PyDict.get (transformation_counts (_pack_data quit)) 2 = None
  /\ PyDict.get (removed_player_positions (_pack_data quit)) 2 = Some "D1"%string
  /\ in_list 1 (players_rolled_this_turn (_pack_data quit))
     = in_list 1 (players_rolled_this_turn (_pack_data two_rolled_session)).
Proof.
  assert (H1 : is_locked two_rolled_session = false) by reflexivity.
  assert (H2 : PyDict.get (players two_rolled_session) 2
               = Some (example_player 2 "Bob" "D1" 2 "formal")) by reflexivity.
  assert (H3 : NoDup (winners (_pack_data two_rolled_session))) by constructor.
  assert (H4 : NoDup (players_rolled_this_turn (_pack_data two_rolled_session))).
  { repeat constructor; simpl; intuition discriminate. }
  assert (H5 : PyDict.wf (transformation_counts (_pack_data two_rolled_session))).
  { unfold PyDict.wf. repeat constructor; simpl; intuition discriminate. }
  assert (H6 : 1 <> 2) by lia.
  destruct (forfeit_keeps_board_turn_list_and_others two_rolled_session 2)
    as (_ & Hquitter & Hothers & _).
  destruct (Hquitter H1 _ H2)
    as (Hf & Hw & Hr & _ & _ & _ & Hcount & _ & _ & Hposition & _).
  destruct (Hothers 1 H6) as (_ & _ & Hother & _).
  cbv zeta. split; [exact H1|]. split; [exact H2|]. split; [exact H3|].
  split; [exact H4|]. split; [exact H5|]. split; [exact H6|]. split; [exact Hf|].
  split; [exact (Hw H3)|]. split; [reflexivity|]. split; [exact (Hr H4)|].
  split; [reflexivity|]. split; [exact (Hcount H5)|]. split; [exact Hposition|].
  exact Hother.
Defined.

(** C5 (as stated) fails: the forfeit of player 2, who had rolled this
    turn, also takes player 2 off the list of those who rolled (and drops
    the character data and recorded goal turn held for player 2), so more
    than the forfeited list and the winners list has changed. *)
Lemma forfeit_changes_more_than_forfeited_and_winners :
  ~ forfeit_flips_only two_rolled_session
      (Manager.command_gamequit two_rolled_session 2).
Proof.
  unfold forfeit_flips_only. intros H.
  apply (f_equal (fun g => players_rolled_this_turn (_pack_data g))) in H.
  vm_compute in H. discriminate.
Qed.

(** What [check_win_condition] does with a forfeited player on the goal
    tile: player 1, a winner on tile 100, forfeits and is taken off the
    winners; the next roll, by player 2, puts player 1 back on them. *)
Example forfeited_winner_is_put_back :
  let forfeited := Manager.command_gamequit one_finished_session 1 in
  let after_roll :=
    fst (Pack.on_dice_rolled no_tile_info plain_win_text forfeited 2 3
           (classic_config [] [])) in
  winners (_pack_data forfeited) = []
  /\ forfeited_players (_pack_data forfeited) = [1]
  /\ winners (_pack_data after_roll) = [1]
  /\ forfeited_players (_pack_data after_roll) = [1].
Proof. repeat split. Qed.

(** ** Exchanges and their reversal *)

(** The [while] loop of [_build_swap_chain] ends: when the ids already
    visited are distinct keys of [player_states], any two amounts of fuel
    that exceed the number of keys still to visit give the same chain. *)
Lemma build_swap_chain_loop_fuel (game_state : GameState) :
  forall fuel1 fuel2 chain visited current_id,
    NoDup visited ->
    incl visited (PyDict.keys (player_states game_state)) ->
    (List.length (player_states game_state) < fuel1 + List.length visited)%nat ->
    (List.length (player_states game_state) < fuel2 + List.length visited)%nat ->
    Manager.build_swap_chain_loop fuel1 game_state chain visited current_id
    = Manager.build_swap_chain_loop fuel2 game_state chain visited current_id.
Proof.
  assert (Hfull : forall visited,
             NoDup visited ->
             incl visited (PyDict.keys (player_states game_state)) ->
             (List.length visited <= List.length (player_states game_state))%nat).
  { intros visited Hnd Hincl.
    pose proof (NoDup_incl_length Hnd Hincl) as Hlen.
    unfold PyDict.keys in Hlen. rewrite length_map in Hlen. exact Hlen. }
  induction fuel1 as [|fuel1 IH]; intros fuel2 chain visited current_id Hnd Hincl H1 H2.
  - pose proof (Hfull visited Hnd Hincl). lia.
  - destruct fuel2 as [|fuel2].
    + pose proof (Hfull visited Hnd Hincl). lia.
    + cbn [Manager.build_swap_chain_loop].
      destruct (current_id =? 0) eqn:Ezero; cbn [orb]; [reflexivity|].
      destruct (in_list current_id visited) eqn:Eseen; [reflexivity|].
      destruct (PyDict.get (player_states game_state) current_id) as [state|] eqn:Eget;
        [|reflexivity].
      destruct (TransformationState.form_owner_user_id state) as [other_id|];
        [|reflexivity].
      destruct (other_id =? 0); [reflexivity|].
      destruct (other_id =? current_id); [reflexivity|].
      apply IH.
      * constructor; [|exact Hnd]. apply in_list_false_iff. exact Eseen.
      * intros k [<-|Hk]; [|apply Hincl; exact Hk].
        apply PyDictFacts.mem_true_iff. unfold PyDict.mem. rewrite Eget. reflexivity.
      * cbn [List.length]. lia.
      * cbn [List.length]. lia.
Qed.

(** [_build_swap_chain] returns the chain of the finished loop: more
    fuel than it gives the loop changes nothing. *)
Lemma build_swap_chain_terminates (game_state : GameState) (start_user_id : Z)
  (extra : nat) :
  Manager.build_swap_chain_loop
    (extra + S (List.length (player_states game_state))) game_state [] [] start_user_id
  = Manager._build_swap_chain game_state start_user_id.
Proof.
  unfold Manager._build_swap_chain.
  apply build_swap_chain_loop_fuel.
  - constructor.
  - intros k [].
  - cbn [List.length]. lia.
  - cbn [List.length]. lia.
Qed.

(** C6.  Players 1 (Alice, casual) and 2 (Bob, formal) are exchanged once
    with [command_swap]; the chain built from player 1 is the single pair
    (1, 2), and reverting it gives both players their character, grid
    position, background and tile back, leaves the player numbers and the
    turn order alone, and makes each state own its form again.  The
    outfits, which [command_swap] exchanged, are not exchanged back:
    player 1 keeps Bob's formal outfit and player 2 Alice's casual one. *)
Theorem revert_after_swap_leaves_outfits_exchanged :
  let swapped := Manager.command_swap unswapped_session 1 2 in
  let chain := Manager._build_swap_chain swapped 1 in
  let reverted := Manager._revert_swap_chain swapped chain in
  let shown (g : GameState) :=
    map (fun kv => (fst kv, GamePlayer.character_name (snd kv),
                    GamePlayer.grid_position (snd kv),
                    GamePlayer.background_id (snd kv)))
      (players g) in
  let outfits (g : GameState) :=
    map (fun kv => (fst kv, GamePlayer.outfit_name (snd kv))) (players g) in
  chain = [(1, 2)]
  /\ shown swapped <> shown unswapped_session
  /\ shown reverted = shown unswapped_session
  /\ tile_numbers (_pack_data reverted) = tile_numbers (_pack_data unswapped_session)
  /\ player_numbers (_pack_data reverted) = player_numbers (_pack_data unswapped_session)
  /\ turn_order (_pack_data reverted) = turn_order (_pack_data unswapped_session)
  /\ map (fun kv => (fst kv, TransformationState.form_owner_user_id (snd kv)))
       (player_states reverted)
     = [(1, Some 1); (2, Some 2)]
  /\ outfits unswapped_session
     = [(1, Some "casual"%string); (2, Some "formal"%string); (3, Some "sporty"%string)]
  /\ outfits reverted
     = [(1, Some "formal"%string); (2, Some "casual"%string); (3, Some "sporty"%string)].
Proof.
  cbv zeta. split; [reflexivity|]. split; [vm_compute; discriminate|].
  repeat split.
Qed.

(** ** The command serializer *)

Section SerializerFacts.

Import PyDict PyDictFacts Serializer.

Variable starts_with_bang : string -> bool.
Variable first_word_lower : string -> string.
Variable link_urls : string -> list Embed.t.
Variable _detect_and_load_game_thread : Channel.t -> option GameState.
Variable _handle_narrator_message : GameState -> Message.t -> GameState * result unit.
Variable render_panel : GameState -> Message.t -> bool -> GameState * result bool.

Local Abbreviation handle :=
  (handle_message starts_with_bang first_word_lower link_urls
     _detect_and_load_game_thread _handle_narrator_message render_panel).
Local Abbreviation replay :=
  (replay_queued_message starts_with_bang first_word_lower link_urls
     _detect_and_load_game_thread _handle_narrator_message render_panel).
Local Abbreviation process :=
  (_process_queued_messages starts_with_bang first_word_lower link_urls
     _detect_and_load_game_thread _handle_narrator_message render_panel).
Local Abbreviation execute :=
  (_execute_gameboard_command starts_with_bang first_word_lower link_urls
     _detect_and_load_game_thread _handle_narrator_message render_panel).










(** A message that reaches the lock check while the lock of its thread is
    held is put on the queue of the thread, and nothing else happens to
    it: it is recorded, its payload is downloaded (and what could not be
    kept is logged), and the original is deleted. *)
Lemma handle_message_captures s e :
  get (_command_locks s) (Channel.id (Message.channel e)) = Some true ->
  reaches_lock_check s e = true ->
  handle s e false false
  = (enqueue
       (delete_message
          (add_log (record_call s (e, false)) (snd (capture link_urls e)))
          (Message.id e))
       (Channel.id (Message.channel e)) (fst (capture link_urls e)),
     Ok true).
Proof.
  intros Hlock Hreach. unfold reaches_lock_check in Hreach.
  destruct (get (_active_games s) (Channel.id (Message.channel e))) as [g|] eqn:Eg;
    [|discriminate].
  apply andb_true_iff in Hreach as [Hreach Hunlocked].
  apply andb_true_iff in Hreach as [Hreach Hnot_map].
  apply andb_true_iff in Hreach as [Hreach Hnot_forfeited].
  apply andb_true_iff in Hreach as [Hreach Hallowed].
  apply andb_true_iff in Hreach as [Hreach Hmine].
  apply andb_true_iff in Hreach as [Hreach Hguild].
  apply andb_true_iff in Hreach as [Hreach Hforum].
  apply andb_true_iff in Hreach as [Hreach Hthread].
  apply andb_true_iff in Hreach as [Hpacks Hnot_bot].
  apply negb_true_iff in Hunlocked, Hnot_map, Hnot_forfeited, Hmine, Hforum, Hnot_bot.
  unfold handle_message.
  change (_has_packs (record_call s (e, false))) with (_has_packs s).
  rewrite Hpacks. cbn [negb].
  rewrite Hnot_bot. cbn [orb].
  rewrite Hthread. cbn [negb].
  change (foreign_forum (record_call s (e, false)) (Message.channel e))
    with (foreign_forum s (Message.channel e)).
  rewrite Hforum, Hguild. cbn [negb].
  unfold find_session.
  change (_active_games (record_call s (e, false))) with (_active_games s).
  rewrite Eg.
  change (other_bot_owns (record_call s (e, false)) g) with (other_bot_owns s g).
  rewrite Hmine.
  assert (Hin_game :
            negb (mem (players g) (Author.id (Message.author e)))
            && negb ((Author.id (Message.author e) =? gm_user_id g)
                     || match narrator_user_id g with
                        | Some n => Author.id (Message.author e) =? n
                        | None => false
                        end) = false).
  { destruct (mem (players g) (Author.id (Message.author e))); [reflexivity|].
    simpl in Hallowed |- *. rewrite Hallowed. reflexivity. }
  rewrite Hin_game, Hnot_forfeited, Hnot_map, Hunlocked.
  unfold _get_command_lock.
  change (_command_locks (record_call s (e, false))) with (_command_locks s).
  rewrite Hlock.
  destruct (capture link_urls e) as [message_data records]. reflexivity.
Qed.

Lemma reaches_lock_check_ext s s' e :
  _has_packs s' = _has_packs s ->
  forum_channel_id s' = forum_channel_id s ->
  bot_user s' = bot_user s ->
  _active_games s' = _active_games s ->
  reaches_lock_check s' e = reaches_lock_check s e.
Proof.
  intros Hp Hf Hb Hg.
  unfold reaches_lock_check, foreign_forum, other_bot_owns.
  rewrite Hp, Hf, Hb, Hg. reflexivity.
Qed.

Lemma reaches_lock_check_same_setup s s' e :
  same_setup s s' -> reaches_lock_check s' e = reaches_lock_check s e.
Proof.
  intros (Hp & Hf & Hb & Hg & _). now apply reaches_lock_check_ext.
Qed.






(** *** The log only grows *)















(** *** A command from the taking of the lock to the replay *)





(** *** Messages that come in while a command holds the lock *)


(** One message that comes in while the lock is held and whose capture
    ends before anything else runs: the two stretches together are the
    call of [handle_message]. *)
Lemma arrival_and_capture_make_handle_message s e :
  get (_command_locks s) (Channel.id (Message.channel e)) = Some true ->
  reaches_lock_check s e = true ->
  run_stretches link_urls (s, []) [Arrives e; CaptureEnds (Message.id e)]
  = Some (fst (handle s e false false), []).
Proof.
  intros Hlock Hreach.
  rewrite (handle_message_captures s e Hlock Hreach).
  unfold run_stretches, run_stretch, lock_is_held.
  rewrite Hreach, Hlock. cbn [andb app take_message].
  rewrite Z.eqb_refl.
  destruct (capture link_urls e) as [message_data records]. reflexivity.
Qed.






(** A command that goes through [_execute_gameboard_command] while the
    lock of its thread is held does not start: the manager is as before
    and the call waits for the lock. *)
Lemma locked_command_waits s channel (coro : State -> State * result unit) :
  Channel.is_thread channel = true ->
  foreign_forum s channel = false ->
  get (_command_locks s) (Channel.id channel) = Some true ->
  execute s channel coro = (s, WaitingForLock).
Proof.
  intros Hthread Hforum Hlock. unfold _execute_gameboard_command.
  rewrite Hthread, Hforum. cbn [negb]. unfold _get_command_lock.
  rewrite Hlock. reflexivity.
Qed.

(** *** Attachments that read as zero bytes *)

Lemma bytes_truthy_false (b : bytes) : bytes_truthy b = false <-> b = [].
Proof. destruct b; simpl; split; congruence. Qed.





(** What is delivered was read: no attachment of the rebuilt message
    carries bytes that did not come from an attachment of the original. *)
Lemma delivered_attachments_origin attachments p :
  In p (delivered_attachments attachments) ->
  exists a b,
    In a attachments /\ Attachment.read a = Ok b /\ b <> []
    /\ p = Attachment.mk (Attachment.filename a) (Attachment.content_type a) (Ok b).
Proof.
  unfold delivered_attachments. rewrite in_flat_map.
  intros (a & Ha & Hp). exists a.
  destruct (Attachment.read a) as [b|exc]; [|contradiction].
  destruct (bytes_truthy b) eqn:Eb; [|contradiction].
  destruct Hp as [<-|[]]. exists b. repeat split; try assumption.
  intros ->. discriminate.
Qed.

Lemma delivered_attachments_skip_empty attachments a p :
  In a attachments -> Attachment.read a = Ok [] ->
  In p (delivered_attachments attachments) ->
  Attachment.read p <> Ok [].
Proof.
  intros _ _ Hp.
  destruct (delivered_attachments_origin attachments p Hp) as (a' & b & _ & _ & Hb & ->).
  simpl. congruence.
Qed.



(** *** A message with an empty attachment, from the capture to the replay *)




End SerializerFacts.



(** The queue is in the order in which the captures end, which need not
    be the order in which the messages came: the second message, whose
    capture ends first, is replayed before the first. *)
Example later_message_overtakes :
  let schedule :=
    [Arrives first_message; Arrives second_message;
     CaptureEnds 9002; CaptureEnds 9001] in
  let run :=
    Serializer._execute_gameboard_command bang_prefix whole_text no_links
      nothing_on_disk silent_narrator accepting_renderer
      example_manager game_thread (command_with no_links schedule (Ok tt)) in
  map Serializer.Message.id (arrived schedule) = [9001; 9002]
  /\ map (fun c => (Serializer.Message.id (fst c), snd c))
       (Serializer.handle_message_calls (fst run))
     = [(9001, false); (9002, false); (9002, true); (9001, true)].
Proof. vm_compute. split; reflexivity. Qed.

(** A message whose capture is still under way when the command is over
    is not replayed with the others. *)
Example unfinished_capture_is_not_replayed :
  let schedule :=
    [Arrives first_message; Arrives second_message; CaptureEnds 9002] in
  let run :=
    Serializer._execute_gameboard_command bang_prefix whole_text no_links
      nothing_on_disk silent_narrator accepting_renderer
      example_manager game_thread (command_with no_links schedule (Ok tt)) in
  map Serializer.Message.id (replayed (fst run)) = [9002].
Proof. vm_compute. reflexivity. Qed.


(** C4.  While another command holds the lock of thread 700, a command
    that goes through [_execute_gameboard_command] waits and changes
    nothing; but [command_addplayer] of the game master for player 2, who
    had forfeited, takes no lock and does not look at it: it takes
    player 2 off the forfeited list of the session although the lock is
    held by someone else. *)
Theorem addplayer_changes_session_while_lock_is_held :
  let forfeited_in (s : Serializer.State) :=
    option_map (fun g => forfeited_players (_pack_data g))
      (PyDict.get (Serializer._active_games s) 700) in
  let started :=
    Serializer.command_addplayer_start nothing_on_disk busy_manager game_thread
      game_master (Some 2) in
  PyDict.get (Serializer._command_locks busy_manager) 700 = Some true
  /\ (forall coro,
        Serializer._execute_gameboard_command bang_prefix whole_text no_links
          nothing_on_disk silent_narrator accepting_renderer
          busy_manager game_thread coro
        = (busy_manager, Serializer.WaitingForLock))
  /\ snd started = Serializer.Adding true
  /\ Serializer._command_locks (fst started) = Serializer._command_locks busy_manager
  /\ forfeited_in busy_manager = Some [2]
  /\ forfeited_in (fst started) = Some [].
Proof.
  cbv zeta. split; [reflexivity|]. split.
  - intros coro. apply locked_command_waits; reflexivity.
  - repeat split.
Qed.

(** * Further properties of the pack and of the commands *)

(** Reading a field of a record that has just been updated. *)
Ltac fields :=
  cbn [tile_numbers transformation_counts original_characters
       real_body_characters mind_changed turn_order player_numbers
       current_turn_index players_rolled_this_turn winners
       players_reached_end_this_turn goal_reached_turn forfeited_players
       game_ended removed_player_positions
       with_tile_numbers with_transformation_counts with_original_characters
       with_real_body_characters with_mind_changed with_players_rolled_this_turn
       with_winners with_players_reached_end_this_turn with_goal_reached_turn
       with_forfeited_players with_game_ended with_removed_player_positions
       with_turn_order with_player_numbers with_current_turn_index
       game_thread_id map_thread_id gm_user_id narrator_user_id bot_user_id
       is_locked is_paused game_started turn_count players player_states
       _pack_data with_players with_player_states with_pack_data
       with_gm_user_id with_narrator_user_id with_is_locked with_is_paused
       with_game_started with_turn_count fst snd negb andb orb].

Tactic Notation "fields" "in" hyp(H) :=
  cbn [tile_numbers transformation_counts original_characters
       real_body_characters mind_changed turn_order player_numbers
       current_turn_index players_rolled_this_turn winners
       players_reached_end_this_turn goal_reached_turn forfeited_players
       game_ended removed_player_positions
       with_tile_numbers with_transformation_counts with_original_characters
       with_real_body_characters with_mind_changed with_players_rolled_this_turn
       with_winners with_players_reached_end_this_turn with_goal_reached_turn
       with_forfeited_players with_game_ended with_removed_player_positions
       with_turn_order with_player_numbers with_current_turn_index
       game_thread_id map_thread_id gm_user_id narrator_user_id bot_user_id
       is_locked is_paused game_started turn_count players player_states
       _pack_data with_players with_player_states with_pack_data
       with_gm_user_id with_narrator_user_id with_is_locked with_is_paused
       with_game_started with_turn_count fst snd negb andb orb] in H.
(** ** The zig-zag numbering on any grid *)

Section GridFacts.

Import PyStr.

Variable parse_alphanumeric_coordinate : string -> option (Z * Z).

(** The tile of a cell, as [alphanumeric_to_tile_number] computes it. *)
Lemma cell_tile_parts (c r ncols : Z) :
  0 < ncols -> 1 <= c <= ncols ->
  let position_in_row := if r mod 2 =? 1 then c else ncols - c + 1 in
  let t := (r - 1) * ncols + position_in_row in
  1 <= position_in_row <= ncols
  /\ (t - 1) / ncols = r - 1
  /\ (t - 1) mod ncols = position_in_row - 1.
Proof.
  intros Hn Hc position_in_row t.
  assert (Hp : 1 <= position_in_row <= ncols).
  { subst position_in_row. destruct (r mod 2 =? 1); lia. }
  assert (Ht : t - 1 = ncols * (r - 1) + (position_in_row - 1)) by (subst t; lia).
  split; [exact Hp|]. split.
  - symmetry. apply (Z.div_unique_pos _ _ _ (position_in_row - 1)); [lia | exact Ht].
  - symmetry. apply (Z.mod_unique_pos _ _ (r - 1)); [lia | exact Ht].
Qed.

(** X1.  On any grid whose column letters [chr] accepts, the tile that
    [alphanumeric_to_tile_number] computes for the cell in column [c] and
    row [r] of the grid lies on the board, and
    [tile_number_to_alphanumeric] gives the coordinate of that very cell
    for it: the column letter of [c] followed by [r]. *)
Theorem cell_to_tile_and_back (coord : string) (cfg : GameConfig) (c r : Z) :
  parse_alphanumeric_coordinate coord = Some (c, r) ->
  1 <= c <= cols (grid cfg) ->
  1 <= r <= rows (grid cfg) ->
  cols (grid cfg) <= 1114047 ->
  exists t,
    Pack.alphanumeric_to_tile_number parse_alphanumeric_coordinate coord cfg = Some t
    /\ 1 <= t <= rows (grid cfg) * cols (grid cfg)
    /\ tile_number_to_alphanumeric t cfg = Ok (Some (coordinate c r)).
Proof.
  intros Hparse Hc Hr Hmax.
  unfold Pack.alphanumeric_to_tile_number. rewrite Hparse.
  set (ncols := cols (grid cfg)) in *.
  assert (Hn : 0 < ncols) by lia.
  destruct (cell_tile_parts c r ncols Hn Hc) as (Hp & Hdiv & Hmod).
  cbv zeta in Hp, Hdiv, Hmod.
  set (position_in_row := if r mod 2 =? 1 then c else ncols - c + 1) in *.
  set (t := (r - 1) * ncols + position_in_row) in *.
  exists t. split; [reflexivity|].
  assert (Ht : 1 <= t <= rows (grid cfg) * ncols) by (subst t; nia).
  split; [exact Ht|].
  unfold tile_number_to_alphanumeric. fold ncols.
  destruct (Z.ltb_spec t 1); [lia|].
  destruct (Z.gtb_spec t (rows (grid cfg) * ncols)); [lia|].
  rewrite Hdiv, Hmod.
  replace (r - 1 + 1) with r by lia.
  replace (position_in_row - 1 + 1) with position_in_row by lia.
  assert (Hcol : (if r mod 2 =? 1 then position_in_row
                  else ncols - position_in_row + 1) = c).
  { subst position_in_row. destruct (r mod 2 =? 1); lia. }
  rewrite Hcol. rewrite chr_in_range by (unfold ord_A; lia).
  reflexivity.
Qed.

(** The cell of a tile, as [tile_number_to_alphanumeric] computes it. *)
Lemma tile_cell_parts (t ncols nrows : Z) :
  0 < ncols -> 1 <= t <= nrows * ncols ->
  let r := (t - 1) / ncols + 1 in
  let position_in_row := (t - 1) mod ncols + 1 in
  let c := if r mod 2 =? 1 then position_in_row else ncols - position_in_row + 1 in
  1 <= c <= ncols
  /\ 1 <= r <= nrows
  /\ (r - 1) * ncols + (if r mod 2 =? 1 then c else ncols - c + 1) = t.
Proof.
  intros Hn Ht r position_in_row c.
  pose proof (Z.mod_pos_bound (t - 1) ncols Hn) as Hmod.
  pose proof (Z.div_mod (t - 1) ncols ltac:(lia)) as Hdm.
  assert (Hq : 0 <= (t - 1) / ncols) by (apply Z.div_pos; lia).
  assert (Hqr : (t - 1) / ncols < nrows).
  { apply Z.div_lt_upper_bound; [lia|]. nia. }
  split; [subst c position_in_row; destruct (r mod 2 =? 1); lia|].
  split; [subst r; lia|].
  assert (Hback : (if r mod 2 =? 1 then c else ncols - c + 1) = position_in_row).
  { subst c. destruct (r mod 2 =? 1); lia. }
  rewrite Hback. subst r position_in_row. lia.
Qed.

Lemma tile_coordinate (cfg : GameConfig) (t : Z) :
  1 <= cols (grid cfg) <= 1114047 ->
  1 <= t <= rows (grid cfg) * cols (grid cfg) ->
  let r := (t - 1) / cols (grid cfg) + 1 in
  let position_in_row := (t - 1) mod cols (grid cfg) + 1 in
  let c := if r mod 2 =? 1 then position_in_row
           else cols (grid cfg) - position_in_row + 1 in
  tile_number_to_alphanumeric t cfg = Ok (Some (coordinate c r)).
Proof.
  intros Hcols Ht r position_in_row c.
  destruct (tile_cell_parts t (cols (grid cfg)) (rows (grid cfg)) ltac:(lia) Ht)
    as (Hc & _ & _).
  cbv zeta in Hc. fold r in Hc. fold position_in_row in Hc. fold c in Hc.
  unfold tile_number_to_alphanumeric.
  destruct (Z.ltb_spec t 1); [lia|].
  destruct (Z.gtb_spec t (rows (grid cfg) * cols (grid cfg))); [lia|].
  fold r. fold position_in_row. fold c.
  rewrite chr_in_range by (unfold ord_A; lia). reflexivity.
Qed.

(** X2.  The other way round: on such a grid every tile from 1 to
    rows * cols gets the coordinate of a cell of the grid, and
    [alphanumeric_to_tile_number] gives the tile back for any text that is
    read as that cell. *)
Theorem tile_to_cell_and_back (cfg : GameConfig) (t : Z) :
  1 <= cols (grid cfg) <= 1114047 ->
  1 <= t <= rows (grid cfg) * cols (grid cfg) ->
  exists c r,
    1 <= c <= cols (grid cfg)
    /\ 1 <= r <= rows (grid cfg)
    /\ tile_number_to_alphanumeric t cfg = Ok (Some (coordinate c r))
    /\ forall coord,
         parse_alphanumeric_coordinate coord = Some (c, r) ->
         Pack.alphanumeric_to_tile_number parse_alphanumeric_coordinate coord cfg
         = Some t.
Proof.
  intros Hcols Ht.
  destruct (tile_cell_parts t (cols (grid cfg)) (rows (grid cfg)) ltac:(lia) Ht)
    as (Hc & Hr & Hback).
  pose proof (tile_coordinate cfg t Hcols Ht) as Htile.
  cbv zeta in Hc, Hr, Hback, Htile.
  set (r := (t - 1) / cols (grid cfg) + 1) in *.
  set (c := if r mod 2 =? 1 then _ else _) in *.
  exists c, r. repeat (split; [assumption|]).
  intros coord Hparse. unfold Pack.alphanumeric_to_tile_number.
  rewrite Hparse. f_equal. exact Hback.
Qed.

(** X3.  A coordinate that [tile_number_to_alphanumeric] gives for a tile
    between 1 and the goal tile is a move [validate_move] accepts, as
    soon as the parser reads the coordinates of the grid back as the cells
    they name; and it is refused, with an answer that names it, for a
    tile beyond the goal tile. *)
Theorem board_coordinate_is_valid_move_up_to_goal
  (game_state : GameState) (player_id : Z) (cfg : GameConfig) (t : Z) (s : string) :
  (forall c r,
      1 <= c <= cols (grid cfg) -> 1 <= r <= rows (grid cfg) ->
      parse_alphanumeric_coordinate (coordinate c r) = Some (c, r)) ->
  1 <= cols (grid cfg) <= 1114047 ->
  1 <= t <= rows (grid cfg) * cols (grid cfg) ->
  tile_number_to_alphanumeric t cfg = Ok (Some s) ->
  (t <= win_tile (rules cfg) ->
   Pack.validate_move parse_alphanumeric_coordinate game_state player_id s cfg
   = (true, None))
  /\ (win_tile (rules cfg) < t ->
      exists why,
        Pack.validate_move parse_alphanumeric_coordinate game_state player_id s cfg
        = (false, Some why)
        /\ mentions why s).
Proof.
  intros Hparser Hcols Ht Hs.
  destruct (tile_cell_parts t (cols (grid cfg)) (rows (grid cfg)) ltac:(lia) Ht)
    as (Hc & Hr & Hback).
  pose proof (tile_coordinate cfg t Hcols Ht) as Htile.
  cbv zeta in Hc, Hr, Hback, Htile.
  set (r := (t - 1) / cols (grid cfg) + 1) in *.
  set (c := if r mod 2 =? 1 then _ else _) in *.
  rewrite Htile in Hs. injection Hs as <-.
  unfold Pack.validate_move, Pack.alphanumeric_to_tile_number.
  rewrite (Hparser c r Hc Hr). rewrite Hback.
  destruct (Z.ltb_spec t 1); [lia|]. cbn [orb].
  split; intros Hwin.
  - destruct (Z.gtb_spec t (win_tile (rules cfg))); [lia | reflexivity].
  - destruct (Z.gtb_spec t (win_tile (rules cfg))); [|lia].
    eexists. split; [reflexivity|].
    exists "Position "%string. eexists. reflexivity.
Qed.

End GridFacts.

Lemma cell_to_tile_and_back_witness :
  Board.parse_alphanumeric_coordinate "E2" = Some (5, 2)
  /\ exists t,
       Pack.alphanumeric_to_tile_number Board.parse_alphanumeric_coordinate "E2"
         (classic_config [] []) = Some t
       /\ 1 <= t <= 100
       /\ tile_number_to_alphanumeric t (classic_config [] []) = Ok (Some "E2"%string).
Proof.
  split; [reflexivity|].
  apply (cell_to_tile_and_back Board.parse_alphanumeric_coordinate "E2"
           (classic_config [] []) 5 2); [reflexivity | simpl; lia ..].
Defined.

Lemma tile_to_cell_and_back_witness :
  exists c r,
    1 <= c <= 10 /\ 1 <= r <= 10
    /\ tile_number_to_alphanumeric 16 (classic_config [] []) = Ok (Some (coordinate c r))
    /\ forall coord,
         Board.parse_alphanumeric_coordinate coord = Some (c, r) ->
         Pack.alphanumeric_to_tile_number Board.parse_alphanumeric_coordinate coord
           (classic_config [] []) = Some 16.
Proof.
  apply (tile_to_cell_and_back Board.parse_alphanumeric_coordinate
           (classic_config [] []) 16); simpl; lia.
Defined.
(** ** Players joining *)

Section JoinFacts.

Import PyDict PyDictFacts.

Lemma set_grid_position_pack_data (g : GameState) (u : Z) (pos : string) :
  _pack_data (Pack.set_grid_position g u pos) = _pack_data g.
Proof.
  unfold Pack.set_grid_position. destruct (get (players g) u); reflexivity.
Qed.

(** A list whose keys count up is sorted already. *)
Lemma sort_by_key_counting {A : Type} (key : A -> Z) (l : list A) :
  forall first,
    map key l = numbers_from first l ->
    Pack.sort_by_key key l = l.
Proof.
  unfold numbers_from.
  induction l as [|x l IH]; intros first Hkeys; [reflexivity|].
  simpl in Hkeys. injection Hkeys as Hx Hl.
  simpl. rewrite (IH (S first) Hl).
  destruct l as [|y l']; [reflexivity|].
  simpl in Hl. injection Hl as Hy _.
  simpl. destruct (Z.leb_spec (key x) (key y)); [reflexivity | lia].
Qed.

Lemma sort_turn_order_fields (data : PackData) :
  let data' := Pack._sort_turn_order_by_player_number data in
  player_numbers data' = player_numbers data
  /\ tile_numbers data' = tile_numbers data
  /\ (map (Pack.number_or_999 data) (turn_order data)
      = numbers_from 1 (turn_order data) ->
      turn_order data' = turn_order data).
Proof.
  unfold Pack._sort_turn_order_by_player_number.
  destruct (turn_order data) as [|u us] eqn:Eorder;
    [repeat split; intros; now rewrite ?Eorder|].
  destruct (player_numbers data) as [|kv kvs] eqn:Enum;
    [repeat split; intros; now rewrite ?Eorder, ?Enum|].
  repeat split; try (simpl; now rewrite ?Enum).
  intros Hkeys. cbn [turn_order with_turn_order].
  apply (sort_by_key_counting _ _ 1%nat). exact Hkeys.
Qed.

(** What [on_player_added] does to the turn order and the numbers of a
    player who is not in the turn order yet, in a session whose players
    are numbered in order: the newcomer goes last and gets the next
    number. *)
Lemma on_player_added_numbers_newcomer (g : GameState) (p : Z) (cfg : GameConfig) :
  numbered (_pack_data g) ->
  ~ In p (turn_order (_pack_data g)) ->
  let data := _pack_data g in
  let data' := _pack_data (Pack.on_player_added g p cfg) in
  turn_order data' = (turn_order data ++ [p])%list
  /\ player_numbers data'
     = set (player_numbers data) p (Z.of_nat (List.length (turn_order data)) + 1)
  /\ numbered data'.
Proof.
  intros (Hnodup & Hkeys & Hnums) Hnew data data'.
  assert (Hnokey : mem (player_numbers data) p = false).
  { destruct (mem (player_numbers data) p) eqn:E; [|reflexivity].
    apply mem_true_iff in E. apply Hkeys in E. contradiction. }
  assert (Hfresh : in_list p (turn_order data) = false).
  { apply in_list_false_iff. exact Hnew. }
  set (n := List.length (turn_order data)).
  set (numbers' := set (player_numbers data) p (Z.of_nat n + 1)).
  assert (Hget : map (get numbers') (turn_order data ++ [p])
                 = map Some (numbers_from 1 (turn_order data ++ [p]))).
  { unfold numbers_from. rewrite length_app. simpl List.length. fold n.
    rewrite Nat.add_1_r, seq_S. rewrite !map_app. f_equal.
    - unfold numbers_from in Hnums. fold data in Hnums. fold n in Hnums.
      rewrite <- Hnums. apply map_ext_in. intros u Hu. subst numbers'.
      apply get_set_other. intros ->. contradiction.
    - simpl. subst numbers'. rewrite get_set_same. do 2 f_equal. lia. }
  assert (Hdata' : turn_order data' = (turn_order data ++ [p])%list
                   /\ player_numbers data' = numbers').
  { subst data'. unfold Pack.on_player_added. fold data.
    set (gs1 := if negb (mem (tile_numbers data) p) then _ else g).
    assert (Hgs1 : turn_order (_pack_data gs1) = turn_order data
                   /\ player_numbers (_pack_data gs1) = player_numbers data).
    { subst gs1. destruct (negb (mem (tile_numbers data) p)).
      - rewrite set_grid_position_pack_data. split; reflexivity.
      - split; reflexivity. }
    destruct Hgs1 as [Ho Hn]. cbn [_pack_data with_pack_data].
    cbn [turn_order player_numbers with_mind_changed with_real_body_characters
           with_original_characters with_transformation_counts].
    rewrite Ho, Hfresh. cbn [negb].
    cbn [turn_order player_numbers with_turn_order with_mind_changed
           with_real_body_characters with_original_characters
           with_transformation_counts].
    rewrite Hn, Hnokey.
    cbn [turn_order player_numbers with_player_numbers with_turn_order
           with_mind_changed with_real_body_characters with_original_characters
           with_transformation_counts].
    rewrite ?Ho. rewrite ?length_app. simpl List.length. fold n.
    replace (Z.of_nat (n + 1)) with (Z.of_nat n + 1) by lia. fold numbers'.
    match goal with
    | |- context [Pack._sort_turn_order_by_player_number ?d] =>
        destruct (sort_turn_order_fields d) as (Hsn & _ & Hso);
        cbv zeta in Hsn, Hso; rewrite Hsn, Hso
    end.
    - destruct (n + 1 =? 1)%nat; split; reflexivity.
    - assert (Hkey : forall d, player_numbers d = numbers' ->
                turn_order d = (turn_order data ++ [p])%list ->
                map (Pack.number_or_999 d) (turn_order d)
                = numbers_from 1 (turn_order d)).
      { intros d Hd1 Hd2. rewrite Hd2.
        assert (Hsome : map Some (map (Pack.number_or_999 d) (turn_order data ++ [p]))
                        = map Some (numbers_from 1 (turn_order data ++ [p]))).
        { rewrite <- Hget. rewrite map_map. apply map_ext_in. intros u Hu.
          unfold Pack.number_or_999. rewrite Hd1.
          assert (Hin : In (get numbers' u) (map (get numbers') (turn_order data ++ [p])))
            by (apply in_map; exact Hu).
          rewrite Hget in Hin. apply in_map_iff in Hin. destruct Hin as (v & Hv & _).
          now rewrite <- Hv. }
        clear -Hsome.
        revert Hsome. generalize (numbers_from 1 (turn_order data ++ [p])).
        generalize (map (Pack.number_or_999 d) (turn_order data ++ [p])).
        induction l as [|a l IH]; intros [|b l0] H; try discriminate; [reflexivity|].
        simpl in H. injection H as -> H. f_equal. now apply IH. }
      destruct (n + 1 =? 1)%nat; apply Hkey; reflexivity. }
  destruct Hdata' as [Horder Hnumbers].
  split; [exact Horder|]. split; [exact Hnumbers|].
  unfold numbered. rewrite Horder, Hnumbers. split; [|split].
  - apply NoDup_app; [exact Hnodup | repeat constructor; intros [] | ].
    intros u Hu [<-|[]]. contradiction.
  - intros u Hu. subst numbers'. rewrite keys_set in Hu. rewrite Hnokey in Hu.
    apply in_app_iff in Hu. apply in_app_iff. destruct Hu as [Hu|Hu].
    + left. now apply Hkeys.
    + right. exact Hu.
  - exact Hget.
Qed.


Lemma sort_turn_order_only (data : PackData) :
  exists order,
    Pack._sort_turn_order_by_player_number data = with_turn_order data order.
Proof.
  unfold Pack._sort_turn_order_by_player_number.
  destruct (turn_order data) as [|u us] eqn:Eorder.
  - exists []. destruct data. simpl in Eorder. now subst.
  - destruct (player_numbers data) as [|kv kvs] eqn:Enum.
    + exists (u :: us). destruct data. simpl in Eorder. now subst.
    + eexists. reflexivity.
Qed.

(** [on_player_added] leaves the lists of the turn engine and every
    other player's entries alone, puts a player without a tile on the
    starting tile, and resets the transformation count of the player. *)
Lemma on_player_added_frame (g : GameState) (p : Z) (cfg : GameConfig) :
  let data := _pack_data g in
  let data' := _pack_data (Pack.on_player_added g p cfg) in
  tile_numbers data'
  = (if mem (tile_numbers data) p then tile_numbers data
     else set (tile_numbers data) p (starting_tile (rules cfg)))
  /\ transformation_counts data' = set (transformation_counts data) p (Some 0)
  /\ winners data' = winners data
  /\ forfeited_players data' = forfeited_players data
  /\ players_rolled_this_turn data' = players_rolled_this_turn data
  /\ removed_player_positions data' = removed_player_positions data
  /\ (in_list p (turn_order data) = true ->
      turn_order data' = turn_order data
      /\ player_numbers data' = player_numbers data
      /\ current_turn_index data' = current_turn_index data).
Proof.
  intros data data'. subst data'. unfold Pack.on_player_added. fold data.
  set (gs1 := if negb (mem (tile_numbers data) p) then _ else g).
  assert (Hgs1 : _pack_data gs1
                 = if mem (tile_numbers data) p then data
                   else with_tile_numbers data
                          (set (tile_numbers data) p (starting_tile (rules cfg)))).
  { subst gs1. destruct (mem (tile_numbers data) p); [reflexivity|].
    cbn [negb]. rewrite set_grid_position_pack_data. reflexivity. }
  cbn [_pack_data with_pack_data]. rewrite Hgs1. clear Hgs1 gs1.
  destruct (mem (tile_numbers data) p);
    destruct (in_list p (turn_order data)) eqn:Ein;
    cbn [negb turn_order with_tile_numbers with_mind_changed
           with_real_body_characters with_original_characters
           with_transformation_counts];
    rewrite ?Ein; cbn [negb];
    try match goal with
        | |- context [Pack._sort_turn_order_by_player_number ?d] =>
            destruct (sort_turn_order_only d) as [order ->]
        end;
    repeat split; try discriminate;
    repeat match goal with
           | |- context [if ?b then _ else _] => destruct b
           end; reflexivity.
Qed.

(** X4.  In a session whose players carry the numbers 1, 2, 3, ... in
    turn order, a player who joins and is not in the turn order yet goes to
    its end and gets the next number; everybody else keeps their number,
    the session stays numbered in order, and a newcomer who has no tile is
    put on the starting tile with no transformation counted. *)
Theorem newcomer_goes_last_with_next_number (g : GameState) (p : Z) (cfg : GameConfig) :
  numbered (_pack_data g) ->
  ~ In p (turn_order (_pack_data g)) ->
  let g' := Pack.on_player_added g p cfg in
  turn_order (_pack_data g') = (turn_order (_pack_data g) ++ [p])%list
  /\ Pack.get_player_number g' p
     = Some (Z.of_nat (List.length (turn_order (_pack_data g))) + 1)
  /\ (forall q, q <> p -> Pack.get_player_number g' q = Pack.get_player_number g q)
  /\ numbered (_pack_data g')
  /\ (mem (tile_numbers (_pack_data g)) p = false ->
      Pack.get_player_tile_number g' p = starting_tile (rules cfg))
  /\ Pack.get_transformation_count g' p = Some 0.
Proof.
  intros Hnum Hnew g'.
  destruct (on_player_added_numbers_newcomer g p cfg Hnum Hnew)
    as (Horder & Hnumbers & Hnum').
  destruct (on_player_added_frame g p cfg)
    as (Htiles & Hcounts & _).
  cbv zeta in Horder, Hnumbers, Hnum', Htiles, Hcounts. subst g'.
  split; [exact Horder|].
  unfold Pack.get_player_number, Pack.get_player_tile_number,
    Pack.get_transformation_count, Pack.tile_of.
  rewrite Hnumbers, Htiles, Hcounts.
  split; [apply get_set_same|].
  split; [intros q Hq; apply get_set_other; congruence|].
  split; [exact Hnum'|].
  split; [intros ->; now rewrite get_set_same | now rewrite get_set_same].
Qed.

Lemma join_all_numbered (cfg : GameConfig) (ps : list Z) :
  forall g,
    numbered (_pack_data g) ->
    NoDup ps ->
    (forall p, In p ps -> ~ In p (turn_order (_pack_data g))) ->
    turn_order (_pack_data (join_all g ps cfg)) = (turn_order (_pack_data g) ++ ps)%list
    /\ numbered (_pack_data (join_all g ps cfg)).
Proof.
  induction ps as [|p ps IH]; intros g Hnum Hnodup Hnew.
  - simpl. rewrite app_nil_r. split; [reflexivity | exact Hnum].
  - inversion Hnodup as [|? ? Hp Hps]; subst.
    destruct (on_player_added_numbers_newcomer g p cfg Hnum (Hnew p (or_introl eq_refl)))
      as (Horder & _ & Hnum').
    cbv zeta in Horder, Hnum'.
    destruct (IH (Pack.on_player_added g p cfg) Hnum' Hps) as [Horder' Hnum''].
    { intros q Hq. rewrite Horder. intros Hin. apply in_app_iff in Hin.
      destruct Hin as [Hin|[<-|[]]].
      - apply (Hnew q (or_intror Hq)). exact Hin.
      - contradiction. }
    unfold join_all in *. simpl. rewrite Horder', Horder, <- app_assoc.
    split; [reflexivity | exact Hnum''].
Qed.

(** X5.  Players who join one after the other, in a session in which
    nobody had joined, stand in the turn order in the order they joined
    and carry the numbers 1, 2, 3, ... in that order. *)
Theorem players_are_numbered_in_joining_order
  (g : GameState) (ps : list Z) (cfg : GameConfig) :
  turn_order (_pack_data g) = [] ->
  player_numbers (_pack_data g) = [] ->
  NoDup ps ->
  let g' := join_all g ps cfg in
  turn_order (_pack_data g') = ps
  /\ map (Pack.get_player_number g') ps = map Some (numbers_from 1 ps).
Proof.
  intros Horder Hnumbers Hnodup g'.
  assert (Hnum : numbered (_pack_data g)).
  { unfold numbered. rewrite Horder, Hnumbers. split; [constructor|].
    split; [intros u []|reflexivity]. }
  destruct (join_all_numbered cfg ps g Hnum Hnodup) as [Horder' (_ & _ & Hget)].
  { intros p _. rewrite Horder. intros []. }
  subst g'. rewrite Horder in Horder'. simpl in Horder'.
  split; [exact Horder'|].
  rewrite Horder' in Hget. exact Hget.
Qed.

End JoinFacts.

Lemma newcomer_goes_last_with_next_number_witness :
  let g' := Pack.on_player_added midgame_session 4 snake_config in
  turn_order (_pack_data g') = [1; 2; 3; 4]
  /\ Pack.get_player_number g' 4 = Some 4
  /\ Pack.get_player_tile_number g' 4 = 1.
Proof.
  assert (Hnum : numbered (_pack_data midgame_session)).
  { unfold numbered. simpl. split; [|split].
    - repeat constructor; simpl; intuition discriminate.
    - intros u Hu. exact Hu.
    - reflexivity. }
  assert (Hnew : ~ In 4 (turn_order (_pack_data midgame_session))).
  { simpl. intuition discriminate. }
  destruct (newcomer_goes_last_with_next_number midgame_session 4 snake_config
              Hnum Hnew) as (Horder & Hnumber & _ & _ & Htile & _).
  cbv zeta. split; [exact Horder|]. split; [exact Hnumber|].
  apply Htile. reflexivity.
Defined.

Lemma players_are_numbered_in_joining_order_witness :
  let g' := join_all fresh_session [30; 10; 20] snake_config in
  turn_order (_pack_data g') = [30; 10; 20]
  /\ map (Pack.get_player_number g') [30; 10; 20] = [Some 1; Some 2; Some 3].
Proof.
  apply (players_are_numbered_in_joining_order fresh_session [30; 10; 20] snake_config);
    [reflexivity | reflexivity |].
  repeat constructor; simpl; intuition discriminate.
Defined.
(** ** Whose turn it is, and when a turn is over *)

Section RoundFacts.

Import PyStr PyDict PyDictFacts.

Variable get_tile_color_info : Z -> GameConfig -> option string.
Variable render_win_message : GameState -> WinMessage -> string.
Variable display_name : Z -> option string.

Lemma rolled_check (u : Z) (rolled : list Z) :
  match rolled with
  | [] => false
  | a :: rest => in_list u (a :: rest)
  end = in_list u rolled.
Proof. destruct rolled; reflexivity. Qed.

(** [_get_next_player_info] and the turn check of [on_dice_rolled] walk
    the turn order with the same test, once every player listed there has
    a number. *)
Lemma next_player_scan_finds (g : GameState) (win : Z) (order : list Z) :
  (forall u, In u order -> mem (players g) u = true ->
             mem (player_numbers (_pack_data g)) u = true) ->
  option_map (fun info => snd (fst info))
    (Commands.next_player_scan display_name g win order)
  = find (Pack.may_roll_next g win) order.
Proof.
  induction order as [|u rest IH]; intros Hnum; [reflexivity|].
  assert (IH' := IH (fun v Hv => Hnum v (or_intror Hv))). clear IH.
  specialize (Hnum u (or_introl eq_refl)).
  cbn [Commands.next_player_scan find]. unfold Pack.may_roll_next at 1.
  unfold mem in Hnum |- *.
  destruct (in_list u (forfeited_players (_pack_data g))) eqn:Ef.
  { rewrite IH'. now rewrite !andb_false_r. }
  rewrite Z.geb_leb.
  destruct (Z.leb_spec win (Pack.tile_of (_pack_data g) u)) as [Hge|Hlt].
  { rewrite IH'. destruct (Z.ltb_spec (Pack.tile_of (_pack_data g) u) win); [lia|].
    now rewrite !andb_false_r. }
  rewrite rolled_check.
  destruct (in_list u (players_rolled_this_turn (_pack_data g))) eqn:Er.
  { rewrite IH'. now rewrite andb_false_r. }
  destruct (get (players g) u) as [player|] eqn:Ep; [|exact IH'].
  destruct (get (player_numbers (_pack_data g)) u) as [n|] eqn:En.
  - cbn. destruct (Z.ltb_spec (Pack.tile_of (_pack_data g) u) win); [reflexivity | lia].
  - specialize (Hnum eq_refl). discriminate.
Qed.

(** X6.  When every player of the turn order has a player number, the
    player [_get_next_player_info] announces as next is the very player
    the turn check of [on_dice_rolled] waits for; the number announced is
    that player's number; and unless that player is already listed as a
    winner, the guards of [on_dice_rolled] let that player's roll go
    ahead. *)
Theorem announced_player_is_the_one_allowed_to_roll
  (g : GameState) (cfg : GameConfig) :
  (forall u, In u (turn_order (_pack_data g)) -> mem (players g) u = true ->
             mem (player_numbers (_pack_data g)) u = true) ->
  option_map (fun info => snd (fst info))
    (Commands._get_next_player_info display_name g (Some cfg))
  = Pack.next_player_id g (win_tile (rules cfg))
  /\ forall num name uid username,
       Commands._get_next_player_info display_name g (Some cfg)
       = Some (num, name, uid, username) ->
       Pack.get_player_number g uid = Some num
       /\ (in_list uid (winners (_pack_data g)) = false ->
           Pack.roll_rejection g uid cfg = None).
Proof.
  intros Hnum.
  pose proof (next_player_scan_finds g (win_tile (rules cfg))
                (turn_order (_pack_data g)) Hnum) as Hscan.
  split; [exact Hscan|].
  intros num name uid username Hinfo.
  unfold Commands._get_next_player_info in Hinfo.
  fold (Pack.next_player_id g (win_tile (rules cfg))) in Hscan.
  rewrite Hinfo in Hscan. cbn in Hscan. symmetry in Hscan.
  split.
  - clear Hscan Hnum. revert Hinfo.
    induction (turn_order (_pack_data g)) as [|u rest IH]; [discriminate|].
    cbn [Commands.next_player_scan].
    destruct (in_list u (forfeited_players (_pack_data g))); [exact IH|].
    destruct (Pack.tile_of (_pack_data g) u >=? win_tile (rules cfg)); [exact IH|].
    rewrite rolled_check.
    destruct (in_list u (players_rolled_this_turn (_pack_data g))); [exact IH|].
    destruct (get (players g) u); [|exact IH].
    destruct (get (player_numbers (_pack_data g)) u) as [n|] eqn:En; [|exact IH].
    intros [= <- _ <- _]. exact En.
  - intros Hwin. apply may_roll_no_rejection. unfold may_roll.
    unfold Pack.next_player_id in Hscan.
    pose proof (find_some _ _ Hscan) as [Hin Hmay].
    unfold Pack.may_roll_next in Hmay.
    apply andb_true_iff in Hmay as [Hmay Htile].
    apply andb_true_iff in Hmay as [Hmay Hforf].
    apply andb_true_iff in Hmay as [_ Hrolled].
    rewrite Hwin, Hforf, Htile, Hrolled. cbn [negb andb].
    destruct (turn_order (_pack_data g)) as [|u rest] eqn:Eorder; [contradiction|].
    fold (Pack.next_player_id g (win_tile (rules cfg))).
    unfold Pack.next_player_id. rewrite Eorder, Hscan. apply Z.eqb_refl.
Qed.

End RoundFacts.

Section RollFacts.

Import PyStr PyDict PyDictFacts.

Variable get_tile_color_info : Z -> GameConfig -> option string.
Variable render_win_message : GameState -> WinMessage -> string.

Lemma same_seats_refl (g : GameState) : same_seats g g.
Proof. unfold same_seats. repeat split. Qed.

Lemma same_seats_trans (g1 g2 g3 : GameState) :
  same_seats g1 g2 -> same_seats g2 g3 -> same_seats g1 g3.
Proof.
  unfold same_seats.
  intros (A1 & A2 & A3 & A4 & A5 & A6 & A7 & A8 & A9)
         (B1 & B2 & B3 & B4 & B5 & B6 & B7 & B8 & B9).
  repeat split; try congruence. all: intros u; now rewrite B6, A6.
Qed.

Lemma mem_set_present {V : Type} (d : dict V) (k u : Z) (v v' : V) :
  get d k = Some v -> mem (set d k v') u = mem d u.
Proof.
  intros Hk. unfold mem. destruct (Z.eq_dec k u) as [->|Hne].
  - now rewrite get_set_same, Hk.
  - now rewrite get_set_other.
Qed.

Lemma set_grid_position_seats (g : GameState) (u : Z) (pos : string) :
  same_seats g (Pack.set_grid_position g u pos).
Proof.
  unfold Pack.set_grid_position.
  destruct (get (players g) u) as [player|] eqn:Ep; [|apply same_seats_refl].
  unfold same_seats. cbn. repeat split.
  intros v. eapply mem_set_present. exact Ep.
Qed.

(** Putting a token on a tile changes the tile and the coordinate of
    that token only. *)
Lemma place_token_seats (g : GameState) (u t : Z) (cfg : GameConfig) :
  let g' := fst (Pack.place_token g u t cfg) in
  same_seats g g'
  /\ players_rolled_this_turn (_pack_data g') = players_rolled_this_turn (_pack_data g)
  /\ tile_numbers (_pack_data g') = set (tile_numbers (_pack_data g)) u t.
Proof.
  unfold Pack.place_token.
  set (g1 := with_pack_data g _).
  assert (H1 : same_seats g g1) by (unfold same_seats; repeat split).
  destruct (tile_number_to_alphanumeric t cfg) as [[pos|]|e]; cbn [fst].
  - destruct (str_truthy pos); cbn [fst].
    + rewrite set_grid_position_pack_data. split; [|split; reflexivity].
      eapply same_seats_trans; [exact H1 | apply set_grid_position_seats].
    + repeat split; exact H1 || reflexivity.
  - split; [exact H1 | split; reflexivity].
  - split; [exact H1 | split; reflexivity].
Qed.

(** [check_win_condition] writes to the winners, the goal turns and the
    end of the game only. *)
Lemma check_win_condition_seats (g : GameState) (cfg : GameConfig) :
  let g' := fst (Pack.check_win_condition render_win_message g cfg) in
  same_seats g g'
  /\ players g' = players g
  /\ players_rolled_this_turn (_pack_data g') = players_rolled_this_turn (_pack_data g)
  /\ tile_numbers (_pack_data g') = tile_numbers (_pack_data g).
Proof.
  unfold Pack.check_win_condition.
  set (data := _pack_data g).
  set (win := win_tile (rules cfg)).
  destruct (fold_left (Pack.stamp_goal_reacher win (turn_count g))
              (items (tile_numbers data)) (data, []))
    as [data1 reachers] eqn:Efold.
  pose proof (stamp_fold_frame win (turn_count g)
                (items (tile_numbers data)) (data, [])) as Hframe.
  cbv zeta in Hframe. rewrite Efold in Hframe. cbn [fst] in Hframe.
  destruct Hframe as (Htiles & _ & Horder & Hnumbers & Hforf & Hrolled).
  assert (Hgen : forall data', 
             turn_order data' = turn_order data1 ->
             player_numbers data' = player_numbers data1 ->
             forfeited_players data' = forfeited_players data1 ->
             players_rolled_this_turn data' = players_rolled_this_turn data1 ->
             tile_numbers data' = tile_numbers data1 ->
             same_seats g (with_pack_data g data')
             /\ players (with_pack_data g data') = players g
             /\ players_rolled_this_turn (_pack_data (with_pack_data g data'))
                = players_rolled_this_turn (_pack_data g)
             /\ tile_numbers (_pack_data (with_pack_data g data'))
                = tile_numbers (_pack_data g)).
  { intros data' E1 E2 E3 E4 E5. unfold same_seats. cbn. fold data.
    repeat split; congruence. }
  destruct (forallb (fun tile_num => tile_num >=? win) (values (tile_numbers data1))).
  - destruct (negb (game_ended data1)).
    + destruct (Pack.min_value (goal_reached_turn (with_game_ended data1 true)))
        as [earliest|].
      * destruct (map fst _) as [|w [|w' rest]]; cbn [fst]; apply Hgen; reflexivity.
      * destruct (keys _) as [|w [|w' rest]]; cbn [fst]; apply Hgen; reflexivity.
    + cbn [fst]. apply Hgen; reflexivity.
  - destruct reachers as [|u [|u' rest]]; cbn [fst]; apply Hgen; reflexivity.
Qed.

Lemma turn_complete_ext (g g' : GameState) (win : Z) :
  same_seats g g' ->
  players_rolled_this_turn (_pack_data g') = players_rolled_this_turn (_pack_data g) ->
  tile_numbers (_pack_data g') = tile_numbers (_pack_data g) ->
  Pack.turn_complete g' win = Pack.turn_complete g win.
Proof.
  intros (_ & _ & _ & _ & _ & Hmem & Horder & _ & Hforf) Hrolled Htiles.
  unfold Pack.turn_complete, Pack.tile_of. rewrite Horder, Hforf, Hrolled, Htiles.
  destruct (turn_order (_pack_data g)) as [|u us]; [reflexivity|].
  assert (Hfilter : forall l,
             filter (fun uid => mem (players g') uid
                                && negb (in_list uid (forfeited_players (_pack_data g)))
                                && (match get (tile_numbers (_pack_data g)) uid with
                                    | Some t => t | None => 1 end <? win)) l
             = filter (fun uid => mem (players g) uid
                                && negb (in_list uid (forfeited_players (_pack_data g)))
                                && (match get (tile_numbers (_pack_data g)) uid with
                                    | Some t => t | None => 1 end <? win)) l).
  { intros l. apply filter_ext. intros v. now rewrite Hmem. }
  rewrite Hfilter. reflexivity.
Qed.

(** The end of a roll, whatever it returns: who is seated stays, the
    tiles stay, the player is recorded as having rolled, the flag is the
    one [turn_complete] gives on the session left behind, and the message
    begins with the parts handed in. *)
Lemma finish_roll_seats (g : GameState) (uid : Z) (cfg : GameConfig)
  (parts : list string) (final_tile : Z) :
  let result := Pack.finish_roll get_tile_color_info render_win_message
                  g uid cfg parts final_tile in
  let g' := fst result in
  same_seats g g'
  /\ tile_numbers (_pack_data g') = tile_numbers (_pack_data g)
  /\ players_rolled_this_turn (_pack_data g')
     = (if in_list uid (players_rolled_this_turn (_pack_data g))
        then players_rolled_this_turn (_pack_data g)
        else players_rolled_this_turn (_pack_data g) ++ [uid])%list
  /\ forall msg moved transformation complete,
       snd result = Ok (msg, moved, transformation, complete) ->
       complete = Pack.turn_complete g' (win_tile (rules cfg))
       /\ moved = true /\ transformation = None
       /\ exists extra, msg = join newline (parts ++ extra).
Proof.
  unfold Pack.finish_roll.
  set (parts1 := if (2 <=? final_tile) && (final_tile <=? 99) then _ else parts).
  assert (Hp1 : exists e1, parts1 = (parts ++ e1)%list).
  { subst parts1. destruct ((2 <=? final_tile) && (final_tile <=? 99)).
    - destruct (get_tile_color_info final_tile cfg) as [m|].
      + destruct (str_truthy m); [now exists [m] | exists []; now rewrite app_nil_r].
      + exists []. now rewrite app_nil_r.
    - exists []. now rewrite app_nil_r. }
  destruct Hp1 as [e1 He1]. clearbody parts1.
  set (gs1 := if in_list uid (players_rolled_this_turn (_pack_data g)) then g else _).
  assert (Hgs1 : same_seats g gs1
                 /\ tile_numbers (_pack_data gs1) = tile_numbers (_pack_data g)
                 /\ players_rolled_this_turn (_pack_data gs1)
                    = (if in_list uid (players_rolled_this_turn (_pack_data g))
                       then players_rolled_this_turn (_pack_data g)
                       else players_rolled_this_turn (_pack_data g) ++ [uid])%list).
  { subst gs1. destruct (in_list uid (players_rolled_this_turn (_pack_data g))).
    - split; [apply same_seats_refl | split; reflexivity].
    - split; [unfold same_seats; repeat split | split; reflexivity]. }
  destruct Hgs1 as (Hs1 & Ht1 & Hr1). clearbody gs1.
  destruct (check_win_condition_seats gs1 cfg) as (Hs2 & _ & Hr2 & Ht2).
  cbv zeta in Hs2, Hr2, Ht2.
  destruct (Pack.check_win_condition render_win_message gs1 cfg) as [gs2 [[win_msg ended]|e]];
    cbn [fst snd] in *.
  - assert (Hs3 : same_seats gs2 (with_pack_data gs2 (with_game_ended (_pack_data gs2) ended)))
      by (unfold same_seats; repeat split).
    split; [eapply same_seats_trans; [exact Hs1|]; eapply same_seats_trans; eassumption|].
    cbn [_pack_data with_pack_data tile_numbers players_rolled_this_turn with_game_ended].
    split; [congruence|]. split; [congruence|].
    intros msg moved transformation complete [= <- <- <- <-].
    split.
    { symmetry. rewrite (turn_complete_ext gs2 _ _ Hs3 eq_refl eq_refl).
      apply turn_complete_ext; assumption. }
    split; [reflexivity|]. split; [reflexivity|].
    rewrite He1. destruct win_msg as [m|].
    + destruct (str_truthy m).
      * exists (e1 ++ [m])%list. now rewrite app_assoc.
      * now exists e1.
    + now exists e1.
  - split; [eapply same_seats_trans; eassumption|].
    split; [congruence|]. split; [congruence|]. discriminate.
Qed.

(** A message that begins with "Moved to tile" is not one of the three
    notices of [command_dice]. *)
Lemma moved_message_is_no_notice (tile_text : string) (rest : list string) :
  Commands.is_special_notice
    (join newline ((("Moved to tile " ++ tile_text)%string :: rest)))
  = false
  /\ str_truthy (join newline ((("Moved to tile " ++ tile_text)%string :: rest))) = true.
Proof.
  destruct rest as [|r rest]; split; reflexivity.
Qed.

(** The movement of a roll, whatever it returns. *)
Lemma resolve_move_seats (g : GameState) (p d : Z) (cfg : GameConfig) :
  let result := Pack.resolve_move get_tile_color_info render_win_message g p d cfg in
  let g' := fst result in
  same_seats g g'
  /\ forall msg moved transformation complete,
       snd result = Ok (msg, moved, transformation, complete) ->
       complete = Pack.turn_complete g' (win_tile (rules cfg))
       /\ moved = true /\ transformation = None
       /\ Commands.is_special_notice msg = false
       /\ str_truthy msg = true
       /\ players_rolled_this_turn (_pack_data g')
          = (if in_list p (players_rolled_this_turn (_pack_data g))
             then players_rolled_this_turn (_pack_data g)
             else players_rolled_this_turn (_pack_data g) ++ [p])%list.
Proof.
  unfold Pack.resolve_move.
  set (new_tile := if _ >=? _ then _ else _).
  assert (Hfinish : forall g1 parts final_tile,
             same_seats g g1 ->
             players_rolled_this_turn (_pack_data g1)
             = players_rolled_this_turn (_pack_data g) ->
             let result := Pack.finish_roll get_tile_color_info render_win_message g1 p cfg
                             (("Moved to tile " ++ str_of_int new_tile)%string :: parts)
                             final_tile in
             same_seats g (fst result)
             /\ forall msg moved transformation complete,
                  snd result = Ok (msg, moved, transformation, complete) ->
                  complete = Pack.turn_complete (fst result) (win_tile (rules cfg))
                  /\ moved = true /\ transformation = None
                  /\ Commands.is_special_notice msg = false
                  /\ str_truthy msg = true
                  /\ players_rolled_this_turn (_pack_data (fst result))
                     = (if in_list p (players_rolled_this_turn (_pack_data g))
                        then players_rolled_this_turn (_pack_data g)
                        else players_rolled_this_turn (_pack_data g) ++ [p])%list).
  { intros g1 parts final_tile Hs Hr result.
    destruct (finish_roll_seats g1 p cfg
                (("Moved to tile " ++ str_of_int new_tile)%string :: parts) final_tile)
      as (Hs' & _ & Hr' & Hok).
    cbv zeta in Hs', Hr', Hok. fold result in Hs', Hr', Hok.
    split; [eapply same_seats_trans; eassumption|].
    intros msg moved transformation complete Hres.
    destruct (Hok _ _ _ _ Hres) as (Hc & Hm & Ht & extra & Hmsg).
    repeat (split; [assumption|]).
    rewrite Hmsg. cbn [app].
    split; [apply moved_message_is_no_notice|].
    split; [apply moved_message_is_no_notice|].
    rewrite Hr', Hr. reflexivity. }
  destruct (place_token_seats g p new_tile cfg) as (Hs1 & Hr1 & _).
  cbv zeta in Hs1, Hr1.
  destruct (Pack.place_token g p new_tile cfg) as [gs1 [[]|e]]; cbn [fst snd] in *.
  2: { split; [exact Hs1 | discriminate]. }
  destruct (get (snakes (rules cfg)) new_tile) as [tail_tile|].
  - destruct (place_token_seats gs1 p tail_tile cfg) as (Hs2 & Hr2 & _).
    cbv zeta in Hs2, Hr2.
    destruct (Pack.place_token gs1 p tail_tile cfg) as [gs2 [[]|e]]; cbn [fst snd] in *.
    + apply (Hfinish gs2 [Pack.snake_text tail_tile] tail_tile).
      * eapply same_seats_trans; eassumption.
      * congruence.
    + split; [eapply same_seats_trans; eassumption | discriminate].
  - destruct (get (ladders (rules cfg)) new_tile) as [top_tile|].
    + destruct (place_token_seats gs1 p top_tile cfg) as (Hs2 & Hr2 & _).
      cbv zeta in Hs2, Hr2.
      destruct (Pack.place_token gs1 p top_tile cfg) as [gs2 [[]|e]]; cbn [fst snd] in *.
      * apply (Hfinish gs2 [Pack.ladder_text top_tile] top_tile).
        -- eapply same_seats_trans; eassumption.
        -- congruence.
      * split; [eapply same_seats_trans; eassumption | discriminate].
    + apply (Hfinish gs1 [] new_tile); assumption.
Qed.

(** On a grid whose column letters [chr] accepts, the movement of a roll
    returns. *)
Lemma resolve_move_returns (g : GameState) (p d : Z) (cfg : GameConfig) :
  -64 <= cols (grid cfg) <= 1114047 ->
  exists g' msg moved transformation complete,
    Pack.resolve_move get_tile_color_info render_win_message g p d cfg
    = (g', Ok (msg, moved, transformation, complete)).
Proof.
  intros Hgrid. unfold Pack.resolve_move.
  set (new_tile := if _ >=? _ then _ else _).
  destruct (place_token_ok g p new_tile cfg Hgrid) as (gs1 & Hp1 & Hd1).
  rewrite Hp1.
  assert (Hfinish : forall g1 parts final_tile,
             tile_numbers (_pack_data g1) <> [] ->
             exists g' msg moved transformation complete,
               Pack.finish_roll get_tile_color_info render_win_message
                 g1 p cfg parts final_tile
               = (g', Ok (msg, moved, transformation, complete))).
  { intros g1 parts final_tile Hne.
    destruct (finish_roll_ok get_tile_color_info render_win_message
                g1 p cfg parts final_tile Hne) as (g' & extra & complete & Hfin & _).
    rewrite Hfin. eauto 6. }
  destruct (get (snakes (rules cfg)) new_tile) as [tail_tile|].
  - destruct (place_token_ok gs1 p tail_tile cfg Hgrid) as (gs2 & Hp2 & Hd2).
    rewrite Hp2. apply Hfinish. rewrite Hd2. cbn. apply set_nonempty.
  - destruct (get (ladders (rules cfg)) new_tile) as [top_tile|].
    + destruct (place_token_ok gs1 p top_tile cfg Hgrid) as (gs2 & Hp2 & Hd2).
      rewrite Hp2. apply Hfinish. rewrite Hd2. cbn. apply set_nonempty.
    + apply Hfinish. rewrite Hd1. cbn. apply set_nonempty.
Qed.

End RollFacts.

(** ** Who may roll *)

Section EligibilityFacts.

Import PyStr PyDict PyDictFacts.

Variable get_tile_color_info : Z -> GameConfig -> option string.
Variable render_win_message : GameState -> WinMessage -> string.

Lemma next_player_is_first_eligible (game_state : GameState) (win : Z) :
  (forall u, In u (turn_order (_pack_data game_state)) ->
             mem (players game_state) u = true) ->
  Pack.next_player_id game_state win = first_eligible game_state win.
Proof.
  intros Hplayers. unfold Pack.next_player_id, first_eligible. apply find_ext_in.
  intros u Hu. unfold Pack.may_roll_next. rewrite (Hplayers u Hu). simpl.
  destruct (in_list u (players_rolled_this_turn (_pack_data game_state))),
           (in_list u (forfeited_players (_pack_data game_state))); reflexivity.
Qed.

(** The first eligible entry of the turn list gets past every guard but
    the one for winners. *)
Lemma first_eligible_passes_the_guards (game_state : GameState)
  (game_config : GameConfig) (p : Z) :
  (forall u, In u (turn_order (_pack_data game_state)) ->
             mem (players game_state) u = true) ->
  first_eligible game_state (win_tile (rules game_config)) = Some p ->
  in_list p (winners (_pack_data game_state)) = false ->
  may_roll game_state game_config p = true.
Proof.
  intros Hplayers Hfirst Hwinner.
  pose proof (next_player_is_first_eligible game_state
                (win_tile (rules game_config)) Hplayers) as Hnext.
  unfold first_eligible in Hfirst.
  destruct (find_some _ _ Hfirst) as [Hin Hcheck].
  apply andb_true_iff in Hcheck as [Hcheck Htile].
  apply andb_true_iff in Hcheck as [Hforfeited Hrolled].
  unfold may_roll. rewrite Hwinner, Hforfeited, Hrolled, Htile. cbn [negb andb].
  destruct (turn_order (_pack_data game_state)) as [|u rest] eqn:Eorder;
    [contradiction|].
  rewrite Hnext. unfold first_eligible. rewrite Eorder, Hfirst. apply Z.eqb_refl.
Qed.

(** C8 (as amended).  With a turn list that is not empty and whose
    entries are all players of the game, the player the turn check of
    [on_dice_rolled] waits for is the first entry of the turn list that is
    not forfeited, has not rolled this turn and stands below the goal
    tile.  The roll of that player is carried out (on a grid whose column
    letters [chr] accepts: the roll returns with a move, and the player is
    recorded as having rolled), unless that player is on the winners
    list; a roll by a player on the winners list, and a roll by anybody
    who is not that first entry, gets a message back, does not move any
    token, and leaves the whole session as it was. *)
Theorem first_eligible_rolls_and_the_others_are_turned_down
  (game_state : GameState) (game_config : GameConfig) (p dice_result : Z) :
  let data := _pack_data game_state in
  let win := win_tile (rules game_config) in
  turn_order data <> [] ->
  (forall u, In u (turn_order data) -> mem (players game_state) u = true) ->
  Pack.next_player_id game_state win = first_eligible game_state win
  /\ (first_eligible game_state win = Some p ->
      in_list p (winners data) = false ->
      Pack.roll_rejection game_state p game_config = None
      /\ (-64 <= cols (grid game_config) <= 1114047 ->
          exists game_state' msg complete,
            Pack.on_dice_rolled get_tile_color_info render_win_message
              game_state p dice_result game_config
            = (game_state', Ok (msg, true, None, complete))
            /\ in_list p (players_rolled_this_turn (_pack_data game_state')) = true))
  /\ (first_eligible game_state win <> Some p
      \/ in_list p (winners data) = true ->
      exists msg complete,
        Pack.on_dice_rolled get_tile_color_info render_win_message
          game_state p dice_result game_config
        = (game_state, Ok (msg, false, None, complete))
        /\ msg <> ""%string).
Proof.
  intros data win Horder Hplayers.
  pose proof (next_player_is_first_eligible game_state win Hplayers) as Hnext.
  split; [exact Hnext|]. split.
  - intros Hfirst Hwinner.
    pose proof (first_eligible_passes_the_guards game_state game_config p
                  Hplayers Hfirst Hwinner) as Hmay.
    pose proof (may_roll_no_rejection _ _ _ Hmay) as Hnone.
    split; [exact Hnone|]. intros Hgrid.
    unfold Pack.on_dice_rolled. rewrite Hnone.
    destruct (resolve_move_returns get_tile_color_info render_win_message
                game_state p dice_result game_config Hgrid)
      as (g' & msg & moved & transformation & complete & Hres).
    destruct (resolve_move_seats get_tile_color_info render_win_message
                game_state p dice_result game_config) as (_ & Hok).
    cbv zeta in Hok. rewrite Hres in Hok. cbn [fst snd] in Hok.
    destruct (Hok _ _ _ _ eq_refl) as (_ & -> & -> & _ & _ & Hr).
    exists g', msg, complete. rewrite Hres. split; [reflexivity|].
    rewrite Hr.
    destruct (in_list p (players_rolled_this_turn (_pack_data game_state))) eqn:E;
      [exact E|].
    rewrite in_list_app. cbn. rewrite Z.eqb_refl. now rewrite orb_true_r.
  - intros Hother.
    assert (Hrej : exists msg complete,
               Pack.roll_rejection game_state p game_config = Some (msg, complete)).
    { destruct Hother as [Hother|Hwinner].
      - rewrite <- Hnext in Hother.
        exact (roll_rejection_out_of_turn game_state p game_config Horder Hother).
      - unfold Pack.roll_rejection. fold data. rewrite Hwinner. eauto. }
    destruct Hrej as (msg & complete & Hrej).
    exists msg, complete. split.
    + unfold Pack.on_dice_rolled. rewrite Hrej. reflexivity.
    + eapply roll_rejection_nonempty. exact Hrej.
Qed.

End EligibilityFacts.

Lemma first_eligible_rolls_and_the_others_are_turned_down_witness :
  turn_order (_pack_data midgame_session) <> []
  /\ (forall u, In u (turn_order (_pack_data midgame_session)) ->
        PyDict.mem (players midgame_session) u = true)
  /\ first_eligible midgame_session 100 = Some 1
  /\ in_list 1 (winners (_pack_data midgame_session)) = false
  /\ first_eligible midgame_session 100 <> Some 2
  /\ (exists game_state' msg complete,
        Pack.on_dice_rolled no_tile_info plain_win_text midgame_session 1 6 snake_config
        = (game_state', Ok (msg, true, None, complete))
        /\ in_list 1 (players_rolled_this_turn (_pack_data game_state')) = true)
  /\ exists msg complete,
       Pack.on_dice_rolled no_tile_info plain_win_text midgame_session 2 6 snake_config
       = (midgame_session, Ok (msg, false, None, complete))
       /\ msg <> ""%string.
Proof.
  assert (H1 : turn_order (_pack_data midgame_session) <> []) by discriminate.
  assert (H2 : forall u, In u (turn_order (_pack_data midgame_session)) ->
                 PyDict.mem (players midgame_session) u = true).
  { simpl. intros u [<-|[<-|[<-|[]]]]; reflexivity. }
  destruct (first_eligible_rolls_and_the_others_are_turned_down
              no_tile_info plain_win_text midgame_session snake_config 1 6 H1 H2)
    as (_ & Hfirst & _).
  destruct (first_eligible_rolls_and_the_others_are_turned_down
              no_tile_info plain_win_text midgame_session snake_config 2 6 H1 H2)
    as (_ & _ & Hother).
  assert (H3 : first_eligible midgame_session 100 <> Some 2)
    by (vm_compute; discriminate).
  split; [exact H1|]. split; [exact H2|]. split; [reflexivity|].
  split; [reflexivity|]. split; [exact H3|]. split.
  - destruct (Hfirst eq_refl eq_refl) as [_ Hroll]. apply Hroll. simpl. lia.
  - apply Hother. left. exact H3.
Defined.

(** C8 (as stated) fails: after the swap player 1, a winner, stands on
    tile 4, is the first entry of the turn list that is not forfeited, has
    not rolled and is below the goal tile, and is turned down all the same
    by the guard for winners, which comes before the turn check. *)
Lemma first_eligible_winner_is_turned_down :
  ~ first_eligible_is_let_through swapped_winner_session (classic_config [] []).
Proof.
  intros H. specialize (H 1 eq_refl). vm_compute in H. discriminate.
Qed.

(** The same session in full: the turn list and its players, the winner
    on tile 4, and the answers to player 1 and to player 3, who is told
    to wait for player 1. *)
Example nobody_can_roll_after_the_swap :
  turn_order (_pack_data swapped_winner_session) = [1; 2; 3]
  /\ winners (_pack_data swapped_winner_session) = [1]
  /\ tile_numbers (_pack_data swapped_winner_session) = [(1, 4); (2, 100); (3, 8)]
  /\ first_eligible swapped_winner_session 100 = Some 1
  /\ fst (Pack.on_dice_rolled no_tile_info plain_win_text swapped_winner_session 1 3
            (classic_config [] [])) = swapped_winner_session
  /\ option_map (fun r => snd (fst (fst r)))
       (match snd (Pack.on_dice_rolled no_tile_info plain_win_text
                     swapped_winner_session 1 3 (classic_config [] [])) with
        | Ok r => Some r
        | Raise _ => None
        end) = Some false
  /\ Pack.roll_rejection swapped_winner_session 3 (classic_config [] [])
     = Some ("It's not your turn yet! Waiting for Player 1 (Bob) to roll."%string,
             false).
Proof. vm_compute. repeat split. Qed.

Section TurnEndFacts.

Import PyStr PyDict PyDictFacts.

Lemma filter_nil_none {A : Type} (f : A -> bool) (l : list A) :
  filter f l = [] -> forall x, In x l -> f x = false.
Proof.
  intros Hnil x Hx. destruct (f x) eqn:E; [|reflexivity].
  assert (Hin : In x (filter f l)) by (apply filter_In; now split).
  rewrite Hnil in Hin. contradiction.
Qed.

(** With a turn order in which nobody is listed twice, and nobody
    recorded twice as having rolled, [turn_complete] holds exactly when
    every active player of the turn order has rolled. *)
Lemma turn_complete_iff (g : GameState) (win : Z) :
  turn_order (_pack_data g) <> [] ->
  NoDup (turn_order (_pack_data g)) ->
  NoDup (players_rolled_this_turn (_pack_data g)) ->
  Pack.turn_complete g win = true
  <-> (forall u, In u (turn_order (_pack_data g)) -> active g win u = true ->
                 In u (players_rolled_this_turn (_pack_data g))).
Proof.
  intros Hne Horder Hrolled. unfold Pack.turn_complete.
  destruct (turn_order (_pack_data g)) as [|u0 us] eqn:Eorder; [congruence|].
  rewrite <- Eorder in *. clear Hne.
  change (fun uid => mem (players g) uid
                     && negb (in_list uid (forfeited_players (_pack_data g)))
                     && (Pack.tile_of (_pack_data g) uid <? win))
    with (active g win).
  set (actives := filter (active g win) (turn_order (_pack_data g))).
  set (rolled := filter (fun uid => in_list uid actives)
                   (players_rolled_this_turn (_pack_data g))).
  assert (Hact : forall u, In u actives
                           <-> In u (turn_order (_pack_data g)) /\ active g win u = true).
  { intros u. subst actives. apply filter_In. }
  assert (Hrol : forall u, In u rolled
                           <-> In u (players_rolled_this_turn (_pack_data g))
                               /\ In u actives).
  { intros u. subst rolled. rewrite filter_In, in_list_true_iff. reflexivity. }
  assert (Hnd_act : NoDup actives) by (apply NoDup_filter; exact Horder).
  assert (Hnd_rol : NoDup rolled) by (apply NoDup_filter; exact Hrolled).
  destruct actives as [|a rest] eqn:Eact.
  - split; [|reflexivity]. intros _ u Hu Ha.
    destruct (proj2 (Hact u) (conj Hu Ha)).
  - rewrite <- Eact in *. rewrite Nat.leb_le. split.
    + intros Hlen u Hu Ha.
      assert (Hincl : incl actives rolled).
      { apply NoDup_length_incl; [exact Hnd_rol | exact Hlen |].
        intros v Hv. apply Hrol in Hv. tauto. }
      assert (Hin : In u rolled) by (apply Hincl, Hact; tauto).
      apply Hrol in Hin. tauto.
    + intros Hall. apply NoDup_incl_length; [exact Hnd_act|].
      intros v Hv. apply Hrol. split; [|exact Hv].
      apply Hact in Hv. destruct Hv as [Hv Ha]. now apply Hall.
Qed.

Variable get_tile_color_info : Z -> GameConfig -> option string.
Variable render_win_message : GameState -> WinMessage -> string.

(** X7.  A roll that the guards let through, on a grid whose column
    letters [chr] accepts, returns, and its turn-complete flag is true
    exactly when, in the session it leaves, every player of the turn order
    who still plays (in the game, not forfeited, below the goal tile) has
    rolled this turn. *)
Theorem turn_is_over_when_every_active_player_has_rolled
  (g : GameState) (cfg : GameConfig) (p dice_result : Z) :
  may_roll g cfg p = true ->
  -64 <= cols (grid cfg) <= 1114047 ->
  In p (turn_order (_pack_data g)) ->
  NoDup (turn_order (_pack_data g)) ->
  NoDup (players_rolled_this_turn (_pack_data g)) ->
  exists g' msg complete,
    Pack.on_dice_rolled get_tile_color_info render_win_message g p dice_result cfg
    = (g', Ok (msg, true, None, complete))
    /\ (complete = true
        <-> forall u, In u (turn_order (_pack_data g')) ->
                      active g' (win_tile (rules cfg)) u = true ->
                      In u (players_rolled_this_turn (_pack_data g'))).
Proof.
  intros Hmay Hgrid Hin Horder Hrolled.
  unfold Pack.on_dice_rolled. rewrite (may_roll_no_rejection _ _ _ Hmay).
  destruct (resolve_move_returns get_tile_color_info render_win_message
              g p dice_result cfg Hgrid)
    as (g' & msg & moved & transformation & complete & Hres).
  destruct (resolve_move_seats get_tile_color_info render_win_message g p dice_result cfg)
    as (Hseats & Hok).
  cbv zeta in Hseats, Hok. rewrite Hres in Hseats, Hok. cbn [fst snd] in Hseats, Hok.
  destruct (Hok _ _ _ _ eq_refl) as (Hc & -> & -> & _ & _ & Hr).
  exists g', msg, complete. rewrite Hres. split; [reflexivity|].
  destruct Hseats as (_ & _ & _ & _ & _ & _ & Ho & _ & _).
  rewrite Hc. apply turn_complete_iff.
  - rewrite Ho. intros E. rewrite E in Hin. contradiction.
  - rewrite Ho. exact Horder.
  - rewrite Hr.
    destruct (in_list p (players_rolled_this_turn (_pack_data g))) eqn:E; [exact Hrolled|].
    apply NoDup_app; [exact Hrolled | repeat constructor; intros [] |].
    intros u Hu [<-|[]]. apply in_list_false_iff in E. contradiction.
Qed.

(** Whoever has rolled this turn is turned down by the guards. *)
Lemma rolled_player_is_turned_down (g : GameState) (p : Z) (cfg : GameConfig) :
  in_list p (players_rolled_this_turn (_pack_data g)) = true ->
  exists msg complete, Pack.roll_rejection g p cfg = Some (msg, complete)
                       /\ complete = false.
Proof.
  intros Hrolled. unfold Pack.roll_rejection.
  destruct (in_list p (winners (_pack_data g))); [eauto|].
  destruct (in_list p (forfeited_players (_pack_data g))); [eauto|].
  destruct (Pack.tile_of (_pack_data g) p >=? win_tile (rules cfg)); [eauto|].
  rewrite Hrolled. eauto.
Qed.

(** X8.  Nobody rolls twice in a turn: after a roll that the guards let
    through, a second roll of the same player is turned down, with a
    message and without the turn-complete flag, and the session stays as
    the first roll left it. *)
Theorem second_roll_in_a_turn_is_turned_down
  (g : GameState) (cfg : GameConfig) (p first second : Z) :
  may_roll g cfg p = true ->
  -64 <= cols (grid cfg) <= 1114047 ->
  exists g' msg complete,
    Pack.on_dice_rolled get_tile_color_info render_win_message g p first cfg
    = (g', Ok (msg, true, None, complete))
    /\ exists msg',
         Pack.on_dice_rolled get_tile_color_info render_win_message g' p second cfg
         = (g', Ok (msg', false, None, false))
         /\ msg' <> ""%string.
Proof.
  intros Hmay Hgrid.
  unfold Pack.on_dice_rolled at 1. rewrite (may_roll_no_rejection _ _ _ Hmay).
  destruct (resolve_move_returns get_tile_color_info render_win_message
              g p first cfg Hgrid)
    as (g' & msg & moved & transformation & complete & Hres).
  destruct (resolve_move_seats get_tile_color_info render_win_message g p first cfg)
    as (_ & Hok).
  cbv zeta in Hok. rewrite Hres in Hok. cbn [fst snd] in Hok.
  destruct (Hok _ _ _ _ eq_refl) as (_ & -> & -> & _ & _ & Hr).
  exists g', msg, complete. rewrite Hres. split; [reflexivity|].
  assert (Hin : in_list p (players_rolled_this_turn (_pack_data g')) = true).
  { rewrite Hr.
    destruct (in_list p (players_rolled_this_turn (_pack_data g))) eqn:E; [exact E|].
    rewrite in_list_app. cbn. rewrite Z.eqb_refl. now rewrite orb_true_r. }
  destruct (rolled_player_is_turned_down g' p cfg Hin) as (msg' & c & Hrej & ->).
  exists msg'. unfold Pack.on_dice_rolled. rewrite Hrej. split; [reflexivity|].
  eapply roll_rejection_nonempty. exact Hrej.
Qed.

(** A rejection that carries the turn-complete flag is one of the
    notices [command_dice] passes on and stops at. *)
Lemma flagged_rejection_is_a_notice (g : GameState) (p : Z) (cfg : GameConfig)
  (msg : string) :
  Pack.roll_rejection g p cfg = Some (msg, true) ->
  str_truthy msg = true /\ Commands.is_special_notice msg = true.
Proof.
  unfold Pack.roll_rejection.
  destruct (in_list p (winners (_pack_data g))); [discriminate|].
  destruct (in_list p (forfeited_players (_pack_data g))); [discriminate|].
  destruct (Pack.tile_of (_pack_data g) p >=? win_tile (rules cfg)); [discriminate|].
  destruct (in_list p (players_rolled_this_turn (_pack_data g))); [discriminate|].
  destruct (turn_order (_pack_data g)); [discriminate|].
  destruct (Pack.next_player_id g (win_tile (rules cfg))) as [next|].
  - destruct (negb (p =? next)); discriminate.
  - intros [= <-]. split; reflexivity.
Qed.

(** X9.  A roll that the pack turns down changes nothing, whoever asked
    for it: when [command_dice] gets as far as the pack (game not locked,
    not paused, the roller settled, a configuration at hand) and the
    guards of [on_dice_rolled] answer with a message, the session stays
    as it was and the turn counter with it, also for a roll the game
    master forces for another player, and also for the answer "All players
    have rolled!", which carries the turn-complete flag. *)
Theorem roll_turned_down_by_the_pack_changes_nothing
  (g : GameState) (author : Serializer.Author.t) (target : option Z)
  (cfg : GameConfig) (total p : Z) (msg : string) (complete : bool) :
  is_locked g = false ->
  is_paused g = false ->
  Commands.dice_player g author target = inr p ->
  Pack.roll_rejection g p cfg = Some (msg, complete) ->
  fst (Commands.command_dice get_tile_color_info render_win_message
         g author target (Some cfg) total) = g
  /\ (snd (Commands.command_dice get_tile_color_info render_win_message
             g author target (Some cfg) total) = Commands.DiceNotice msg
      \/ snd (Commands.command_dice get_tile_color_info render_win_message
                g author target (Some cfg) total) = Commands.DiceRolled msg false).
Proof.
  intros Hlocked Hpaused Hplayer Hrej.
  unfold Commands.command_dice. rewrite Hlocked, Hpaused, Hplayer.
  unfold Pack.on_dice_rolled. rewrite Hrej. cbn [opt_str_truthy negb andb].
  destruct complete.
  - destruct (flagged_rejection_is_a_notice g p cfg msg Hrej) as [-> ->].
    cbn. split; [reflexivity | now left].
  - destruct (str_truthy msg && true && Commands.is_special_notice msg);
      cbn; (split; [reflexivity|]); [now left | now right].
Qed.

(** X10.  A roll that the guards let through moves the turn counter by
    one exactly when it completes the turn: then the lists of those who
    rolled and of those who reached the goal this turn are emptied; and
    otherwise the counter stays and the roller is recorded as having
    rolled.  The tiles are as [on_dice_rolled] left them either way. *)
Theorem roll_advances_the_turn_exactly_when_it_completes_it
  (g : GameState) (author : Serializer.Author.t) (target : option Z)
  (cfg : GameConfig) (total p : Z) :
  is_locked g = false ->
  is_paused g = false ->
  Commands.dice_player g author target = inr p ->
  may_roll g cfg p = true ->
  -64 <= cols (grid cfg) <= 1114047 ->
  exists g1 msg complete,
    Pack.on_dice_rolled get_tile_color_info render_win_message g p total cfg
    = (g1, Ok (msg, true, None, complete))
    /\ let done := Commands.command_dice get_tile_color_info render_win_message
                     g author target (Some cfg) total in
       snd done = Commands.DiceRolled msg complete
       /\ turn_count (fst done) = turn_count g + (if complete then 1 else 0)
       /\ tile_numbers (_pack_data (fst done)) = tile_numbers (_pack_data g1)
       /\ players_rolled_this_turn (_pack_data (fst done))
          = (if complete then []
             else players_rolled_this_turn (_pack_data g) ++ [p])%list
       /\ (complete = true ->
           players_reached_end_this_turn (_pack_data (fst done)) = []).
Proof.
  intros Hlocked Hpaused Hplayer Hmay Hgrid.
  pose proof (may_roll_no_rejection _ _ _ Hmay) as Hnone.
  unfold Commands.command_dice. rewrite Hlocked, Hpaused, Hplayer.
  unfold Pack.on_dice_rolled. rewrite Hnone.
  destruct (resolve_move_returns get_tile_color_info render_win_message
              g p total cfg Hgrid)
    as (g1 & msg & moved & transformation & complete & Hres).
  destruct (resolve_move_seats get_tile_color_info render_win_message g p total cfg)
    as (Hseats & Hok).
  cbv zeta in Hseats, Hok. rewrite Hres in Hseats, Hok. cbn [fst snd] in Hseats, Hok.
  destruct (Hok _ _ _ _ eq_refl) as (_ & -> & -> & Hnotice & Htruthy & Hr).
  destruct Hseats as (Hcount & _).
  assert (Hnot : in_list p (players_rolled_this_turn (_pack_data g)) = false).
  { unfold may_roll in Hmay.
    repeat (apply andb_true_iff in Hmay; destruct Hmay as [Hmay ?]).
    now apply negb_true_iff. }
  rewrite Hnot in Hr.
  exists g1, msg, complete. rewrite Hres. split; [reflexivity|].
  cbv zeta. rewrite Htruthy, Hnotice. cbn [opt_str_truthy negb andb].
  destruct complete; cbn [fst snd].
  - split; [reflexivity|]. split; [cbn; lia|].
    split; [reflexivity|]. split; [reflexivity|]. reflexivity.
  - split; [reflexivity|]. split; [lia|].
    split; [reflexivity|]. split; [exact Hr | discriminate].
Qed.

(** X11.  While the game is locked or paused, and before it has been
    started, [command_dice] moves nothing, for the game master as for
    everybody else: the session stays as it was. *)
Theorem dice_are_blocked_unless_the_game_runs
  (g : GameState) (author : Serializer.Author.t) (target : option Z)
  (cfg : option GameConfig) (total : Z) :
  is_locked g = true \/ is_paused g = true \/ game_started g = false ->
  fst (Commands.command_dice get_tile_color_info render_win_message
         g author target cfg total) = g
  /\ forall msg complete,
       snd (Commands.command_dice get_tile_color_info render_win_message
              g author target cfg total) = Commands.DiceRolled msg complete ->
       False.
Proof.
  intros Hblocked. unfold Commands.command_dice.
  destruct (is_locked g); [split; [reflexivity | discriminate]|].
  destruct (is_paused g); [split; [reflexivity | discriminate]|].
  destruct Hblocked as [H|[H|Hstarted]]; try discriminate.
  unfold Commands.dice_player. rewrite Hstarted. cbn [negb].
  destruct target as [t|], (Commands._is_actual_gm author g);
    try (split; [reflexivity | discriminate]).
  destruct (mem (players g) (Serializer.Author.id author));
    split; try reflexivity; discriminate.
Qed.

End TurnEndFacts.
(** ** The announcement at the end of a turn *)

Section TurnAnnouncementFacts.

Import PyStr PyDict PyDictFacts.

Variable get_tile_color_info : Z -> GameConfig -> option string.
Variable render_win_message : GameState -> WinMessage -> string.
Variable display_name : Z -> option string.

(** When every active player of the list has rolled, the scan of
    [_get_next_player_info] finds nobody. *)
Lemma next_player_scan_all_rolled (g : GameState) (win : Z) (order : list Z) :
  (forall u, In u order -> active g win u = true ->
             In u (players_rolled_this_turn (_pack_data g))) ->
  Commands.next_player_scan display_name g win order = None.
Proof.
  induction order as [|u rest IH]; intros Hall; [reflexivity|].
  assert (IH' := IH (fun v Hv => Hall v (or_intror Hv))). clear IH.
  specialize (Hall u (or_introl eq_refl)).
  cbn [Commands.next_player_scan]. unfold active, mem in Hall.
  destruct (in_list u (forfeited_players (_pack_data g))); [exact IH'|].
  rewrite Z.geb_leb.
  destruct (Z.leb_spec win (Pack.tile_of (_pack_data g) u)) as [Hge|Hlt]; [exact IH'|].
  rewrite rolled_check.
  destruct (in_list u (players_rolled_this_turn (_pack_data g))) eqn:Er; [exact IH'|].
  destruct (get (players g) u) as [player|]; [|exact IH'].
  exfalso. apply in_list_false_iff in Er. apply Er, Hall.
  cbn. apply Z.ltb_lt. exact Hlt.
Qed.

(** Once the list of those who rolled is empty, the scan finds somebody
    as soon as an active player of the list has a number. *)
Lemma next_player_scan_after_advance (g : GameState) (win : Z) (order : list Z) (u : Z) :
  In u order -> active g win u = true ->
  mem (player_numbers (_pack_data g)) u = true ->
  Commands.next_player_scan display_name (Pack.advance_turn g) win order <> None.
Proof.
  intros Hin Hactive Hnumber.
  induction order as [|v rest IH]; [contradiction|].
  cbn [Commands.next_player_scan].
  change (forfeited_players (_pack_data (Pack.advance_turn g)))
    with (forfeited_players (_pack_data g)).
  change (Pack.tile_of (_pack_data (Pack.advance_turn g)) v)
    with (Pack.tile_of (_pack_data g) v).
  change (players_rolled_this_turn (_pack_data (Pack.advance_turn g))) with (@nil Z).
  change (players (Pack.advance_turn g)) with (players g).
  change (player_numbers (_pack_data (Pack.advance_turn g)))
    with (player_numbers (_pack_data g)).
  destruct Hin as [->|Hin].
  - unfold active, mem in Hactive, Hnumber.
    apply andb_true_iff in Hactive as [Hactive Htile].
    apply andb_true_iff in Hactive as [Hplayer Hforfeit].
    apply negb_true_iff in Hforfeit. apply Z.ltb_lt in Htile.
    rewrite Hforfeit, Z.geb_leb.
    destruct (Z.leb_spec win (Pack.tile_of (_pack_data g) u)); [lia|].
    destruct (get (players g) u); [|discriminate].
    destruct (get (player_numbers (_pack_data g)) u); [discriminate | discriminate].
  - specialize (IH Hin).
    destruct (in_list v (forfeited_players (_pack_data g))); [exact IH|].
    destruct (Pack.tile_of (_pack_data g) v >=? win); [exact IH|].
    destruct (get (players g) v); [|exact IH].
    destruct (get (player_numbers (_pack_data g)) v); [discriminate | exact IH].
Qed.

(** X28.  The announcement of the next player at the end of a turn never
    has a player to name: [command_dice] asks [_get_next_player_info]
    before [advance_turn] has emptied the list of those who rolled, and on
    the session a turn-completing roll leaves, every player it could name
    has rolled, so the answer is [None].  Asked after [advance_turn], it
    names a player as soon as an active player of the turn order has a
    number. *)
Theorem no_next_player_is_found_when_a_roll_completes_the_turn
  (g : GameState) (cfg : GameConfig) (p dice_result : Z)
  (g' : GameState) (msg : string) :
  may_roll g cfg p = true ->
  In p (turn_order (_pack_data g)) ->
  NoDup (turn_order (_pack_data g)) ->
  NoDup (players_rolled_this_turn (_pack_data g)) ->
  Pack.on_dice_rolled get_tile_color_info render_win_message g p dice_result cfg
  = (g', Ok (msg, true, None, true)) ->
  Commands._get_next_player_info display_name g' (Some cfg) = None
  /\ forall u,
       In u (turn_order (_pack_data g')) ->
       active g' (win_tile (rules cfg)) u = true ->
       mem (player_numbers (_pack_data g')) u = true ->
       Commands._get_next_player_info display_name (Pack.advance_turn g') (Some cfg)
       <> None.
Proof.
  intros Hmay Hin Horder Hrolled Hroll.
  unfold Pack.on_dice_rolled in Hroll.
  rewrite (may_roll_no_rejection _ _ _ Hmay) in Hroll.
  destruct (resolve_move_seats get_tile_color_info render_win_message g p dice_result cfg)
    as (Hseats & Hok).
  cbv zeta in Hseats, Hok. rewrite Hroll in Hseats, Hok. cbn [fst snd] in Hseats, Hok.
  destruct (Hok _ _ _ _ eq_refl) as (Hcomplete & _ & _ & _ & _ & Hr).
  destruct Hseats as (_ & _ & _ & _ & _ & _ & Ho & _ & _).
  assert (Hall : forall u, In u (turn_order (_pack_data g')) ->
                           active g' (win_tile (rules cfg)) u = true ->
                           In u (players_rolled_this_turn (_pack_data g'))).
  { assert (Hsome : turn_order (_pack_data g') <> []).
    { rewrite Ho. intros E. rewrite E in Hin. contradiction. }
    assert (Horder' : NoDup (turn_order (_pack_data g'))) by (rewrite Ho; exact Horder).
    assert (Hrolled' : NoDup (players_rolled_this_turn (_pack_data g'))).
    { rewrite Hr.
      destruct (in_list p (players_rolled_this_turn (_pack_data g))) eqn:E;
        [exact Hrolled|].
      apply NoDup_app; [exact Hrolled | repeat constructor; intros [] |].
      intros u Hu [<-|[]]. apply in_list_false_iff in E. contradiction. }
    apply (proj1 (turn_complete_iff g' (win_tile (rules cfg)) Hsome Horder' Hrolled')).
    symmetry. exact Hcomplete. }
  split.
  - unfold Commands._get_next_player_info. now apply next_player_scan_all_rolled.
  - intros u Hu Hactive Hnumber. unfold Commands._get_next_player_info.
    change (turn_order (_pack_data (Pack.advance_turn g')))
      with (turn_order (_pack_data g')).
    now apply (next_player_scan_after_advance g' _ _ u).
Qed.

End TurnAnnouncementFacts.

Lemma no_next_player_is_found_when_a_roll_completes_the_turn_witness :
  exists g' msg,
    Pack.on_dice_rolled no_tile_info plain_win_text two_rolled_session 3 2 snake_config
    = (g', Ok (msg, true, None, true))
    /\ Commands._get_next_player_info no_display_name g' (Some snake_config) = None
    /\ Commands._get_next_player_info no_display_name (Pack.advance_turn g')
         (Some snake_config)
       <> None.
Proof.
  eexists. eexists. split; [reflexivity|].
  assert (Hdistinct : NoDup [1; 2; 3])
    by (repeat constructor; simpl; intuition discriminate).
  assert (Hrolled : NoDup [1; 2])
    by (repeat constructor; simpl; intuition discriminate).
  destruct (no_next_player_is_found_when_a_roll_completes_the_turn
              no_tile_info plain_win_text no_display_name
              two_rolled_session snake_config 3 2 _ _
              eq_refl (or_intror (or_intror (or_introl eq_refl))) Hdistinct Hrolled
              eq_refl)
    as [Hnone Hlater].
  split; [exact Hnone|].
  apply (Hlater 1); [simpl; tauto | reflexivity | reflexivity].
Defined.

(** ** Starting, pausing and ending a game *)

Section LifecycleFacts.

Import PyDict PyDictFacts.

Lemma with_is_paused_same (g : GameState) :
  with_is_paused g (is_paused g) = g.
Proof. destruct g; reflexivity. Qed.

(** X12.  A game that has been ended stays as it is under the commands
    that look at the lock: [command_start], [command_pause],
    [command_resume], [command_dice] and [command_gamequit] leave a locked
    session unchanged, whoever sends them, and [command_endgame] leaves it
    locked. *)
Theorem ended_game_is_not_touched_by_the_turn_commands
  (get_tile_color_info : Z -> GameConfig -> option string)
  (render_win_message : GameState -> WinMessage -> string)
  (g : GameState) (author : Serializer.Author.t) (target : option Z)
  (cfg : option GameConfig) (total : Z) :
  is_locked g = true ->
  fst (Commands.command_start g author) = g
  /\ fst (Commands.command_pause g author) = g
  /\ fst (Commands.command_resume g author) = g
  /\ fst (Commands.command_dice get_tile_color_info render_win_message
            g author target cfg total) = g
  /\ Manager.command_gamequit g (Serializer.Author.id author) = g
  /\ is_locked (fst (Commands.command_endgame g author)) = true.
Proof.
  intros Hlocked.
  unfold Commands.command_start, Commands.command_pause, Commands.command_resume,
    Commands.command_dice, Manager.command_gamequit, Commands.command_endgame.
  rewrite Hlocked.
  destruct (negb (Serializer.Author.is_member author));
    destruct (negb (Commands._is_actual_gm author g));
    destruct (negb (Commands._is_actual_gm author g || Serializer.Author.is_admin author));
    cbn [fst]; repeat split; try reflexivity; exact Hlocked.
Qed.

(** X13.  Pausing and resuming undo each other: when [command_pause]
    answers that the game is paused, [command_resume] of the same author
    gives the session back exactly as it was before the pause, and so does
    [command_start], which resumes a paused game. *)
Theorem pause_then_resume_gives_the_session_back
  (g : GameState) (author : Serializer.Author.t) :
  snd (Commands.command_pause g author) = Commands.NowPaused ->
  let paused := fst (Commands.command_pause g author) in
  is_paused paused = true
  /\ Commands.command_resume paused author = (g, Commands.NowResumed)
  /\ Commands.command_start paused author = (g, Commands.NowResumed).
Proof.
  unfold Commands.command_pause, Commands.command_resume, Commands.command_start.
  destruct (negb (Serializer.Author.is_member author)) eqn:Em; [discriminate|].
  destruct (negb (Commands._is_actual_gm author g)) eqn:Egm; [discriminate|].
  destruct (is_locked g) eqn:El; [discriminate|].
  destruct (negb (game_started g)); [discriminate|].
  destruct (is_paused g) eqn:Ep; [discriminate|].
  intros _. cbn [fst].
  assert (Hgm : Commands._is_actual_gm author (with_is_paused g true)
                = Commands._is_actual_gm author g) by reflexivity.
  rewrite Hgm, Egm. cbn [is_locked is_paused with_is_paused negb]. rewrite El.
  assert (Hback : with_is_paused (with_is_paused g true) false = g).
  { rewrite <- Ep at 1. destruct g; reflexivity. }
  rewrite Hback. repeat split.
Qed.

(** X14.  A game is never paused without having been started: the
    commands that start, pause, resume and end a game keep this, and
    [command_start] only starts a game in which somebody has a character. *)
Theorem paused_game_has_been_started (g : GameState) (author : Serializer.Author.t) :
  (is_paused g = true -> game_started g = true) ->
  let kept (g' : GameState) := is_paused g' = true -> game_started g' = true in
  kept (fst (Commands.command_start g author))
  /\ kept (fst (Commands.command_pause g author))
  /\ kept (fst (Commands.command_resume g author))
  /\ kept (fst (Commands.command_endgame g author))
  /\ forall n,
       snd (Commands.command_start g author) = Commands.NowStarted n ->
       game_started (fst (Commands.command_start g author)) = true
       /\ exists player,
            In player (values (players g))
            /\ opt_str_truthy (GamePlayer.character_name player) = true.
Proof.
  intros Hinv kept. subst kept. cbv beta.
  split; [|split; [|split; [|split]]].
  - unfold Commands.command_start.
    destruct (negb (Serializer.Author.is_member author)); [exact Hinv|].
    destruct (negb (Commands._is_actual_gm author g)); [exact Hinv|].
    destruct (is_locked g) eqn:El; [exact Hinv|].
    destruct (is_paused g) eqn:Ep; [discriminate|].
    destruct (game_started g) eqn:Es; [intros _; exact Es|].
    destruct (filter _ (values (players g))); cbn [fst]; intros Hp; [|discriminate].
    rewrite Ep in Hp. discriminate.
  - unfold Commands.command_pause.
    destruct (negb (Serializer.Author.is_member author)); [exact Hinv|].
    destruct (negb (Commands._is_actual_gm author g)); [exact Hinv|].
    destruct (is_locked g) eqn:El; [exact Hinv|].
    destruct (game_started g) eqn:Es; cbn [negb fst].
    + destruct (is_paused g); intros _; exact Es.
    + intros Hp. rewrite Es. exact (Hinv Hp).
  - unfold Commands.command_resume.
    destruct (negb (Serializer.Author.is_member author)); [exact Hinv|].
    destruct (negb (Commands._is_actual_gm author g)); [exact Hinv|].
    destruct (is_locked g) eqn:El; [exact Hinv|].
    destruct (is_paused g) eqn:Ep; cbn [negb fst]; intros Hp;
      [discriminate | rewrite Ep in Hp; discriminate].
  - unfold Commands.command_endgame.
    destruct (negb (Serializer.Author.is_member author)); [exact Hinv|].
    destruct (negb (Commands._is_actual_gm author g || Serializer.Author.is_admin author));
      exact Hinv.
  - intros n. unfold Commands.command_start.
    destruct (negb (Serializer.Author.is_member author)); [discriminate|].
    destruct (negb (Commands._is_actual_gm author g)); [discriminate|].
    destruct (is_locked g); [discriminate|].
    destruct (is_paused g); [discriminate|].
    destruct (game_started g); [discriminate|].
    destruct (filter _ (values (players g))) as [|pl rest] eqn:Ef; [discriminate|].
    intros _. split; [reflexivity|]. exists pl.
    assert (Hin : In pl (filter (fun p => opt_str_truthy (GamePlayer.character_name p))
                           (values (players g)))) by (rewrite Ef; now left).
    apply filter_In in Hin. exact Hin.
Qed.

End LifecycleFacts.

(** ** Handing over the game, removing and re-adding players *)

Section RosterFacts.

Import PyDict PyDictFacts.

(** X15.  When [command_transfergm] hands the game over, the member
    named is the game master; the previous game master is no longer the
    narrator; the new one is the narrator exactly when they play no
    character; and the players and the data of the pack are as before. *)
Theorem transfer_makes_the_member_game_master
  (g : GameState) (author : Serializer.Author.t) (member_id : Z) :
  snd (Commands.command_transfergm g author (Some member_id))
  = Commands.GMTransferred ->
  let g' := fst (Commands.command_transfergm g author (Some member_id)) in
  gm_user_id g' = member_id
  /\ member_id <> gm_user_id g
  /\ narrator_user_id g' <> Some (gm_user_id g)
  /\ (narrator_user_id g' = Some member_id
      <-> Serializer.has_character g member_id = false)
  /\ players g' = players g
  /\ _pack_data g' = _pack_data g.
Proof.
  unfold Commands.command_transfergm.
  destruct (negb (Serializer.Author.is_member author)); [discriminate|].
  destruct (negb (Commands._is_actual_gm author g || Serializer.Author.is_admin author));
    [discriminate|].
  destruct (Z.eqb_spec member_id (gm_user_id g)) as [|Hne]; [discriminate|].
  intros _. cbn [fst].
  set (gs1 := with_gm_user_id g member_id).
  set (gs2 := match narrator_user_id gs1 with
              | Some n => if n =? gm_user_id g then with_narrator_user_id gs1 None else gs1
              | None => gs1
              end).
  assert (H2 : gm_user_id gs2 = member_id /\ players gs2 = players g
               /\ _pack_data gs2 = _pack_data g
               /\ narrator_user_id gs2 <> Some (gm_user_id g)).
  { subst gs2. cbn [narrator_user_id gs1 with_gm_user_id].
    destruct (narrator_user_id g) as [n|] eqn:En.
    - destruct (Z.eqb_spec n (gm_user_id g)) as [->|Hn]; cbn.
      + repeat split; discriminate.
      + rewrite En. repeat split. congruence.
    - cbn. rewrite En. repeat split. discriminate. }
  destruct H2 as (Hgm & Hplayers & Hdata & Hold).
  assert (Hchar : Serializer.has_character gs2 member_id
                  = Serializer.has_character g member_id).
  { unfold Serializer.has_character. now rewrite Hplayers. }
  rewrite Hchar. clearbody gs2. clear gs1.
  destruct (Serializer.has_character g member_id); cbn [negb].
  - destruct (narrator_user_id gs2) as [n|] eqn:En.
    + destruct (Z.eqb_spec n member_id) as [->|Hn]; cbn.
      * repeat split; try assumption; try discriminate; try congruence.
      * rewrite En. repeat split; try assumption; try discriminate; try congruence.
    + rewrite En. repeat split; try assumption; try discriminate; try congruence.
  - cbn. repeat split; try assumption; try discriminate; try congruence.
Qed.

Lemma set_same {V : Type} (d : dict V) (k : Z) (v : V) :
  get d k = Some v -> set d k v = d.
Proof.
  induction d as [|[k' v'] rest IH]; cbn; [discriminate|].
  destruct (Z.eqb_spec k' k) as [->|Hne].
  - now intros [= ->].
  - intros H. now rewrite IH.
Qed.

Lemma list_remove_app_last (x : Z) (xs : list Z) :
  ~ In x xs -> list_remove x (xs ++ [x]) = xs.
Proof.
  induction xs as [|y rest IH]; intros Hnot; cbn.
  - now rewrite Z.eqb_refl.
  - destruct (Z.eqb_spec y x) as [->|Hne]; [exfalso; apply Hnot; now left|].
    rewrite IH; [reflexivity|]. intros Hin. apply Hnot. now right.
Qed.

(** X16.  Being removed by the game master is the same as quitting: on a
    game that is not locked, [command_removeplayer] of the game master for
    a member leaves the very session that [command_gamequit] of that
    member leaves. *)
Theorem removal_by_the_game_master_is_a_forfeit
  (g : GameState) (author : Serializer.Author.t) (member_id : Z) :
  is_locked g = false ->
  Commands._is_actual_gm author g = true ->
  fst (Commands.command_removeplayer g author (Some member_id))
  = Manager.command_gamequit g member_id
  /\ in_list member_id
       (forfeited_players
          (_pack_data (fst (Commands.command_removeplayer g author (Some member_id)))))
     = mem (players g) member_id
       || in_list member_id (forfeited_players (_pack_data g)).
Proof.
  intros Hlocked Hgm.
  unfold Commands.command_removeplayer, Manager.command_gamequit, mem.
  assert (Hmember : Serializer.Author.is_member author = true).
  { unfold Commands._is_actual_gm in Hgm.
    destruct (Serializer.Author.is_member author); [reflexivity | discriminate]. }
  rewrite Hlocked, Hgm, Hmember. cbn [negb].
  destruct (get (players g) member_id) as [player|]; cbn [fst orb]; [|split; reflexivity].
  destruct (in_list member_id (forfeited_players (_pack_data g))) eqn:Ef.
  - fields. rewrite ?Ef. fields. rewrite ?Ef. split; reflexivity.
  - fields. rewrite ?Ef. fields. split; [reflexivity|].
    rewrite in_list_app. cbn. rewrite Z.eqb_refl. now rewrite orb_true_r.
Qed.

Variable default_character_name : option string.
Variable default_outfit_name : option string.

Lemma on_player_added_players (g : GameState) (p : Z) (cfg : GameConfig) :
  mem (tile_numbers (_pack_data g)) p = true ->
  players (Pack.on_player_added g p cfg) = players g.
Proof.
  intros Htile. unfold Pack.on_player_added. rewrite Htile. reflexivity.
Qed.

Lemma with_grid_position_same (player : GamePlayer.t) :
  GamePlayer.with_grid_position player (GamePlayer.grid_position player) = player.
Proof. destruct player; reflexivity. Qed.

Lemma put_at_same (g : GameState) (p : Z) (player : GamePlayer.t) :
  get (players g) p = Some player ->
  Commands.put_at g p (GamePlayer.grid_position player) = g.
Proof.
  intros Hp. unfold Commands.put_at, Pack.set_grid_position. rewrite Hp.
  rewrite with_grid_position_same, (set_same _ _ _ Hp). destruct g; reflexivity.
Qed.

(** X17.  A player who quits and is added again by the game master is
    back where they were: for a player of the turn order who stands on a
    tile at a coordinate and has a number, [command_gamequit] followed by
    [command_addplayer] gives back the players with their coordinates, the
    tiles, the turn order, the player numbers and the list of forfeits as
    they were before the player quit, and answers with the player's
    number; the transformation count of the player starts again at 0. *)
Theorem quitting_and_being_added_again_restores_the_seat
  (g : GameState) (author : Serializer.Author.t) (p : Z) (cfg : GameConfig)
  (player : GamePlayer.t) (tile number : Z) :
  is_locked g = false ->
  Commands._is_actual_gm author g = true ->
  get (players g) p = Some player ->
  str_truthy (GamePlayer.grid_position player) = true ->
  get (tile_numbers (_pack_data g)) p = Some tile ->
  get (player_numbers (_pack_data g)) p = Some number ->
  In p (turn_order (_pack_data g)) ->
  ~ In p (forfeited_players (_pack_data g)) ->
  let quit := Manager.command_gamequit g p in
  let back :=
    Commands.command_addplayer default_character_name default_outfit_name
      quit author (Some p) (Some cfg) in
  in_list p (forfeited_players (_pack_data quit)) = true
  /\ snd back = Commands.PlayerAdded true (Some number)
  /\ players (fst back) = players g
  /\ tile_numbers (_pack_data (fst back)) = tile_numbers (_pack_data g)
  /\ turn_order (_pack_data (fst back)) = turn_order (_pack_data g)
  /\ player_numbers (_pack_data (fst back)) = player_numbers (_pack_data g)
  /\ forfeited_players (_pack_data (fst back)) = forfeited_players (_pack_data g)
  /\ Pack.get_transformation_count (fst back) p = Some 0.
Proof.
  intros Hlocked Hgm Hplayer Hpos Htile Hnumber Horder Hforf quit back.
  assert (Hmember : Serializer.Author.is_member author = true).
  { unfold Commands._is_actual_gm in Hgm.
    destruct (Serializer.Author.is_member author); [reflexivity | discriminate]. }
  apply in_list_false_iff in Hforf as Hforf'.
  assert (Hquit : players quit = players g
                  /\ gm_user_id quit = gm_user_id g
                  /\ tile_numbers (_pack_data quit) = tile_numbers (_pack_data g)
                  /\ turn_order (_pack_data quit) = turn_order (_pack_data g)
                  /\ player_numbers (_pack_data quit) = player_numbers (_pack_data g)
                  /\ forfeited_players (_pack_data quit)
                     = (forfeited_players (_pack_data g) ++ [p])%list
                  /\ removed_player_positions (_pack_data quit)
                     = set (removed_player_positions (_pack_data g)) p
                         (GamePlayer.grid_position player)).
  { subst quit. unfold Manager.command_gamequit. rewrite Hlocked, Hplayer.
    fields. rewrite Hforf'. fields. repeat split. }
  destruct Hquit as (Qp & Qgm & Qt & Qo & Qn & Qf & Qr).
  assert (Hgm' : Commands._is_actual_gm author quit = true).
  { unfold Commands._is_actual_gm in *. now rewrite Qgm. }
  assert (Hin : in_list p (forfeited_players (_pack_data quit)) = true).
  { rewrite Qf, in_list_app. cbn. rewrite Z.eqb_refl. now rewrite orb_true_r. }
  split; [exact Hin|].
  assert (Hmemp : mem (players quit) p = true).
  { unfold mem. now rewrite Qp, Hplayer. }
  subst back. unfold Commands.command_addplayer.
  rewrite Hmember, Hgm'. cbv zeta. rewrite Hmemp, Hin. cbn [andb negb].
  set (gs0 := with_pack_data quit _).
  assert (H0 : players gs0 = players g
               /\ tile_numbers (_pack_data gs0) = tile_numbers (_pack_data g)
               /\ turn_order (_pack_data gs0) = turn_order (_pack_data g)
               /\ player_numbers (_pack_data gs0) = player_numbers (_pack_data g)
               /\ forfeited_players (_pack_data gs0) = forfeited_players (_pack_data g)
               /\ removed_player_positions (_pack_data gs0)
                  = set (removed_player_positions (_pack_data g)) p
                      (GamePlayer.grid_position player)).
  { subst gs0. fields. rewrite Qf, (list_remove_app_last _ _ Hforf).
    repeat split; assumption. }
  destruct H0 as (P0 & T0 & O0 & N0 & F0 & R0). clearbody gs0.
  rewrite N0, T0, R0, Hnumber, Htile, get_set_same, Hpos. cbn [opt_str_truthy].
  rewrite Hpos.
  assert (Hput : forall gs, players gs = players g ->
                   Commands.put_at gs p (GamePlayer.grid_position player) = gs).
  { intros gs Hgs. apply put_at_same. now rewrite Hgs. }
  rewrite (Hput gs0 P0).
  destruct (on_player_added_frame gs0 p cfg)
    as (At & Ac & _ & Af & _ & _ & Ao).
  cbv zeta in At, Ac, Af, Ao.
  assert (Hmem : mem (tile_numbers (_pack_data gs0)) p = true).
  { unfold mem. now rewrite T0, Htile. }
  rewrite Hmem in At.
  destruct Ao as (Ao & An & _).
  { rewrite O0. now apply in_list_true_iff. }
  pose proof (on_player_added_players gs0 p cfg Hmem) as Ap.
  set (gs2 := Pack.on_player_added gs0 p cfg) in *. clearbody gs2.
  set (gs3 := with_pack_data gs2 _).
  assert (H3 : gs3 = gs2).
  { subst gs3. rewrite (set_same (tile_numbers (_pack_data gs2)) p tile).
    - destruct gs2 as [? ? ? ? ? ? ? ? ? ? ? data]. destruct data. reflexivity.
    - now rewrite At, T0. }
  rewrite H3. rewrite (Hput gs2) by (now rewrite Ap).
  assert (Hcur : get (player_numbers (_pack_data gs2)) p = Some number).
  { now rewrite An, N0. }
  rewrite Hcur, Z.eqb_refl. cbn [fst snd].
  rewrite Hcur. split; [reflexivity|].
  unfold Pack.get_transformation_count. rewrite Ac, get_set_same.
  repeat split; congruence.
Qed.

End RosterFacts.

(** ** Exchanging characters *)

Section SwapFacts.

Import PyDict PyDictFacts.

(** [on_character_assigned] keeps the players and the seats. *)
Lemma on_character_assigned_frame (g : GameState) (u : Z) (name : option string) :
  let g' := Manager.on_character_assigned g u name in
  players g' = players g
  /\ player_states g' = player_states g
  /\ tile_numbers (_pack_data g') = tile_numbers (_pack_data g)
  /\ player_numbers (_pack_data g') = player_numbers (_pack_data g)
  /\ turn_order (_pack_data g') = turn_order (_pack_data g)
  /\ players_rolled_this_turn (_pack_data g') = players_rolled_this_turn (_pack_data g)
  /\ winners (_pack_data g') = winners (_pack_data g)
  /\ forfeited_players (_pack_data g') = forfeited_players (_pack_data g)
  /\ goal_reached_turn (_pack_data g') = goal_reached_turn (_pack_data g).
Proof.
  unfold Manager.on_character_assigned, Pack.on_character_assigned.
  destruct (get (original_characters (_pack_data g)) u) as [[c|]|]; repeat split.
Qed.

Lemma swap_pack_player_metadata_frame (g : GameState) (id1 id2 : Z) :
  let g' := Manager._swap_pack_player_metadata g id1 id2 in
  players g' = players g
  /\ player_states g' = player_states g
  /\ tile_numbers (_pack_data g') = tile_numbers (_pack_data g)
  /\ player_numbers (_pack_data g') = player_numbers (_pack_data g)
  /\ turn_order (_pack_data g') = turn_order (_pack_data g)
  /\ players_rolled_this_turn (_pack_data g') = players_rolled_this_turn (_pack_data g)
  /\ winners (_pack_data g') = winners (_pack_data g)
  /\ forfeited_players (_pack_data g') = forfeited_players (_pack_data g)
  /\ goal_reached_turn (_pack_data g') = goal_reached_turn (_pack_data g).
Proof. unfold Manager._swap_pack_player_metadata. repeat split. Qed.

(** What [command_swap] does to the two players, to the tiles and to the
    seats. *)
Lemma command_swap_frame
  (g : GameState) (id1 id2 : Z) (player1 player2 : GamePlayer.t) :
  id1 <> id2 ->
  get (players g) id1 = Some player1 ->
  get (players g) id2 = Some player2 ->
  let g' := Manager.command_swap g id1 id2 in
  get (players g') id1
  = Some (GamePlayer.mk (GamePlayer.user_id player1)
            (GamePlayer.character_name player2) (GamePlayer.grid_position player2)
            (GamePlayer.background_id player2) (GamePlayer.outfit_name player2))
  /\ get (players g') id2
     = Some (GamePlayer.mk (GamePlayer.user_id player2)
               (GamePlayer.character_name player1) (GamePlayer.grid_position player1)
               (GamePlayer.background_id player1) (GamePlayer.outfit_name player1))
  /\ (forall q, q <> id1 -> q <> id2 -> get (players g') q = get (players g) q)
  /\ tile_numbers (_pack_data g')
     = match get (tile_numbers (_pack_data g)) id1,
             get (tile_numbers (_pack_data g)) id2 with
       | Some tile1, Some tile2 =>
           set (set (tile_numbers (_pack_data g)) id1 tile2) id2 tile1
       | _, _ => tile_numbers (_pack_data g)
       end
  /\ player_numbers (_pack_data g') = player_numbers (_pack_data g)
  /\ turn_order (_pack_data g') = turn_order (_pack_data g)
  /\ players_rolled_this_turn (_pack_data g') = players_rolled_this_turn (_pack_data g)
  /\ winners (_pack_data g') = winners (_pack_data g)
  /\ forfeited_players (_pack_data g') = forfeited_players (_pack_data g).
Proof.
  intros Hne H1 H2 g'. subst g'. unfold Manager.command_swap. rewrite H1, H2.
  cbv zeta.
  set (gs1 := Manager.exchange_players g id1 id2 player1 player2 true).
  set (gs2 := match get (player_states gs1) id1, get (player_states gs1) id2 with
              | Some state1, Some state2 => _
              | _, _ => gs1
              end).
  assert (Hgs2 : players gs2 = players gs1 /\ _pack_data gs2 = _pack_data g).
  { subst gs2. destruct (get (player_states gs1) id1), (get (player_states gs1) id2);
      split; reflexivity. }
  destruct Hgs2 as [P2 D2]. clearbody gs2.
  set (gs3 := match get (tile_numbers (_pack_data gs2)) id1,
                    get (tile_numbers (_pack_data gs2)) id2 with
              | Some tile1, Some tile2 => _
              | _, _ => gs2
              end).
  assert (Hgs3 : players gs3 = players gs1
                 /\ player_numbers (_pack_data gs3) = player_numbers (_pack_data g)
                 /\ turn_order (_pack_data gs3) = turn_order (_pack_data g)
                 /\ players_rolled_this_turn (_pack_data gs3)
                    = players_rolled_this_turn (_pack_data g)
                 /\ winners (_pack_data gs3) = winners (_pack_data g)
                 /\ forfeited_players (_pack_data gs3) = forfeited_players (_pack_data g)
                 /\ tile_numbers (_pack_data gs3)
                    = match get (tile_numbers (_pack_data g)) id1,
                            get (tile_numbers (_pack_data g)) id2 with
                      | Some tile1, Some tile2 =>
                          set (set (tile_numbers (_pack_data g)) id1 tile2) id2 tile1
                      | _, _ => tile_numbers (_pack_data g)
                      end).
  { subst gs3. rewrite D2.
    destruct (get (tile_numbers (_pack_data g)) id1) as [t1|];
      [destruct (get (tile_numbers (_pack_data g)) id2) as [t2|]|];
      fields; rewrite ?D2; repeat split; assumption. }
  destruct Hgs3 as (P3 & N3 & O3 & R3 & W3 & F3 & T3). clearbody gs3.
  destruct (swap_pack_player_metadata_frame gs3 id1 id2)
    as (P4 & _ & T4 & N4 & O4 & R4 & W4 & F4 & _).
  cbv zeta in P4, T4, N4, O4, R4, W4, F4.
  set (gs4 := Manager._swap_pack_player_metadata gs3 id1 id2) in *. clearbody gs4.
  assert (Hp1 : get (players gs1) id1
                = Some (GamePlayer.mk (GamePlayer.user_id player1)
                          (GamePlayer.character_name player2)
                          (GamePlayer.grid_position player2)
                          (GamePlayer.background_id player2)
                          (GamePlayer.outfit_name player2))).
  { subst gs1. unfold Manager.exchange_players. fields.
    rewrite get_set_other by congruence. apply get_set_same. }
  assert (Hp2 : get (players gs1) id2
                = Some (GamePlayer.mk (GamePlayer.user_id player2)
                          (GamePlayer.character_name player1)
                          (GamePlayer.grid_position player1)
                          (GamePlayer.background_id player1)
                          (GamePlayer.outfit_name player1))).
  { subst gs1. unfold Manager.exchange_players. fields. apply get_set_same. }
  assert (Hpq : forall q, q <> id1 -> q <> id2 -> get (players gs1) q = get (players g) q).
  { intros q Hq1 Hq2. subst gs1. unfold Manager.exchange_players. fields.
    rewrite !get_set_other by congruence. reflexivity. }
  rewrite P4, P3, Hp1, Hp2.
  match goal with
  | |- context [Manager.on_character_assigned (Manager.on_character_assigned gs4 ?u ?n) ?v ?m] =>
      destruct (on_character_assigned_frame gs4 u n)
        as (A1 & _ & A2 & A3 & A4 & A5 & A6 & A7 & _);
      destruct (on_character_assigned_frame (Manager.on_character_assigned gs4 u n) v m)
        as (B1 & _ & B2 & B3 & B4 & B5 & B6 & B7 & _)
  end.
  cbv zeta in *.
  rewrite B1, A1, P4, P3, B2, A2, T4, B3, A3, N4, N3, B4, A4, O4, O3,
    B5, A5, R4, R3, B6, A6, W4, W3, B7, A7, F4, F3.
  split; [exact Hp1|]. split; [exact Hp2|]. split; [exact Hpq|].
  split; [exact T3|]. repeat split.
Qed.

(** X20.  [command_swap] exchanges what two different players show and
    where they stand, and nothing of their seats: each gets the other's
    character, coordinate, background and outfit and, when both have one,
    the other's tile; their user ids, the other players, the player
    numbers, the turn order and the lists of those who rolled, won or
    forfeited stay as they were. *)
Theorem swap_exchanges_characters_and_keeps_the_seats
  (g : GameState) (id1 id2 : Z) (player1 player2 : GamePlayer.t) :
  id1 <> id2 ->
  get (players g) id1 = Some player1 ->
  get (players g) id2 = Some player2 ->
  let g' := Manager.command_swap g id1 id2 in
  get (players g') id1
  = Some (GamePlayer.mk (GamePlayer.user_id player1)
            (GamePlayer.character_name player2) (GamePlayer.grid_position player2)
            (GamePlayer.background_id player2) (GamePlayer.outfit_name player2))
  /\ get (players g') id2
     = Some (GamePlayer.mk (GamePlayer.user_id player2)
               (GamePlayer.character_name player1) (GamePlayer.grid_position player1)
               (GamePlayer.background_id player1) (GamePlayer.outfit_name player1))
  /\ (forall q, q <> id1 -> q <> id2 -> get (players g') q = get (players g) q)
  /\ (forall tile1 tile2,
        get (tile_numbers (_pack_data g)) id1 = Some tile1 ->
        get (tile_numbers (_pack_data g)) id2 = Some tile2 ->
        get (tile_numbers (_pack_data g')) id1 = Some tile2
        /\ get (tile_numbers (_pack_data g')) id2 = Some tile1)
  /\ player_numbers (_pack_data g') = player_numbers (_pack_data g)
  /\ turn_order (_pack_data g') = turn_order (_pack_data g)
  /\ players_rolled_this_turn (_pack_data g') = players_rolled_this_turn (_pack_data g)
  /\ winners (_pack_data g') = winners (_pack_data g)
  /\ forfeited_players (_pack_data g') = forfeited_players (_pack_data g).
Proof.
  intros Hne H1 H2 g'.
  destruct (command_swap_frame g id1 id2 player1 player2 Hne H1 H2)
    as (Hp1 & Hp2 & Hpq & Htiles & Hseats).
  cbv zeta in Hp1, Hp2, Hpq, Htiles, Hseats. fold g' in Hp1, Hp2, Hpq, Htiles, Hseats.
  split; [exact Hp1|]. split; [exact Hp2|]. split; [exact Hpq|].
  split; [|exact Hseats].
  intros tile1 tile2 Ht1 Ht2. rewrite Htiles, Ht1, Ht2. split.
  - rewrite get_set_other by congruence. apply get_set_same.
  - apply get_set_same.
Qed.

Lemma set_set_back {V : Type} (d : dict V) (k1 k2 : Z) (v1 v2 w1 w2 : V) (q : Z) :
  k1 <> k2 ->
  get d k1 = Some v1 -> get d k2 = Some v2 ->
  get (set (set (set (set d k1 w1) k2 w2) k1 v1) k2 v2) q = get d q.
Proof.
  intros Hne Hk1 Hk2.
  destruct (Z.eq_dec q k2) as [->|Hq2]; [now rewrite get_set_same|].
  rewrite get_set_other by congruence.
  destruct (Z.eq_dec q k1) as [->|Hq1]; [now rewrite get_set_same|].
  rewrite !get_set_other by congruence. reflexivity.
Qed.

(** X27.  Swapping the same two players twice undoes the exchange of what
    they show and where they stand: every player has their own character,
    coordinate, background and outfit again, every tile is as it was, and
    the seats have not moved. *)
Theorem swapping_twice_gives_characters_and_tiles_back
  (g : GameState) (id1 id2 : Z) (player1 player2 : GamePlayer.t) :
  id1 <> id2 ->
  get (players g) id1 = Some player1 ->
  get (players g) id2 = Some player2 ->
  let g'' := Manager.command_swap (Manager.command_swap g id1 id2) id1 id2 in
  (forall q, get (players g'') q = get (players g) q)
  /\ (forall q, get (tile_numbers (_pack_data g'')) q
                = get (tile_numbers (_pack_data g)) q)
  /\ player_numbers (_pack_data g'') = player_numbers (_pack_data g)
  /\ turn_order (_pack_data g'') = turn_order (_pack_data g).
Proof.
  intros Hne H1 H2 g''.
  destruct (command_swap_frame g id1 id2 player1 player2 Hne H1 H2)
    as (P1 & P2 & Pq & T & N & O & _).
  cbv zeta in P1, P2, Pq, T, N, O.
  set (g' := Manager.command_swap g id1 id2) in *.
  destruct (command_swap_frame g' id1 id2 _ _ Hne P1 P2)
    as (Q1 & Q2 & Qq & T' & N' & O' & _).
  cbv zeta in Q1, Q2, Qq, T', N', O'. fold g'' in Q1, Q2, Qq, T', N', O'.
  cbn [GamePlayer.user_id GamePlayer.character_name GamePlayer.grid_position
         GamePlayer.background_id GamePlayer.outfit_name] in Q1, Q2.
  split; [|split; [|split]].
  - intros q.
    destruct (Z.eq_dec q id1) as [->|Hq1];
      [rewrite Q1, H1; now destruct player1|].
    destruct (Z.eq_dec q id2) as [->|Hq2];
      [rewrite Q2, H2; now destruct player2|].
    rewrite Qq, Pq by assumption. reflexivity.
  - intros q. rewrite T'.
    destruct (get (tile_numbers (_pack_data g)) id1) as [t1|] eqn:E1;
      [destruct (get (tile_numbers (_pack_data g)) id2) as [t2|] eqn:E2|];
      rewrite T, ?E1, ?E2; [|reflexivity..].
    rewrite (get_set_other _ _ id2 id1) by congruence.
    rewrite !get_set_same. apply set_set_back; assumption.
  - now rewrite N', N.
  - now rewrite O', O.
Qed.

(** The loop of [_build_swap_chain] only ever appends links that the
    player states record, and not more of them than there are states. *)
Lemma build_swap_chain_loop_links (g : GameState) (fuel : nat) :
  forall (chain : list (Z * Z)) (visited : list Z) (current_id : Z),
    let recorded (link : Z * Z) :=
      exists state,
        get (player_states g) (fst link) = Some state
        /\ TransformationState.form_owner_user_id state = Some (snd link)
        /\ fst link <> snd link in
    (forall link, In link chain -> recorded link) ->
    NoDup visited ->
    incl visited (keys (player_states g)) ->
    (List.length chain <= List.length visited)%nat ->
    let result := Manager.build_swap_chain_loop fuel g chain visited current_id in
    (forall link, In link result -> recorded link)
    /\ (List.length result <= List.length (player_states g))%nat
    /\ (chain = [] -> forall a b rest, result = (a, b) :: rest -> a = current_id).
Proof.
  assert (Hfull : forall (chain : list (Z * Z)) (visited : list Z),
             NoDup visited -> incl visited (keys (player_states g)) ->
             (List.length chain <= List.length visited)%nat ->
             (List.length chain <= List.length (player_states g))%nat).
  { intros chain visited Hnd Hincl Hlen.
    pose proof (NoDup_incl_length Hnd Hincl) as Hl.
    unfold keys in Hl. rewrite length_map in Hl. lia. }
  induction fuel as [|fuel IH]; intros chain visited current_id recorded Hrec Hnd Hincl Hlen;
    cbn [Manager.build_swap_chain_loop].
  { cbv zeta. split; [exact Hrec|]. split; [eauto|]. intros -> a b rest. discriminate. }
  assert (Hstop : (forall link, In link chain -> recorded link)
                  /\ (List.length chain <= List.length (player_states g))%nat
                  /\ (chain = [] -> forall a b rest, chain = (a, b) :: rest -> a = current_id)).
  { split; [exact Hrec|]. split; [eauto|]. intros -> a b rest. discriminate. }
  destruct (current_id =? 0); cbn [orb]; [exact Hstop|].
  destruct (in_list current_id visited) eqn:Eseen; [exact Hstop|].
  destruct (get (player_states g) current_id) as [state|] eqn:Eget; [|exact Hstop].
  destruct (TransformationState.form_owner_user_id state) as [other_id|] eqn:Eown;
    [|exact Hstop].
  destruct (other_id =? 0); [exact Hstop|].
  destruct (Z.eqb_spec other_id current_id) as [|Hne]; [exact Hstop|].
  assert (Hnd' : NoDup (current_id :: visited)).
  { constructor; [|exact Hnd]. now apply in_list_false_iff. }
  assert (Hincl' : incl (current_id :: visited) (keys (player_states g))).
  { intros k [<-|Hk]; [|now apply Hincl].
    apply mem_true_iff. unfold mem. now rewrite Eget. }
  assert (Hlink : recorded (current_id, other_id)).
  { exists state. cbn. repeat split; try assumption. congruence. }
  destruct (Manager.pair_in current_id other_id chain
            || Manager.pair_in other_id current_id chain) eqn:Epair.
  - destruct (IH chain (current_id :: visited) other_id Hrec Hnd' Hincl')
      as (R1 & R2 & _); [cbn; lia|].
    split; [exact R1|]. split; [exact R2|].
    intros ->. cbn in Epair. discriminate.
  - destruct (IH (chain ++ [(current_id, other_id)])%list (current_id :: visited) other_id)
      as (R1 & R2 & _); try assumption.
    { intros link Hin. apply in_app_iff in Hin.
      destruct Hin as [Hin|[<-|[]]]; [now apply Hrec | exact Hlink]. }
    { rewrite length_app. cbn. lia. }
    split; [exact R1|]. split; [exact R2|].
    intros -> a b rest Hres. cbn [app] in Hres.
    (* the chain that starts with this link keeps it in front *)
    clear -Hres.
    assert (Hhead : forall fuel' chain' visited' cur',
               chain' <> [] ->
               exists tail, Manager.build_swap_chain_loop fuel' g chain' visited' cur'
                            = (hd (0, 0) chain' :: tail)).
    { induction fuel' as [|fuel' IHf]; intros chain' visited' cur' Hc;
        cbn [Manager.build_swap_chain_loop].
      - destruct chain' as [|l ls]; [congruence|]. now exists ls.
      - assert (Hsame : exists tail, chain' = hd (0, 0) chain' :: tail).
        { destruct chain' as [|l ls]; [congruence|]. now exists ls. }
        destruct (cur' =? 0); cbn [orb]; [exact Hsame|].
        destruct (in_list cur' visited'); [exact Hsame|].
        destruct (get (player_states g) cur') as [st|]; [|exact Hsame].
        destruct (TransformationState.form_owner_user_id st) as [o|]; [|exact Hsame].
        destruct (o =? 0); [exact Hsame|].
        destruct (o =? cur'); [exact Hsame|].
        destruct (Manager.pair_in cur' o chain' || Manager.pair_in o cur' chain').
        + now apply IHf.
        + destruct chain' as [|l ls]; [congruence|].
          destruct (IHf ((l :: ls) ++ [(cur', o)])%list (cur' :: visited') o) as [tail Ht];
            [discriminate|].
          exists tail. exact Ht. }
    destruct (Hhead fuel [(current_id, other_id)] (current_id :: visited) other_id)
      as [tail Ht]; [discriminate|].
    rewrite Ht in Hres. cbn in Hres. congruence.
Qed.

(** X21.  The chain that [_build_swap_chain] builds follows the exchanges
    on record: every link (a, b) of it is a player [a] whose state is owned
    by another player [b]; when the chain is not empty it starts at the
    player asked for; and it has no more links than there are player
    states. *)
Theorem swap_chain_follows_the_recorded_exchanges (g : GameState) (start_user_id : Z) :
  let chain := Manager._build_swap_chain g start_user_id in
  (forall a b,
      In (a, b) chain ->
      exists state,
        get (player_states g) a = Some state
        /\ TransformationState.form_owner_user_id state = Some b
        /\ a <> b)
  /\ (List.length chain <= List.length (player_states g))%nat
  /\ (forall a b rest, chain = (a, b) :: rest -> a = start_user_id).
Proof.
  unfold Manager._build_swap_chain.
  destruct (build_swap_chain_loop_links g (S (List.length (player_states g)))
              [] [] start_user_id) as (H1 & H2 & H3).
  - intros link [].
  - constructor.
  - intros k [].
  - cbn. lia.
  - cbv zeta. split; [|split; [exact H2 | exact (H3 eq_refl)]].
    intros a b Hin. exact (H1 (a, b) Hin).
Qed.

End SwapFacts.

(** ** The lock of a thread around a command *)

Section LockFacts.

Import PyDict PyDictFacts Serializer.

Variable starts_with_bang : string -> bool.
Variable first_word_lower : string -> string.
Variable link_urls : string -> list Embed.t.
Variable _detect_and_load_game_thread : Channel.t -> option GameState.
Variable _handle_narrator_message : GameState -> Message.t -> GameState * result unit.
Variable render_panel : GameState -> Message.t -> bool -> GameState * result bool.

Local Abbreviation handle' :=
  (handle_message starts_with_bang first_word_lower link_urls
     _detect_and_load_game_thread _handle_narrator_message render_panel).
Local Abbreviation replay' :=
  (replay_queued_message starts_with_bang first_word_lower link_urls
     _detect_and_load_game_thread _handle_narrator_message render_panel).
Local Abbreviation process' :=
  (_process_queued_messages starts_with_bang first_word_lower link_urls
     _detect_and_load_game_thread _handle_narrator_message render_panel).
Local Abbreviation execute' :=
  (_execute_gameboard_command starts_with_bang first_word_lower link_urls
     _detect_and_load_game_thread _handle_narrator_message render_panel).













(** While the lock of the thread is held, a queued message is neither
    replayed nor warned about: a record goes to the log and that is all. *)
Lemma replay_behind_a_lock thread_id s message_data :
  get (_command_locks s) thread_id = Some true ->
  let s' := replay' thread_id s message_data in
  _command_locks s' = _command_locks s
  /\ _message_queues s' = _message_queues s
  /\ handle_message_calls s' = handle_message_calls s
  /\ drop_warnings s' = drop_warnings s
  /\ deleted s' = deleted s
  /\ _active_games s' = _active_games s.
Proof.
  intros Hheld. unfold replay_queued_message.
  destruct (QueuedMessage message_data) as [queued_message records].
  unfold _get_command_lock. cbn [_command_locks add_log]. rewrite Hheld.
  cbv zeta. repeat split.
Qed.

(** X19.  Queued messages are lost when the lock is held again at the
    time of their replay: [_process_queued_messages] empties the queue of
    the thread all the same, hands none of the messages to
    [handle_message], sends no warning to the chat, and leaves the
    sessions, the locks and the other queues as they were. *)
Theorem queued_messages_are_dropped_when_the_lock_is_held_at_replay
  (s : State) (game_state : GameState) :
  get (_command_locks s) (game_thread_id game_state) = Some true ->
  let thread_id := game_thread_id game_state in
  let s' := process' s game_state in
  queue_of s' thread_id = []
  /\ handle_message_calls s' = handle_message_calls s
  /\ drop_warnings s' = drop_warnings s
  /\ deleted s' = deleted s
  /\ _active_games s' = _active_games s
  /\ _command_locks s' = _command_locks s
  /\ forall k, k <> thread_id -> queue_of s' k = queue_of s k.
Proof.
  intros Hheld thread_id s'. subst s'. unfold _process_queued_messages. fold thread_id.
  unfold queue_of at 1.
  destruct (get (_message_queues s) thread_id) as [[|d rest]|] eqn:Eq.
  - rewrite Eq. repeat split.
  - set (s1 := with_message_queues s (set (_message_queues s) thread_id [])).
    assert (Hgen : forall messages st,
               get (_command_locks st) thread_id = Some true ->
               let st' := fold_left (replay' thread_id) messages st in
               _command_locks st' = _command_locks st
               /\ _message_queues st' = _message_queues st
               /\ handle_message_calls st' = handle_message_calls st
               /\ drop_warnings st' = drop_warnings st
               /\ deleted st' = deleted st
               /\ _active_games st' = _active_games st).
    { induction messages as [|m ms IH]; intros st Hst; [cbn; repeat split|].
      cbn [fold_left].
      destruct (replay_behind_a_lock thread_id st m Hst) as (A1 & A2 & A3 & A4 & A5 & A6).
      cbv zeta in A1, A2, A3, A4, A5, A6.
      destruct (IH (replay' thread_id st m)) as (B1 & B2 & B3 & B4 & B5 & B6).
      { now rewrite A1. }
      cbv zeta in B1, B2, B3, B4, B5, B6 |- *. repeat split; congruence. }
    destruct (Hgen (d :: rest) s1 Hheld) as (C1 & C2 & C3 & C4 & C5 & C6).
    cbv zeta in C1, C2, C3, C4, C5, C6. rewrite C2.
    split; [subst s1; cbn; now rewrite get_set_same|].
    repeat split; try assumption.
    intros k Hk. unfold queue_of. rewrite C2. subst s1. cbn.
    rewrite get_set_other by congruence. reflexivity.
  - rewrite Eq. repeat split.
Qed.

End LockFacts.
(** ** Numbering the save files *)

Section SaveFacts.

(** X22.  The number of the next automatic save is always 1, 2 or 3.
    When the automatic saves found carry numbers among 1, 2, 3 and one of
    the three is free, the number chosen is free, and it is the lowest
    free one; when all three are taken, it is 1, the save to overwrite. *)
Theorem autosave_number_is_the_lowest_free_slot (existing : list Z) :
  let next := Commands._get_next_autosave_number existing in
  1 <= next <= 3
  /\ ((forall k, In k existing -> 1 <= k <= 3) ->
      (exists free, 1 <= free <= 3 /\ ~ In free existing) ->
      ~ In next existing
      /\ forall lower, 1 <= lower < next -> In lower existing)
  /\ ((forall k, In k existing -> 1 <= k <= 3) ->
      In 1 existing -> In 2 existing -> In 3 existing -> next = 1).
Proof.
  cbv zeta. unfold Commands._get_next_autosave_number.
  set (numbers := nodup Z.eq_dec existing).
  assert (Hin : forall k, in_list k numbers = true <-> In k existing).
  { intros k. rewrite in_list_true_iff. subst numbers. apply nodup_In. }
  assert (Hout : forall k, in_list k numbers = false <-> ~ In k existing).
  { intros k. rewrite <- Hin. destruct (in_list k numbers); intuition congruence. }
  assert (Hnodup : NoDup numbers) by apply NoDup_nodup.
  split; [|split].
  - destruct (List.length numbers =? 3)%nat; [lia|].
    destruct numbers; [lia|]. cbn [find].
    repeat match goal with
           | |- context [negb ?b] => destruct b; cbn [negb]
           end; lia.
  - intros Hslots (free & Hfree & Hnot).
    assert (Hlen : (List.length numbers <= 2)%nat).
    { assert (Hincl : incl numbers (List.remove Z.eq_dec free [1; 2; 3])).
      { intros k Hk. apply in_in_remove.
        - intros ->. apply Hnot. apply Hin. now apply in_list_true_iff.
        - assert (Hk' : In k existing) by (apply Hin; now apply in_list_true_iff).
          specialize (Hslots k Hk'). simpl. lia. }
      pose proof (NoDup_incl_length Hnodup Hincl) as Hle.
      assert (Hrem : (List.length (List.remove Z.eq_dec free [1%Z; 2%Z; 3%Z]) <= 2)%nat).
      { assert (Hcase : free = 1 \/ free = 2 \/ free = 3) by lia.
        destruct Hcase as [-> | [-> | ->]]; cbn; lia. }
      lia. }
    destruct (Nat.eqb_spec (List.length numbers) 3) as [E|_]; [lia|].
    destruct numbers as [|n0 rest] eqn:Enumbers.
    + split.
      * apply Hout. reflexivity.
      * intros lower Hlower. lia.
    + rewrite <- Enumbers in *. cbn [find].
      destruct (in_list 1 numbers) eqn:E1; cbn [negb].
      2:{ split; [now apply Hout | intros lower Hlower; lia]. }
      destruct (in_list 2 numbers) eqn:E2; cbn [negb].
      2:{ split; [now apply Hout|]. intros lower Hlower.
          assert (lower = 1) as -> by lia. now apply Hin. }
      destruct (in_list 3 numbers) eqn:E3; cbn [negb].
      2:{ split; [now apply Hout|]. intros lower Hlower.
          assert (Hcase : lower = 1 \/ lower = 2) by lia.
          destruct Hcase as [-> | ->]; now apply Hin. }
      exfalso. assert (Hcase : free = 1 \/ free = 2 \/ free = 3) by lia.
      destruct Hcase as [-> | [-> | ->]]; apply Hnot; now apply Hin.
  - intros Hslots H1 H2 H3.
    destruct (List.length numbers =? 3)%nat; [reflexivity|].
    destruct numbers as [|n0 rest] eqn:Enumbers; [reflexivity|].
    rewrite <- Enumbers in *. cbn [find].
    apply Hin in H1, H2, H3. rewrite H1, H2, H3. reflexivity.
Qed.

Lemma fold_max_bounds (rest : list Z) :
  forall first,
    first <= fold_left Z.max rest first
    /\ (forall k, In k rest -> k <= fold_left Z.max rest first)
    /\ In (fold_left Z.max rest first) (first :: rest).
Proof.
  induction rest as [|x rest IH]; intros first; cbn [fold_left].
  - split; [lia|]. split; [intros k []|now left].
  - destruct (IH (Z.max first x)) as (H1 & H2 & H3).
    split; [lia|]. split.
    + intros k [<-|Hk]; [lia | now apply H2].
    + destruct H3 as [H3|H3]; [|right; now right].
      rewrite <- H3. destruct (Z.max_spec first x) as [[_ ->]|[_ ->]];
        [right; now left | now left].
Qed.

(** X23.  The number of the next manual save has not been used: it is
    greater than the number of every manual save found, it is one more
    than one of them, and it is 1 when there is none. *)
Theorem manual_save_number_is_one_more_than_the_highest (existing_numbers : list Z) :
  let next := Commands._get_next_manualsave_number existing_numbers in
  (forall k, In k existing_numbers -> k < next)
  /\ (existing_numbers = [] -> next = 1)
  /\ (existing_numbers <> [] -> In (next - 1) existing_numbers).
Proof.
  cbv zeta. unfold Commands._get_next_manualsave_number.
  destruct existing_numbers as [|n rest].
  - split; [intros k []|]. split; [reflexivity | congruence].
  - destruct (fold_max_bounds rest n) as (H1 & H2 & H3).
    split; [intros k [<-|Hk]; [lia | specialize (H2 k Hk); lia]|].
    split; [discriminate|]. intros _.
    replace (fold_left Z.max rest n + 1 - 1) with (fold_left Z.max rest n) by lia.
    exact H3.
Qed.

End SaveFacts.
(** ** The leaderboard of the turn summary *)

Section LeaderboardFacts.

Import PyStr PyDict PyDictFacts.

Variable display_name : Z -> option string.

Lemma insert_by_key_In {A : Type} (key : A -> Z) (x y : A) (sorted : list A) :
  In y (Pack.insert_by_key key x sorted) <-> y = x \/ In y sorted.
Proof.
  induction sorted as [|z rest IH]; cbn.
  - intuition.
  - destruct (key x <=? key z); cbn; rewrite ?IH; intuition.
Qed.

Lemma sort_by_key_In {A : Type} (key : A -> Z) (y : A) (xs : list A) :
  In y (Pack.sort_by_key key xs) <-> In y xs.
Proof.
  induction xs as [|x rest IH]; cbn; [reflexivity|].
  fold (Pack.sort_by_key key rest). rewrite insert_by_key_In, IH. intuition.
Qed.

Lemma sort_by_key_length {A : Type} (key : A -> Z) (xs : list A) :
  List.length (Pack.sort_by_key key xs) = List.length xs.
Proof.
  induction xs as [|x rest IH]; cbn; [reflexivity|].
  fold (Pack.sort_by_key key rest). rewrite <- IH.
  generalize (Pack.sort_by_key key rest). intros sorted.
  induction sorted as [|z zs IHs]; cbn; [reflexivity|].
  destruct (key x <=? key z); cbn; [reflexivity | now rewrite IHs].
Qed.

Lemma sort_by_tile_highest_first {A : Type} (xs : list (Z * Z * A)) :
  highest_tile_first (Pack.sort_by_key (fun entry => - snd (fst entry)) xs).
Proof.
  induction xs as [|x rest IH]; cbn; [exact I|].
  fold (Pack.sort_by_key (fun entry : Z * Z * A => - snd (fst entry)) rest).
  revert IH. generalize (Pack.sort_by_key (fun entry : Z * Z * A => - snd (fst entry)) rest).
  intros sorted. induction sorted as [|z zs IHs]; intros Hsorted; cbn.
  - split; [intros later []| exact I].
  - destruct Hsorted as [Hz Hzs].
    destruct (Z.leb_spec (- snd (fst x)) (- snd (fst z))) as [Hle|Hgt]; cbn.
    + split; [|split; assumption].
      intros later [<-|Hlater]; [lia | specialize (Hz later Hlater); lia].
    + split; [|now apply IHs].
      intros later Hlater. apply insert_by_key_In in Hlater.
      destruct Hlater as [->|Hlater]; [lia | now apply Hz].
Qed.

(** X24.  The leaderboard of the turn summary lists the players who have
    a tile, each with that tile, and no one else; no entry stands on a
    higher tile than an entry before it; and the summary is the text "No
    players in game." exactly when nobody who has a tile is a player of
    the game. *)
Theorem leaderboard_lists_the_players_highest_tile_first
  (game_state : GameState) (game_config : GameConfig) :
  let board := Pack.player_positions game_state in
  let tiles := tile_numbers (_pack_data game_state) in
  (forall user_id tile player,
      In (user_id, tile, player) board
      <-> In (user_id, tile) (items tiles)
          /\ get (players game_state) user_id = Some player)
  /\ highest_tile_first board
  /\ List.length board
     = List.length (filter (fun item => mem (players game_state) (fst item)) (items tiles))
  /\ (Pack.get_turn_summary display_name game_state game_config
      = "No players in game."%string
      <-> forall user_id, In user_id (keys tiles) -> mem (players game_state) user_id = false).
Proof.
  cbv zeta. unfold Pack.player_positions.
  set (tiles := tile_numbers (_pack_data game_state)).
  set (listed := flat_map _ (items tiles)).
  assert (Hlisted : forall user_id tile player,
             In (user_id, tile, player) listed
             <-> In (user_id, tile) (items tiles)
                 /\ get (players game_state) user_id = Some player).
  { intros user_id tile player. subst listed. rewrite in_flat_map. split.
    - intros ([u t] & Hitem & Hin). cbn [fst snd] in Hin.
      destruct (get (players game_state) u) as [p|] eqn:Ep; [|contradiction].
      destruct Hin as [[= <- <- <-]|[]]. split; assumption.
    - intros [Hitem Hp]. exists (user_id, tile). split; [exact Hitem|].
      cbn [fst snd]. rewrite Hp. now left. }
  assert (Hlength : List.length listed
                    = List.length (filter (fun item => mem (players game_state) (fst item))
                                     (items tiles))).
  { clear Hlisted. subst listed. unfold mem. induction (items tiles) as [|[u t] rest IH]; [reflexivity|].
    cbn [flat_map filter fst snd]. rewrite length_app, IH.
    destruct (get (players game_state) u); reflexivity. }
  split; [|split; [|split]].
  - intros user_id tile player. rewrite sort_by_key_In. apply Hlisted.
  - apply sort_by_tile_highest_first.
  - rewrite sort_by_key_length. exact Hlength.
  - unfold Pack.get_turn_summary, Pack.player_positions. fold tiles. fold listed.
    pose proof (sort_by_key_length (fun entry : Z * Z * GamePlayer.t => - snd (fst entry))
                  listed) as Hsame.
    destruct (Pack.sort_by_key _ listed) as [|first others] eqn:Esorted.
    + split; [|reflexivity]. intros _ user_id Hkey.
      destruct (mem (players game_state) user_id) eqn:Emem; [|reflexivity].
      exfalso. unfold mem in Emem.
      destruct (get (players game_state) user_id) as [player|] eqn:Ep; [|discriminate].
      apply in_map_iff in Hkey. destruct Hkey as ([u t] & Hu & Hitem).
      cbn [fst] in Hu. subst u.
      assert (Hin : In (user_id, t, player) listed) by (apply Hlisted; now split).
      destruct listed; [contradiction | discriminate Hsame].
    + split; [discriminate|]. intros Hnone. exfalso.
      assert (Hin : In first listed).
      { apply (sort_by_key_In (fun entry : Z * Z * GamePlayer.t => - snd (fst entry))).
        rewrite Esorted. now left. }
      destruct first as [[u t] p]. apply Hlisted in Hin. destruct Hin as [Hitem Hp].
      assert (Hkey : In u (keys tiles)).
      { apply in_map_iff. exists (u, t). now split. }
      specialize (Hnone u Hkey). unfold mem in Hnone. rewrite Hp in Hnone. discriminate.
Qed.

End LeaderboardFacts.
(** ** What an administrator may do *)

Section AdminFacts.

Variable default_character_name : option string.
Variable default_outfit_name : option string.

(** X25.  An administrator of the server who is not the game master of
    the session passes [_is_gm], and can end the game and hand it over to
    somebody else; but starting, pausing and resuming the game, adding and
    removing players and rolling for another player are refused to them:
    the session stays as it was. *)
Theorem administrator_can_only_end_the_game_or_hand_it_over
  (g : GameState) (author : Serializer.Author.t) (member : option Z)
  (cfg : option GameConfig) (target : Z) :
  Serializer.Author.is_member author = true ->
  Serializer.Author.is_admin author = true ->
  Serializer.Author.id author <> gm_user_id g ->
  Commands._is_gm author g = true
  /\ Commands.command_start g author = (g, Commands.OnlyTheGM)
  /\ Commands.command_pause g author = (g, Commands.OnlyTheGM)
  /\ Commands.command_resume g author = (g, Commands.OnlyTheGM)
  /\ Commands.command_addplayer default_character_name default_outfit_name
       g author member cfg = (g, Commands.OnlyTheGM)
  /\ Commands.command_removeplayer g author member = (g, Commands.OnlyTheGM)
  /\ (target <> Serializer.Author.id author ->
      Commands.dice_player g author (Some target) <> inr target)
  /\ Commands.command_endgame g author = (with_is_locked g true, Commands.NowEnded)
  /\ forall member_id,
       member_id <> gm_user_id g ->
       snd (Commands.command_transfergm g author (Some member_id))
       = Commands.GMTransferred
       /\ gm_user_id (fst (Commands.command_transfergm g author (Some member_id)))
          = member_id.
Proof.
  intros Hmember Hadmin Hother.
  assert (Hgm : Commands._is_actual_gm author g = false).
  { unfold Commands._is_actual_gm. rewrite Hmember. cbn [negb].
    apply Z.eqb_neq. congruence. }
  unfold Commands._is_gm, Commands.command_start, Commands.command_pause,
    Commands.command_resume, Commands.command_addplayer, Commands.command_removeplayer,
    Commands.command_endgame, Commands.command_transfergm, Commands.dice_player.
  rewrite Hmember, Hadmin, Hgm. cbn [negb orb].
  repeat (split; [reflexivity|]).
  split.
  - intros Htarget.
    destruct (negb (game_started g)); [discriminate|].
    destruct (negb (PyDict.mem (players g) (Serializer.Author.id author)));
      [discriminate|]. congruence.
  - split; [reflexivity|]. intros member_id Hnew.
    destruct (Z.eqb_spec member_id (gm_user_id g)) as [|_]; [contradiction|].
    cbn [fst snd]. split; [reflexivity|].
    repeat match goal with
           | |- context [match ?x with _ => _ end] => destruct x
           end; reflexivity.
Qed.

End AdminFacts.

Lemma administrator_can_only_end_the_game_or_hand_it_over_witness :
  let admin := Serializer.Author.mk 50 false true true in
  Commands.command_pause midgame_session admin = (midgame_session, Commands.OnlyTheGM)
  /\ Commands.command_endgame midgame_session admin
     = (with_is_locked midgame_session true, Commands.NowEnded).
Proof.
  destruct (administrator_can_only_end_the_game_or_hand_it_over None None
              midgame_session
              (Serializer.Author.mk 50 false true true) (Some 2) (Some snake_config) 2
              eq_refl eq_refl)
    as (_ & _ & Hpause & _ & _ & _ & _ & Hend & _); [discriminate|].
  cbv zeta. split; [exact Hpause | exact Hend].
Defined.
(** ** Adding a newcomer *)

Section NewcomerFacts.

Import PyDict PyDictFacts.

Variable default_character_name : option string.
Variable default_outfit_name : option string.

Lemma on_player_added_players_new (g : GameState) (p : Z) (cfg : GameConfig) :
  mem (tile_numbers (_pack_data g)) p = false ->
  players (Pack.on_player_added g p cfg)
  = players (Pack.set_grid_position g p (starting_position (rules cfg))).
Proof.
  intros Htile. unfold Pack.on_player_added. rewrite Htile. cbn [negb].
  unfold Pack.set_grid_position. fields.
  destruct (get (players g) p); reflexivity.
Qed.

Lemma mem_false_get {V : Type} (d : dict V) (k : Z) :
  mem d k = false -> get d k = None.
Proof. unfold mem. destruct (get d k); [discriminate | reflexivity]. Qed.

(** X26.  When the game master adds a member who has not been in the
    game, in a session whose players carry the numbers 1, 2, 3, ... in
    turn order, the member becomes a player at the starting position of
    the board, on the starting tile, last in the turn order and with the
    next number, which the answer names; the other players are as they
    were and the session stays numbered in order. *)
Theorem game_master_seats_a_newcomer
  (g : GameState) (author : Serializer.Author.t) (p : Z) (cfg : GameConfig) :
  Commands._is_actual_gm author g = true ->
  mem (players g) p = false ->
  numbered (_pack_data g) ->
  ~ In p (turn_order (_pack_data g)) ->
  mem (tile_numbers (_pack_data g)) p = false ->
  mem (removed_player_positions (_pack_data g)) p = false ->
  let added :=
    Commands.command_addplayer default_character_name default_outfit_name
      g author (Some p) (Some cfg) in
  let number := Z.of_nat (List.length (turn_order (_pack_data g))) + 1 in
  snd added = Commands.PlayerAdded false (Some number)
  /\ get (players (fst added)) p
     = Some (GamePlayer.mk p default_character_name
               (starting_position (rules cfg)) (Some 415) default_outfit_name)
  /\ (forall q, q <> p -> get (players (fst added)) q = get (players g) q)
  /\ Pack.get_player_tile_number (fst added) p = starting_tile (rules cfg)
  /\ turn_order (_pack_data (fst added)) = (turn_order (_pack_data g) ++ [p])%list
  /\ Pack.get_player_number (fst added) p = Some number
  /\ (forall q, q <> p ->
        Pack.get_player_number (fst added) q = Pack.get_player_number g q)
  /\ numbered (_pack_data (fst added)).
Proof.
  intros Hgm Hnew Hnum Horder Htile Hremoved added number.
  assert (Hmember : Serializer.Author.is_member author = true).
  { unfold Commands._is_actual_gm in Hgm.
    destruct (Serializer.Author.is_member author); [reflexivity | discriminate]. }
  assert (Hnumber : get (player_numbers (_pack_data g)) p = None).
  { apply get_None_iff. intros Hkey. destruct Hnum as (_ & Hkeys & _).
    apply Horder. now apply Hkeys. }
  subst added. unfold Commands.command_addplayer.
  rewrite Hmember, Hgm. cbv zeta. rewrite Hnew. cbn [andb negb].
  rewrite Hnumber, (mem_false_get _ _ Htile), (mem_false_get _ _ Hremoved).
  cbn [opt_str_truthy].
  set (gs1 := with_players g _).
  assert (Hdata1 : _pack_data gs1 = _pack_data g) by reflexivity.
  assert (Hnum1 : numbered (_pack_data gs1)) by (rewrite Hdata1; exact Hnum).
  assert (Horder1 : ~ In p (turn_order (_pack_data gs1))) by (rewrite Hdata1; exact Horder).
  assert (Htile1 : mem (tile_numbers (_pack_data gs1)) p = false)
    by (rewrite Hdata1; exact Htile).
  destruct (on_player_added_numbers_newcomer gs1 p cfg Hnum1 Horder1)
    as (Ao & An & Anum).
  destruct (on_player_added_frame gs1 p cfg) as (At & _).
  pose proof (on_player_added_players_new gs1 p cfg Htile1) as Ap.
  cbv zeta in Ao, An, Anum, At. rewrite Htile1 in At. rewrite Hdata1 in Ao, An, At.
  set (gs2 := Pack.on_player_added gs1 p cfg) in *. cbn [fst snd].
  assert (Hplayers : players gs2
                     = set (players gs1) p
                         (GamePlayer.mk p default_character_name
                            (starting_position (rules cfg)) (Some 415)
                            default_outfit_name)).
  { rewrite Ap. unfold Pack.set_grid_position. subst gs1. fields.
    rewrite get_set_same. reflexivity. }
  clearbody gs2.
  unfold Pack.get_player_number, Pack.get_player_tile_number, Pack.tile_of.
  rewrite An, At, Ao, Hplayers, !get_set_same. fold number.
  split; [reflexivity|]. split; [reflexivity|].
  split.
  { intros q Hq. subst gs1. fields. rewrite !get_set_other by congruence. reflexivity. }
  split; [reflexivity|]. split; [reflexivity|]. split; [reflexivity|].
  split; [intros q Hq; apply get_set_other; congruence|].
  exact Anum.
Qed.

End NewcomerFacts.

Lemma game_master_seats_a_newcomer_witness :
  let added := Commands.command_addplayer None None midgame_session game_master
                 (Some 4) (Some snake_config) in
  snd added = Commands.PlayerAdded false (Some 4)
  /\ PyDict.get (players (fst added)) 4
     = Some (GamePlayer.mk 4 None "A1" (Some 415) None)
  /\ Pack.get_player_tile_number (fst added) 4 = 1
  /\ turn_order (_pack_data (fst added)) = [1; 2; 3; 4].
Proof.
  assert (Hnum : numbered (_pack_data midgame_session)).
  { unfold numbered. simpl. split; [|split].
    - repeat constructor; simpl; intuition discriminate.
    - intros u Hu. exact Hu.
    - reflexivity. }
  assert (Hnew : ~ In 4 (turn_order (_pack_data midgame_session))).
  { simpl. intuition discriminate. }
  destruct (game_master_seats_a_newcomer None None midgame_session game_master 4
              snake_config eq_refl eq_refl Hnum Hnew eq_refl eq_refl)
    as (Hanswer & Hplayer & _ & Htile & Horder & _).
  cbv zeta. split; [exact Hanswer|]. split; [exact Hplayer|].
  split; [exact Htile | exact Horder].
Defined.
(** ** The properties above on the example sessions *)

(** The coordinates of the classic board are read back as the cells they
    name. *)
Lemma classic_coordinates_are_read_back (c r : Z) :
  1 <= c <= 10 -> 1 <= r <= 10 ->
  Board.parse_alphanumeric_coordinate (coordinate c r) = Some (c, r).
Proof.
  intros Hc Hr.
  assert (Hcs : In c [1; 2; 3; 4; 5; 6; 7; 8; 9; 10]) by (simpl; lia).
  assert (Hrs : In r [1; 2; 3; 4; 5; 6; 7; 8; 9; 10]) by (simpl; lia).
  clear Hc Hr. simpl in Hcs, Hrs.
  repeat (destruct Hcs as [<-|Hcs]); try contradiction;
    repeat (destruct Hrs as [<-|Hrs]); try contradiction; reflexivity.
Qed.

Lemma board_coordinate_is_valid_move_up_to_goal_witness :
  tile_number_to_alphanumeric 16 (classic_config [] []) = Ok (Some "E2"%string)
  /\ Pack.validate_move Board.parse_alphanumeric_coordinate midgame_session 1 "E2"
       (classic_config [] [])
     = (true, None).
Proof.
  split; [reflexivity|].
  apply (board_coordinate_is_valid_move_up_to_goal
           Board.parse_alphanumeric_coordinate midgame_session 1
           (classic_config [] []) 16 "E2");
    [ intros c r Hc Hr; apply classic_coordinates_are_read_back; assumption
    | simpl; lia | simpl; lia | reflexivity | simpl; lia ].
Defined.

Lemma announced_player_is_the_one_allowed_to_roll_witness :
  Commands._get_next_player_info no_display_name midgame_session (Some snake_config)
  = Some (1, "Alice"%string, 1, "User 1"%string)
  /\ Pack.get_player_number midgame_session 1 = Some 1
  /\ Pack.roll_rejection midgame_session 1 snake_config = None.
Proof.
  split; [reflexivity|].
  assert (Hnumbers : forall u,
             In u (turn_order (_pack_data midgame_session)) ->
             PyDict.mem (players midgame_session) u = true ->
             PyDict.mem (player_numbers (_pack_data midgame_session)) u = true).
  { intros u Hu _. simpl in Hu.
    repeat (destruct Hu as [<-|Hu]); try contradiction; reflexivity. }
  destruct (announced_player_is_the_one_allowed_to_roll no_display_name
              midgame_session snake_config Hnumbers) as [_ Hnext].
  destruct (Hnext 1 "Alice"%string 1 "User 1"%string eq_refl) as [Hnumber Hroll].
  split; [exact Hnumber | apply Hroll; reflexivity].
Defined.

Lemma turn_is_over_when_every_active_player_has_rolled_witness :
  exists g' msg complete,
    Pack.on_dice_rolled no_tile_info plain_win_text two_rolled_session 3 2 snake_config
    = (g', Ok (msg, true, None, complete))
    /\ (complete = true
        <-> forall u, In u (turn_order (_pack_data g')) ->
                      active g' 100 u = true ->
                      In u (players_rolled_this_turn (_pack_data g'))).
Proof.
  apply (turn_is_over_when_every_active_player_has_rolled no_tile_info plain_win_text
           two_rolled_session snake_config 3 2);
    [ reflexivity | simpl; lia | simpl; tauto
    | repeat constructor; simpl; intuition discriminate
    | repeat constructor; simpl; intuition discriminate ].
Defined.

Lemma second_roll_in_a_turn_is_turned_down_witness :
  exists g' msg complete,
    Pack.on_dice_rolled no_tile_info plain_win_text midgame_session 1 3 snake_config
    = (g', Ok (msg, true, None, complete))
    /\ exists msg',
         Pack.on_dice_rolled no_tile_info plain_win_text g' 1 4 snake_config
         = (g', Ok (msg', false, None, false))
         /\ msg' <> ""%string.
Proof.
  apply (second_roll_in_a_turn_is_turned_down no_tile_info plain_win_text
           midgame_session snake_config 1 3 4); [reflexivity | simpl; lia].
Defined.

Lemma roll_turned_down_by_the_pack_changes_nothing_witness :
  Commands.dice_player midgame_session game_master (Some 2) = inr 2
  /\ fst (Commands.command_dice no_tile_info plain_win_text midgame_session
            game_master (Some 2) (Some snake_config) 5)
     = midgame_session.
Proof.
  split; [reflexivity|].
  destruct (Pack.roll_rejection midgame_session 2 snake_config)
    as [[msg complete]|] eqn:Hrejected; [|discriminate Hrejected].
  apply (roll_turned_down_by_the_pack_changes_nothing no_tile_info plain_win_text
           midgame_session game_master (Some 2) snake_config 5 2 msg complete);
    [reflexivity | reflexivity | reflexivity | exact Hrejected].
Defined.

Lemma roll_advances_the_turn_exactly_when_it_completes_it_witness :
  exists g1 msg complete,
    Pack.on_dice_rolled no_tile_info plain_win_text two_rolled_session 3 2 snake_config
    = (g1, Ok (msg, true, None, complete))
    /\ let done := Commands.command_dice no_tile_info plain_win_text
                     two_rolled_session player_three None (Some snake_config) 2 in
       snd done = Commands.DiceRolled msg complete
       /\ turn_count (fst done) = 3 + (if complete then 1 else 0)
       /\ tile_numbers (_pack_data (fst done)) = tile_numbers (_pack_data g1)
       /\ players_rolled_this_turn (_pack_data (fst done))
          = (if complete then [] else [1; 2; 3])
       /\ (complete = true ->
           players_reached_end_this_turn (_pack_data (fst done)) = []).
Proof.
  apply (roll_advances_the_turn_exactly_when_it_completes_it no_tile_info
           plain_win_text two_rolled_session player_three None snake_config 2 3);
    [reflexivity | reflexivity | reflexivity | reflexivity | simpl; lia].
Defined.

Lemma dice_are_blocked_unless_the_game_runs_witness :
  fst (Commands.command_dice no_tile_info plain_win_text
         (with_is_paused midgame_session true) player_one None (Some snake_config) 4)
  = with_is_paused midgame_session true.
Proof.
  apply (dice_are_blocked_unless_the_game_runs no_tile_info plain_win_text
           (with_is_paused midgame_session true) player_one None (Some snake_config) 4).
  right. left. reflexivity.
Defined.

Lemma ended_game_is_not_touched_by_the_turn_commands_witness :
  let ended := fst (Commands.command_endgame midgame_session game_master) in
  is_locked ended = true
  /\ fst (Commands.command_start ended game_master) = ended
  /\ fst (Commands.command_dice no_tile_info plain_win_text ended player_one None
            (Some snake_config) 4) = ended.
Proof.
  cbv zeta.
  split; [reflexivity|].
  destruct (ended_game_is_not_touched_by_the_turn_commands no_tile_info plain_win_text
              (fst (Commands.command_endgame midgame_session game_master))
              game_master None (Some snake_config) 4 eq_refl)
    as (Hstart & _).
  destruct (ended_game_is_not_touched_by_the_turn_commands no_tile_info plain_win_text
              (fst (Commands.command_endgame midgame_session game_master))
              player_one None (Some snake_config) 4 eq_refl)
    as (_ & _ & _ & Hdice & _).
  split; [exact Hstart | exact Hdice].
Defined.

Lemma pause_then_resume_gives_the_session_back_witness :
  let paused := fst (Commands.command_pause midgame_session game_master) in
  is_paused paused = true
  /\ Commands.command_resume paused game_master = (midgame_session, Commands.NowResumed)
  /\ Commands.command_start paused game_master = (midgame_session, Commands.NowResumed).
Proof.
  apply (pause_then_resume_gives_the_session_back midgame_session game_master).
  reflexivity.
Defined.

Lemma paused_game_has_been_started_witness :
  (is_paused midgame_session = true -> game_started midgame_session = true)
  /\ (is_paused (fst (Commands.command_pause midgame_session game_master)) = true ->
      game_started (fst (Commands.command_pause midgame_session game_master)) = true).
Proof.
  assert (Hkept : is_paused midgame_session = true -> game_started midgame_session = true)
    by (intros _; reflexivity).
  split; [exact Hkept|].
  destruct (paused_game_has_been_started midgame_session game_master Hkept)
    as (_ & Hpause & _).
  exact Hpause.
Defined.

Lemma transfer_makes_the_member_game_master_witness :
  let g' := fst (Commands.command_transfergm midgame_session game_master (Some 2)) in
  gm_user_id g' = 2
  /\ 2 <> gm_user_id midgame_session
  /\ narrator_user_id g' <> Some (gm_user_id midgame_session)
  /\ (narrator_user_id g' = Some 2
      <-> Serializer.has_character midgame_session 2 = false)
  /\ players g' = players midgame_session
  /\ _pack_data g' = _pack_data midgame_session.
Proof.
  apply (transfer_makes_the_member_game_master midgame_session game_master 2).
  reflexivity.
Defined.

Lemma removal_by_the_game_master_is_a_forfeit_witness :
  fst (Commands.command_removeplayer midgame_session game_master (Some 2))
  = Manager.command_gamequit midgame_session 2
  /\ in_list 2
       (forfeited_players
          (_pack_data
             (fst (Commands.command_removeplayer midgame_session game_master (Some 2)))))
     = true.
Proof.
  apply (removal_by_the_game_master_is_a_forfeit midgame_session game_master 2);
    reflexivity.
Defined.

Lemma quitting_and_being_added_again_restores_the_seat_witness :
  let quit := Manager.command_gamequit midgame_session 2 in
  let back := Commands.command_addplayer None None quit game_master (Some 2)
                (Some snake_config) in
  in_list 2 (forfeited_players (_pack_data quit)) = true
  /\ snd back = Commands.PlayerAdded true (Some 2)
  /\ players (fst back) = players midgame_session
  /\ tile_numbers (_pack_data (fst back)) = tile_numbers (_pack_data midgame_session)
  /\ turn_order (_pack_data (fst back)) = turn_order (_pack_data midgame_session)
  /\ player_numbers (_pack_data (fst back)) = player_numbers (_pack_data midgame_session)
  /\ forfeited_players (_pack_data (fst back))
     = forfeited_players (_pack_data midgame_session)
  /\ Pack.get_transformation_count (fst back) 2 = Some 0.
Proof.
  apply (quitting_and_being_added_again_restores_the_seat None None midgame_session
           game_master 2 snake_config (example_player 2 "Bob" "D1" 2 "formal") 4 2);
    try reflexivity.
  - simpl. tauto.
  - simpl. tauto.
Defined.


Lemma queued_messages_are_dropped_when_the_lock_is_held_at_replay_witness :
  let waiting :=
    Serializer.enqueue busy_manager 700
      (fst (Serializer.capture no_links second_message)) in
  let s' := Serializer._process_queued_messages bang_prefix whole_text no_links
              nothing_on_disk silent_narrator accepting_renderer
              waiting forfeited_session in
  List.length (queue_of waiting 700) = 1%nat
  /\ queue_of s' 700 = []
  /\ Serializer.handle_message_calls s' = Serializer.handle_message_calls waiting
  /\ Serializer.drop_warnings s' = Serializer.drop_warnings waiting.
Proof.
  cbv zeta. split; [reflexivity|].
  destruct (queued_messages_are_dropped_when_the_lock_is_held_at_replay
              bang_prefix whole_text no_links nothing_on_disk silent_narrator
              accepting_renderer
              (Serializer.enqueue busy_manager 700
                 (fst (Serializer.capture no_links second_message)))
              forfeited_session eq_refl)
    as (Hqueue & Hcalls & Hwarnings & _).
  split; [exact Hqueue|]. split; [exact Hcalls | exact Hwarnings].
Defined.

Lemma swap_exchanges_characters_and_keeps_the_seats_witness :
  let g' := Manager.command_swap unswapped_session 1 2 in
  option_map GamePlayer.character_name (PyDict.get (players g') 1)
  = Some (Some "Bob"%string)
  /\ PyDict.get (tile_numbers (_pack_data g')) 1 = Some 4
  /\ PyDict.get (tile_numbers (_pack_data g')) 2 = Some 10
  /\ player_numbers (_pack_data g') = [(1, 1); (2, 2); (3, 3)].
Proof.
  destruct (swap_exchanges_characters_and_keeps_the_seats unswapped_session 1 2
              (example_player 1 "Alice" "J1" 1 "casual")
              (example_player 2 "Bob" "D1" 2 "formal"))
    as (Hfirst & _ & _ & Htiles & Hnumbers & _);
    [discriminate | reflexivity | reflexivity |].
  cbv zeta. rewrite Hfirst.
  destruct (Htiles 10 4 eq_refl eq_refl) as [Htile1 Htile2].
  split; [reflexivity|]. split; [exact Htile1|]. split; [exact Htile2 | exact Hnumbers].
Defined.

Lemma swapping_twice_gives_characters_and_tiles_back_witness :
  let g'' := Manager.command_swap (Manager.command_swap unswapped_session 1 2) 1 2 in
  PyDict.get (players g'') 1 = PyDict.get (players unswapped_session) 1
  /\ PyDict.get (tile_numbers (_pack_data g'')) 2 = Some 4.
Proof.
  destruct (swapping_twice_gives_characters_and_tiles_back unswapped_session 1 2
              (example_player 1 "Alice" "J1" 1 "casual")
              (example_player 2 "Bob" "D1" 2 "formal"))
    as (Hplayers & Htiles & _); [discriminate | reflexivity | reflexivity |].
  cbv zeta. split; [apply Hplayers | apply Htiles].
Defined.
